(** * SpotGPS: the [MapMeClass] of [SpotGPS.py]

    A shallow embedding of the class that loads a Google Location Services
    export into a pandas DataFrame, derives calendar fields from the epoch
    timestamp, rescales the E7 coordinates and plots the current view.

    Layout of the development:
    - [py]  : the Python builtins the class relies on ([str], [int], [/]);
    - [pd]  : the fragment of pandas used by the class (DataFrame, [read_json],
              [from_dict], [filter], [to_datetime], the [dt] accessor, [loc]);
    - [go]  : the plotly graph objects, as plain records;
    - the methods of [MapMeClass], under their own names, in a state and
      exception monad over a store of DataFrame objects;
    - the properties of the class. *)

From Stdlib Require Import ZArith String Ascii Lia.
From Corelib Require PrimFloat PrimInt63.
From stdpp Require Import gmap strings list fin_maps pretty.

#[local] Open Scope Z_scope.

Abbreviation float := PrimFloat.float.

(** ** Python builtins *)

Module py.

Import PrimInt63 PrimFloat.

(** Exceptions raised by the code and by the library calls it makes. *)
Inductive exn :=
| KeyError (key : string)
| ValueError
| TypeError
| IndexError
| IndexingError          (* pandas.errors.IndexingError, not an IndexError *)
| AttributeError (name : string)
| OutOfBoundsDatetime
| FileNotFoundError
| NotModelled.           (* the run left the fragment embedded here *)

#[global] Instance exn_eq_dec : EqDecision exn.
Proof. solve_decision. Defined.

(** [NotModelled] is no exception of Python: it marks a run that left the
    fragment embedded here. A statement about the exception a call raises
    is about the others. *)
Definition raised (e : exn) : Prop := e ≠ NotModelled.

(** A value passed by keyword to a library call. *)
Inductive value :=
| VNone
| VBool (b : bool)
| VInt (z : Z)
| VFloat (f : float)
| VStr (s : string).

(** *** int -> float64 and back *)

Fixpoint uint63_of_pos (p : positive) : PrimInt63.int :=
  match p with
  | xH => 1%uint63
  | xO q => PrimInt63.lsl (uint63_of_pos q) 1%uint63
  | xI q => PrimInt63.lor (PrimInt63.lsl (uint63_of_pos q) 1%uint63) 1%uint63
  end.

(** [float(z)] for an integer of magnitude below 2^63 (every int64 but its
    minimum): sign and magnitude, the magnitude rounded to nearest. *)
Definition float_of_Z (z : Z) : float :=
  match z with
  | Z0 => PrimFloat.zero
  | Zpos p => PrimFloat.of_uint63 (uint63_of_pos p)
  | Zneg p => PrimFloat.opp (PrimFloat.of_uint63 (uint63_of_pos p))
  end.

Fixpoint Z_of_uint63_go (fuel : nat) (i : PrimInt63.int) : Z :=
  match fuel with
  | O => 0
  | S fuel' =>
      if PrimInt63.eqb i 0%uint63 then 0
      else 2 * Z_of_uint63_go fuel' (PrimInt63.lsr i 1%uint63)
           + (if PrimInt63.eqb (PrimInt63.land i 1%uint63) 0%uint63 then 0 else 1)
  end.
Definition Z_of_uint63 : PrimInt63.int → Z := Z_of_uint63_go 63.

(** The integer a float64 holds, when it holds one: [Some z] iff [f] is
    finite and integral. ([frshiftexp] biases the exponent by 2101; the
    mantissa is the 53-bit integer of the fraction in [0.5, 1).) *)
Definition Z_of_float (f : float) : option Z :=
  if PrimFloat.is_nan f || PrimFloat.is_infinity f then None
  else if PrimFloat.is_zero f then Some 0
  else
    let '(m, e) := PrimFloat.frshiftexp f in
    let mant := Z_of_uint63 (PrimFloat.normfr_mantissa m) in
    let k := Z_of_uint63 e - 2101 - 53 in
    let mag :=
      if 0 <=? k then Some (mant * 2 ^ k)
      else if mant mod 2 ^ (- k) =? 0 then Some (mant / 2 ^ (- k))
      else None in
    if PrimFloat.ltb f PrimFloat.zero then Z.opp <$> mag else mag.

(** *** [str] *)

(** [str(z)] for an int: the decimal numeral, ["-"] in front of a negative
    one, no padding. *)
Definition str_int (z : Z) : string := pretty z.

(** [str(f)] for a float64. Python prints the shortest numeral that reads
    back as [f]; embedded here for NaN, the infinities and the integral
    values below 10^16, which print as the integer followed by [.0]. *)
Definition str_float (f : float) : option string :=
  if PrimFloat.is_nan f then Some "nan"%string
  else if PrimFloat.eqb f PrimFloat.infinity then Some "inf"%string
  else if PrimFloat.eqb f PrimFloat.neg_infinity then Some "-inf"%string
  else
    match Z_of_float f with
    | Some z =>
        if Z.abs z <? 10 ^ 16 then
          Some ((if PrimFloat.ltb f PrimFloat.zero && (z =? 0) then "-0"%string
                 else str_int z) +:+ ".0")
        else None
    | None => None
    end.

(** [int(n / 2)] on a length: true division to a float64, then truncation
    toward zero. The quotient of an int below 2^53 by 2 is exact in
    float64, so the result is the truncated integer quotient. *)
Definition int_truediv (n d : Z) : Z := Z.quot n d.

End py.

(** ** The proleptic Gregorian calendar of a UTC epoch timestamp *)

Module calendar.

Definition ms_per_day : Z := 86400000.

(** Whole days since 1970-01-01 and milliseconds into the day; both round
    toward minus infinity, so the time of day is never negative. *)
Definition days_of_ms (ms : Z) : Z := ms / ms_per_day.
Definition ms_of_day (ms : Z) : Z := ms mod ms_per_day.

(** Year, month and day of a day number, by 400-year eras that start on a
    1 March (so that the leap day is the last of its year). *)
Definition civil_from_days (days : Z) : Z * Z * Z :=
  let z := days + 719468 in
  let era := z / 146097 in
  let doe := z - era * 146097 in
  let yoe := (doe - doe / 1460 + doe / 36524 - doe / 146096) / 365 in
  let doy := doe - (365 * yoe + yoe / 4 - yoe / 100) in
  let mp := (5 * doy + 2) / 153 in
  let d := doy - (153 * mp + 2) / 5 + 1 in
  let m := if mp <? 10 then mp + 3 else mp - 9 in
  let y := yoe + era * 400 in
  (if m <=? 2 then y + 1 else y, m, d).

Definition year (ms : Z) : Z := (civil_from_days (days_of_ms ms)).1.1.
Definition month (ms : Z) : Z := (civil_from_days (days_of_ms ms)).1.2.
Definition day (ms : Z) : Z := (civil_from_days (days_of_ms ms)).2.
Definition hour (ms : Z) : Z := ms_of_day ms / 3600000.
Definition minute (ms : Z) : Z := ms_of_day ms / 60000 mod 60.
Definition second (ms : Z) : Z := ms_of_day ms / 1000 mod 60.

(** The calendar the fields are read against: leap years, month lengths
    and the day number of a date, counted from the definition. *)
Definition is_leap (y : Z) : bool :=
  ((y mod 4 =? 0) && negb (y mod 100 =? 0)) || (y mod 400 =? 0).

Definition days_in_month (y m : Z) : Z :=
  if m =? 2 then (if is_leap y then 29 else 28)
  else if (m =? 4) || (m =? 6) || (m =? 9) || (m =? 11) then 30
  else 31.

Definition days_before_year (y : Z) : Z :=
  let p := y - 1 in 365 * p + p / 4 - p / 100 + p / 400.

Fixpoint days_before_month_go (y : Z) (n : nat) : Z :=
  match n with
  | O => 0
  | S n' => days_before_month_go y n' + days_in_month y (Z.of_nat n)
  end.
Definition days_before_month (y m : Z) : Z :=
  days_before_month_go y (Z.to_nat (m - 1)).

Definition day_number (y m d : Z) : Z :=
  days_before_year y - days_before_year 1970 + days_before_month y m + (d - 1).

Definition valid_date (y m d : Z) : bool :=
  (1 <=? m) && (m <=? 12) && (1 <=? d) && (d <=? days_in_month y m).

(** Epoch milliseconds of a calendar instant. *)
Definition epoch_ms (y m d h mi s milli : Z) : Z :=
  day_number y m d * ms_per_day + h * 3600000 + mi * 60000 + s * 1000 + milli.

(** What pandas accepts under [unit='ms']: the instant must fit a signed
    64-bit count of nanoseconds. *)
Definition max_ms : Z := 9223372036854.
Definition in_bounds (ms : Z) : bool := (- max_ms <=? ms) && (ms <=? max_ms).

End calendar.

(** ** The fragment of pandas the class uses *)

Module pd.

Import py.

(** A value of the JSON export: an integer or a string. (Floats, booleans,
    nulls and nested values do not occur in the three fields the class
    reads and are not embedded; an integer is taken to fit a signed 64-bit
    word, as the columns of the frame require.) *)
Inductive jvalue := JInt (z : Z) | JStr (s : string).

(** One cell of a column. A missing value is the float NaN, a missing
    instant is NaT; instants are kept as UTC epoch milliseconds. *)
Inductive cell :=
| CInt (z : Z)
| CFloat (f : float)
| CStr (s : string)
| CTime (t : option Z).

Definition NaN : cell := CFloat PrimFloat.nan.

(** A DataFrame: row labels, and the columns in their order. *)
Record DataFrame := {
  index : list nat;
  columns : list (string * list cell)
}.

Definition column_names (df : DataFrame) : list string := (columns df).*1.

Fixpoint lookup_column (name : string) (cols : list (string * list cell))
  : option (list cell) :=
  match cols with
  | [] => None
  | (c, v) :: rest => if String.eqb c name then Some v else lookup_column name rest
  end.

Fixpoint assign_column (name : string) (v : list cell)
    (cols : list (string * list cell)) : list (string * list cell) :=
  match cols with
  | [] => [(name, v)]
  | (c, w) :: rest =>
      if String.eqb c name then (c, v) :: rest
      else (c, w) :: assign_column name v rest
  end.

(** [df[name]] *)
Definition getitem (name : string) (df : DataFrame) : exn + list cell :=
  match lookup_column name (columns df) with
  | Some v => inr v
  | None => inl (KeyError name)
  end.

(** [df[name] = v]: overwrite the column where it stands, or append it;
    the values must be as many as the rows. *)
Definition setitem (name : string) (v : list cell) (df : DataFrame)
  : exn + DataFrame :=
  if decide (length v = length (index df)) then
    inr {| index := index df; columns := assign_column name v (columns df) |}
  else inl ValueError.

(** *** [pd.read_json(filepath, orient='values')] *)

(** What a path leads to: no file; a file that is no JSON document; a
    document of the shape of the export, a top-level object whose members
    are arrays of records; or a JSON document of another shape (an array
    or a scalar at the top, a member that is no array of records, a record
    with a value that is no integer or string), which lies outside the
    fragment embedded here. *)
Inductive file :=
| Missing
| Unparsable
| Parsed (doc : gmap string (list (gmap string jvalue)))
| OtherShape.

(** The frame built from the top-level object has one column per member;
    the arrays must have one length. The columns hold the objects as they
    are, so the frame is kept as the map of its columns. *)
Definition read_json (filepath : file)
  : exn + gmap string (list (gmap string jvalue)) :=
  match filepath with
  | Missing => inl FileNotFoundError
  | Unparsable => inl ValueError
  | Parsed doc =>
      match map_to_list doc with
      | [] => inr doc
      | (_, v) :: _ =>
          if decide (map_Forall (λ _ w, length w = length v) doc)
          then inr doc else inl ValueError
      end
  | OtherShape => inl NotModelled
  end.

(** [json_data[key].tolist()] *)
Definition getitem_tolist (key : string)
    (json_data : gmap string (list (gmap string jvalue)))
  : exn + list (gmap string jvalue) :=
  match json_data !! key with
  | Some l => inr l
  | None => inl (KeyError key)
  end.

(** *** [pd.DataFrame.from_dict(dict_list)] *)

Definition is_JInt (v : option jvalue) : bool :=
  match v with Some (JInt _) => true | _ => false end.

Definition is_JStr (v : option jvalue) : bool :=
  match v with Some (JStr _) => true | _ => false end.

(** The cells of one column of a list of records. A column of integers is
    an integer column; integers with gaps become floats, the gaps NaN; as
    soon as a string occurs the column holds the objects themselves. *)
Definition infer_column (raw : list (option jvalue)) : list cell :=
  if forallb is_JInt raw then
    (λ v, match v with Some (JInt z) => CInt z | _ => NaN end) <$> raw
  else if existsb is_JStr raw then
    (λ v, match v with
          | Some (JInt z) => CInt z
          | Some (JStr s) => CStr s
          | None => NaN
          end) <$> raw
  else
    (λ v, match v with Some (JInt z) => CFloat (float_of_Z z) | _ => NaN end) <$> raw.

(** The labels of the frame: every key of every record. *)
Definition labels_of (dict_list : list (gmap string jvalue)) : gset string :=
  ⋃ (dom <$> dict_list).

Definition from_dict (dict_list : list (gmap string jvalue)) : DataFrame :=
  {| index := seq 0 (length dict_list);
     columns := (λ c, (c, infer_column ((λ r, r !! c) <$> dict_list)))
                  <$> elements (labels_of dict_list) |}.

(** [df.filter(items=...)]: the columns named in [items] that the frame
    has, in the order of [items]. *)
Definition filter_items (items : list string) (df : DataFrame) : DataFrame :=
  {| index := index df;
     columns := omap (λ c, (λ v, (c, v)) <$> lookup_column c (columns df)) items |}.

(** A fallible function over a column: the first failure is the result. *)
Fixpoint mapM {A B} (f : A → exn + B) (l : list A) : exn + list B :=
  match l with
  | [] => inr []
  | a :: rest =>
      match f a with
      | inl e => inl e
      | inr b =>
          match mapM f rest with
          | inl e => inl e
          | inr bs => inr (b :: bs)
          end
      end
  end.

(** *** [pd.to_datetime(series, unit='ms')] *)

Definition ascii_code (c : ascii) : Z := Z.of_N (N_of_ascii c).

Definition digit_of (c : ascii) : option Z :=
  let n := ascii_code c in
  if (48 <=? n) && (n <=? 57) then Some (n - 48) else None.

Fixpoint digits_value (acc : Z) (s : string) : option Z :=
  match s with
  | EmptyString => Some acc
  | String c rest =>
      match digit_of c with
      | Some d => digits_value (10 * acc + d) rest
      | None => None
      end
  end.

(** A plain decimal integer numeral, with an optional sign. *)
Definition int_literal (s : string) : option Z :=
  match s with
  | EmptyString => None
  | String c rest =>
      if Ascii.eqb c "-" then
        (if String.eqb rest "" then None else Z.opp <$> digits_value 0 rest)
      else if Ascii.eqb c "+" then
        (if String.eqb rest "" then None else digits_value 0 rest)
      else digits_value 0 s
  end.

(** The ASCII characters a numeral read by [float()] can contain: digits,
    signs, the point, the exponent mark, the underscore, blanks, and the
    letters of [inf], [infinity] and [nan]. *)
Definition float_alphabet : string :=
  "0123456789+-.eE_ infatyINFATY".

Fixpoint string_mem (c : ascii) (s : string) : bool :=
  match s with
  | EmptyString => false
  | String d rest => Ascii.eqb c d || string_mem c rest
  end.

(** An ASCII character outside that alphabet: [float()] rejects the
    string whatever else it holds. (The ASCII blanks other than the space,
    codes 9 to 13 and 28 to 31, belong to the alphabet.) *)
Definition foreign_char (c : ascii) : bool :=
  let n := ascii_code c in
  (n <? 128) && negb (string_mem c float_alphabet)
  && negb ((9 <=? n) && (n <=? 13)) && negb ((28 <=? n) && (n <=? 31)).

Fixpoint has_foreign_char (s : string) : bool :=
  match s with
  | EmptyString => false
  | String c rest => foreign_char c || has_foreign_char rest
  end.

(** The syntax [float()] reads, on ASCII strings: blanks around, a sign,
    then [inf], [infinity] or [nan] in any case, or a decimal numeral: digits
    with an optional point and an optional exponent, at least one digit
    before or after the point, an underscore only between two digits. *)
Definition is_blank (c : ascii) : bool :=
  let n := ascii_code c in
  ((9 <=? n) && (n <=? 13)) || ((28 <=? n) && (n <=? 32)).

Definition is_digit (c : ascii) : bool :=
  let n := ascii_code c in (48 <=? n) && (n <=? 57).

Fixpoint lstrip (s : string) : string :=
  match s with
  | EmptyString => EmptyString
  | String c rest => if is_blank c then lstrip rest else s
  end.

Fixpoint rstrip (s : string) : string :=
  match s with
  | EmptyString => EmptyString
  | String c rest =>
      match rstrip rest with
      | EmptyString => if is_blank c then EmptyString else String c EmptyString
      | kept => String c kept
      end
  end.

Definition lower (c : ascii) : ascii :=
  let n := ascii_code c in
  if (65 <=? n) && (n <=? 90) then ascii_of_N (N_of_ascii c + 32) else c.

Fixpoint lowered (s : string) : string :=
  match s with
  | EmptyString => EmptyString
  | String c rest => String (lower c) (lowered rest)
  end.

(** Where the reading of a numeral stands: at its start, in the digits
    before the point, after the point, in the exponent; after an
    underscore a digit is due. *)
Inductive numeral_state :=
| AtStart | InInteger | IntegerGap | PointFirst | PointAfter | InFraction
| FractionGap | ExponentMark | ExponentSign | InExponent | ExponentGap.

Definition numeral_step (q : numeral_state) (c : ascii) : option numeral_state :=
  let exponent := Ascii.eqb c "e" || Ascii.eqb c "E" in
  let sign := Ascii.eqb c "+" || Ascii.eqb c "-" in
  match q with
  | AtStart =>
      if is_digit c then Some InInteger
      else if Ascii.eqb c "." then Some PointFirst else None
  | InInteger =>
      if is_digit c then Some InInteger
      else if Ascii.eqb c "_" then Some IntegerGap
      else if Ascii.eqb c "." then Some PointAfter
      else if exponent then Some ExponentMark else None
  | IntegerGap => if is_digit c then Some InInteger else None
  | PointFirst => if is_digit c then Some InFraction else None
  | PointAfter =>
      if is_digit c then Some InFraction
      else if exponent then Some ExponentMark else None
  | InFraction =>
      if is_digit c then Some InFraction
      else if Ascii.eqb c "_" then Some FractionGap
      else if exponent then Some ExponentMark else None
  | FractionGap => if is_digit c then Some InFraction else None
  | ExponentMark =>
      if is_digit c then Some InExponent
      else if sign then Some ExponentSign else None
  | ExponentSign => if is_digit c then Some InExponent else None
  | InExponent =>
      if is_digit c then Some InExponent
      else if Ascii.eqb c "_" then Some ExponentGap else None
  | ExponentGap => if is_digit c then Some InExponent else None
  end.

Definition numeral_done (q : numeral_state) : bool :=
  match q with
  | InInteger | PointAfter | InFraction | InExponent => true
  | _ => false
  end.

Fixpoint numeral_from (q : numeral_state) (s : string) : bool :=
  match s with
  | EmptyString => numeral_done q
  | String c rest =>
      match numeral_step q c with
      | Some q' => numeral_from q' rest
      | None => false
      end
  end.

Definition unsigned (s : string) : string :=
  match s with
  | String c rest => if Ascii.eqb c "+" || Ascii.eqb c "-" then rest else s
  | EmptyString => s
  end.

Definition float_syntax (s : string) : bool :=
  let body := unsigned (rstrip (lstrip s)) in
  bool_decide (lowered body ∈ ["inf"; "infinity"; "nan"]%string)
  || numeral_from AtStart body.

Fixpoint all_ascii (s : string) : bool :=
  match s with
  | EmptyString => true
  | String c rest => (ascii_code c <? 128) && all_ascii rest
  end.

(** The strings [float()] is known to reject: those that hold an ASCII
    character no numeral can hold, and the ASCII strings outside the
    syntax. (A string with other characters, among which Unicode has
    digits and blanks of its own, is left open.) *)
Definition float_rejects (s : string) : bool :=
  has_foreign_char s || (all_ascii s && negb (float_syntax s)).

Definition nat_strings : list string :=
  ["NaT"; "nat"; "NAT"; "nan"; "NaN"; "NAN"]%string.

Definition check_bounds (ms : Z) : exn + option Z :=
  if calendar.in_bounds ms then inr (Some ms) else inl OutOfBoundsDatetime.

(** The integer that stands for NaT in an int64 column, and the float64
    equal to it. *)
Definition iNaT : Z := - 2 ^ 63.

Definition float_iNaT : float :=
  PrimFloat.opp (PrimFloat.mul (float_of_Z (2 ^ 62)) (float_of_Z 2)).

(** The integers of an int64 column. *)
Definition fits_int64 (z : Z) : bool := (- 2 ^ 63 <=? z) && (z <? 2 ^ 63).

(** One value under [unit='ms']. An integer is the count itself; NaN and
    the integer or float equal to [iNaT] are NaT; a string is NaT when empty
    or a NaT word, else it is read by [float()]: an integer numeral gives
    its value, a string [float()] rejects raises ValueError. A count that
    does not fit a nanosecond instant raises OutOfBoundsDatetime. Not
    embedded, and marked so: integers outside int64 (an export cannot put
    them in an integer column), non-integral floats, and the strings
    [float()] reads that are no integer numeral (a fraction, an exponent,
    blanks around, an underscore). *)
Definition to_datetime_cell (c : cell) : exn + option Z :=
  match c with
  | CInt z =>
      if z =? iNaT then inr None
      else if fits_int64 z then check_bounds z
      else inl NotModelled
  | CFloat f =>
      if PrimFloat.is_nan f || PrimFloat.eqb f float_iNaT then inr None
      else if PrimFloat.is_infinity f then inl OutOfBoundsDatetime
      else match Z_of_float f with
           | Some z => check_bounds z
           | None => inl NotModelled
           end
  | CStr s =>
      if String.eqb s "" || bool_decide (s ∈ nat_strings) then inr None
      else match int_literal s with
           | Some z => check_bounds z
           | None => if float_rejects s then inl ValueError else inl NotModelled
           end
  | CTime t => inr t
  end.

(** The whole column is converted or the call raises: the first value that
    cannot be converted decides the exception. *)
Definition to_datetime (values : list cell) : exn + list (option Z) :=
  mapM to_datetime_cell values.

(** *** The [dt] accessor *)

(** A calendar field of every instant: integers, unless an instant is
    missing, in which case the column is of floats and NaN stands for the
    field of NaT. *)
Definition dt_field (field : Z → Z) (date_time : list (option Z)) : list cell :=
  if forallb (λ t, bool_decide (is_Some t)) date_time then
    (λ t, CInt (field (default 0 t))) <$> date_time
  else
    (λ t, match t with
          | Some ms => CFloat (float_of_Z (field ms))
          | None => NaN
          end) <$> date_time.

(** [date_time.dt.to_pydatetime()] *)
Definition to_pydatetime (date_time : list (option Z)) : list cell :=
  CTime <$> date_time.

(** *** Elementwise operations on a column *)

(** [series.astype(str)] *)
Definition str_cell (c : cell) : exn + cell :=
  match c with
  | CInt z => inr (CStr (str_int z))
  | CFloat f =>
      match str_float f with
      | Some s => inr (CStr s)
      | None => inl NotModelled
      end
  | CStr s => inr (CStr s)
  | CTime _ => inl NotModelled
  end.
Definition astype_str : list cell → exn + list cell := mapM str_cell.

(** [series + sep], for a Python string [sep] *)
Definition add_str (sep : string) (c : cell) : exn + cell :=
  match c with
  | CStr s => inr (CStr (s +:+ sep))
  | _ => inl TypeError
  end.
Definition series_add_str (v : list cell) (sep : string) : exn + list cell :=
  mapM (add_str sep) v.

(** [series + series], both on the same index *)
Definition add_cells (p : cell * cell) : exn + cell :=
  match p with
  | (CStr s, CStr t) => inr (CStr (s +:+ t))
  | _ => inl TypeError
  end.
Definition series_add (v w : list cell) : exn + list cell :=
  mapM add_cells (zip v w).

(** [series / d], for a Python int [d]: true division in float64. *)
Definition truediv_cell (d : Z) (c : cell) : exn + cell :=
  match c with
  | CInt z => inr (CFloat (PrimFloat.div (float_of_Z z) (float_of_Z d)))
  | CFloat f => inr (CFloat (PrimFloat.div f (float_of_Z d)))
  | CStr _ | CTime _ => inl TypeError
  end.
Definition series_truediv (v : list cell) (d : Z) : exn + list cell :=
  mapM (truediv_cell d) v.

(** *** [df.loc[mask, :]] *)

(** A boolean indexer: a Python list of booleans or a numpy array of
    booleans, both matched to the rows by position, or a boolean Series,
    matched to the rows by label. *)
Inductive mask :=
| MaskList (bs : list bool)
| MaskArray (bs : list bool)
| MaskSeries (s : gmap nat bool).

Definition mask_length (m : mask) : nat :=
  match m with
  | MaskList bs => length bs
  | MaskArray bs => length bs
  | MaskSeries s => size s
  end.

(** The rows of [l] at which [bs] holds. *)
Fixpoint select {A} (bs : list bool) (l : list A) : list A :=
  match bs, l with
  | b :: bs', a :: l' => if b then a :: select bs' l' else select bs' l'
  | _, _ => []
  end.

(** The booleans of the rows, in row order. A list or an array of the
    wrong length is an IndexError; but the empty list is no boolean indexer
    at all: it is a list of no labels, and selects no row of any frame. A
    Series that lacks the label of a row cannot be aligned and is an
    IndexingError. *)
Definition check_bool_indexer (idx : list nat) (m : mask) : exn + list bool :=
  match m with
  | MaskList [] => inr []
  | MaskList bs | MaskArray bs =>
      if decide (length bs = length idx) then inr bs else inl IndexError
  | MaskSeries s =>
      mapM (λ i, match s !! i with
                 | Some b => inr b
                 | None => inl IndexingError
                 end) idx
  end.

Definition loc (m : mask) (df : DataFrame) : exn + DataFrame :=
  match check_bool_indexer (index df) m with
  | inl e => inl e
  | inr bs =>
      inr {| index := select bs (index df);
             columns := (λ cv, (cv.1, select bs cv.2)) <$> columns df |}
  end.

(** [array[i]] on the values of a column: a position from the front, or a
    negative one from the back. *)
Definition values_getitem (values : list cell) (i : Z) : exn + cell :=
  let n := Z.of_nat (length values) in
  let j := if i <? 0 then i + n else i in
  if (0 <=? j) && (j <? n) then
    match values !! Z.to_nat j with
    | Some c => inr c
    | None => inl IndexError
    end
  else inl IndexError.

End pd.

(** ** The plotly graph objects, as the records the class fills in *)

Module go.

Record Marker := {
  size : Z;
  color : string;
  opacity : float
}.

Record Scattermapbox := {
  lat : list pd.cell;
  lon : list pd.cell;
  mode : string;
  text : list pd.cell;
  marker : Marker
}.

Record Center := {
  center_lat : pd.cell;
  center_lon : pd.cell
}.

Record Mapbox := {
  accesstoken : option string;
  bearing : Z;
  center : Center;
  pitch : Z;
  zoom : Z;
  style : string
}.

Record Layout := {
  autosize : bool;
  height : Z;
  width : Z;
  hovermode : string;
  mapbox : Mapbox
}.

(** A figure: its traces and the layout it was last updated with. *)
Record Figure := {
  traces : list Scattermapbox;
  figure_layout : option Layout
}.

Definition new_Figure : Figure := {| traces := []; figure_layout := None |}.
Definition add_trace (t : Scattermapbox) (f : Figure) : Figure :=
  {| traces := traces f ++ [t]; figure_layout := figure_layout f |}.
Definition update_layout (l : Layout) (f : Figure) : Figure :=
  {| traces := traces f; figure_layout := Some l |}.

(** The keywords a call hands on to [fig.show]. *)
Abbreviation keywords := (list (string * py.value)).

(** What plotly decides and the class does not. The constructors
    [go.Scattermapbox] and [go.Layout] check the properties they are given
    and raise ValueError when they reject one; [fig.show] displays the
    figure with a renderer and may raise. Which properties are rejected and
    when a display fails is left to the library: the class is embedded over
    any such library. *)
Record Plotly := {
  accepts_trace : Scattermapbox → bool;
  accepts_layout : Layout → bool;
  show : Figure → option string → keywords → py.exn + unit
}.

(** [go.Scattermapbox(scatter_dict)] and [go.Layout(layout_dict)] *)
Definition new_Scattermapbox (plotly : Plotly) (scatter_dict : Scattermapbox)
  : py.exn + Scattermapbox :=
  if accepts_trace plotly scatter_dict then inr scatter_dict else inl py.ValueError.

Definition new_Layout (plotly : Plotly) (layout_dict : Layout) : py.exn + Layout :=
  if accepts_layout plotly layout_dict then inr layout_dict else inl py.ValueError.

End go.

(** ** State and exceptions *)

(** A computation over a state [S] that returns a value or raises; the state
    at the point of the exception is kept, as Python keeps it. *)
Definition M (S A : Type) : Type := S → (py.exn + A) * S.

Definition ret {S A} (a : A) : M S A := λ s, (inr a, s).
Definition raise {S A} (e : py.exn) : M S A := λ s, (inl e, s).
Definition bind {S A B} (m : M S A) (k : A → M S B) : M S B :=
  λ s, match m s with
       | (inr a, s') => k a s'
       | (inl e, s') => (inl e, s')
       end.
Definition lift {S A} (r : py.exn + A) : M S A :=
  match r with inr a => ret a | inl e => raise e end.

Declare Scope py_scope.
Delimit Scope py_scope with py.
Notation "'let*' x ':=' m 'in' k" := (bind m (λ x, k))
  (at level 10, x name, m at level 100, k at level 200) : py_scope.
Notation "m ';;' k" := (bind m (λ _, k))
  (at level 100, k at level 200, right associativity) : py_scope.
#[local] Open Scope py_scope.

(** *** The store of DataFrame objects *)

Abbreviation ref := nat.
Abbreviation heap := (list pd.DataFrame).

(** A new object: the next free address. *)
Definition alloc (df : pd.DataFrame) : M heap ref :=
  λ h, (inr (length h), h ++ [df]).

Definition deref (r : ref) : M heap pd.DataFrame :=
  λ h, match h !! r with
       | Some df => (inr df, h)
       | None => (inl py.NotModelled, h)
       end.

(** [r[name]] *)
Definition getitem (r : ref) (name : string) : M heap (list pd.cell) :=
  let* df := deref r in lift (pd.getitem name df).

(** [r[name] = v], on the object itself: every alias of [r] sees the column. *)
Definition setitem (r : ref) (name : string) (v : list pd.cell) : M heap unit :=
  let* df := deref r in
  let* df' := lift (pd.setitem name v df) in
  λ h, (inr (), <[r := df']> h).

(** ** The class *)

(** The attributes of an instance. [data] and [_originaldata] are references
    into the store; [scatterdata] and [layout] do not exist until a plot
    sets them. *)
Record MapMeClass := {
  data : ref;
  fig : option go.Figure;
  _originaldata : ref;
  scatterdata : option go.Scattermapbox;
  layout : option go.Layout
}.

(** An instance together with the store its references point into. *)
Record world := {
  self : MapMeClass;
  mem : heap
}.

(** A store operation, run from a method. *)
Definition on_heap {A} (m : M heap A) : M world A :=
  λ w, let '(r, h) := m (mem w) in (r, {| self := self w; mem := h |}).

Definition get_self : M world MapMeClass := λ w, (inr (self w), w).
Definition set_self (f : MapMeClass → MapMeClass) : M world unit :=
  λ w, (inr (), {| self := f (self w); mem := mem w |}).

Definition set_data (r : ref) (o : MapMeClass) : MapMeClass :=
  {| data := r; fig := fig o; _originaldata := _originaldata o;
     scatterdata := scatterdata o; layout := layout o |}.
Definition set_fig (f : go.Figure) (o : MapMeClass) : MapMeClass :=
  {| data := data o; fig := Some f; _originaldata := _originaldata o;
     scatterdata := scatterdata o; layout := layout o |}.
Definition set_scatterdata (t : go.Scattermapbox) (o : MapMeClass) : MapMeClass :=
  {| data := data o; fig := fig o; _originaldata := _originaldata o;
     scatterdata := Some t; layout := layout o |}.
Definition set_layout (l : go.Layout) (o : MapMeClass) : MapMeClass :=
  {| data := data o; fig := fig o; _originaldata := _originaldata o;
     scatterdata := scatterdata o; layout := Some l |}.

(** Reading an attribute that may not exist yet. *)
Definition get_attr {A} (name : string) (field : MapMeClass → option A) : M world A :=
  let* o := get_self in
  match field o with
  | Some a => ret a
  | None => raise (py.AttributeError name)
  end.

(** [_ReadJson]: the frame of the records under ["locations"], cut down to
    the three raw fields. Each frame built on the way is an object of its
    own. *)
Definition _ReadJson (filepath : pd.file) : M heap ref :=
  let* json_data := lift (pd.read_json filepath) in
  let* dict_list := lift (pd.getitem_tolist "locations" json_data) in
  let* json_df := alloc (pd.from_dict dict_list) in
  let* df := deref json_df in
  let* json_df :=
    alloc (pd.filter_items ["latitudeE7"; "longitudeE7"; "timestampMs"]%string df) in
  ret json_df.

(** [_DeriveTimeIntervals]: the calendar columns and the display string,
    written into the frame it is given. *)
Definition _DeriveTimeIntervals (json_df : ref) : M heap ref :=
  let* ts := getitem json_df "timestampMs" in
  let* date_time := lift (pd.to_datetime ts) in
  setitem json_df "year" (pd.dt_field calendar.year date_time) ;;
  setitem json_df "month" (pd.dt_field calendar.month date_time) ;;
  setitem json_df "day" (pd.dt_field calendar.day date_time) ;;
  setitem json_df "hour" (pd.dt_field calendar.hour date_time) ;;
  setitem json_df "min" (pd.dt_field calendar.minute date_time) ;;
  setitem json_df "sec" (pd.dt_field calendar.second date_time) ;;
  setitem json_df "timestamp_fixed" (pd.to_pydatetime date_time) ;;
  let* month := getitem json_df "month" in
  let* month := lift (pd.astype_str month) in
  let* acc := lift (pd.series_add_str month "/") in
  let* day := getitem json_df "day" in
  let* day := lift (pd.astype_str day) in
  let* acc := lift (pd.series_add acc day) in
  let* acc := lift (pd.series_add_str acc "/") in
  let* year := getitem json_df "year" in
  let* year := lift (pd.astype_str year) in
  let* year := lift (pd.astype_str year) in
  let* acc := lift (pd.series_add acc year) in
  let* acc := lift (pd.series_add_str acc " ") in
  let* hour := getitem json_df "hour" in
  let* hour := lift (pd.astype_str hour) in
  let* acc := lift (pd.series_add acc hour) in
  let* acc := lift (pd.series_add_str acc ":") in
  let* min := getitem json_df "min" in
  let* min := lift (pd.astype_str min) in
  let* acc := lift (pd.series_add acc min) in
  setitem json_df "timestamp_string" acc ;;
  ret json_df.

(** [_FixLatLong]: both coordinate columns divided by 10000000, in place. *)
Definition _FixLatLong (json_df : ref) : M heap ref :=
  let* lat := getitem json_df "latitudeE7" in
  let* lat := lift (pd.series_truediv lat 10000000) in
  setitem json_df "latitudeE7" lat ;;
  let* lon := getitem json_df "longitudeE7" in
  let* lon := lift (pd.series_truediv lon 10000000) in
  setitem json_df "longitudeE7" lon ;;
  ret json_df.

(** [__init__]: load, derive, fix. [self.data] is rebound after each step
    and [self._originaldata] is bound to the same object at the end; the
    instance exists for the caller only if no step raised. *)
Definition __init__ (filepath : pd.file) : M heap MapMeClass :=
  let* d := _ReadJson filepath in
  let* d := _DeriveTimeIntervals d in
  let* d := _FixLatLong d in
  ret {| data := d; fig := None; _originaldata := d;
         scatterdata := None; layout := None |}.

(** [MapMeClass(filepath)], from a store: the world of the new instance, or
    the exception. *)
Definition construct (filepath : pd.file) (h : heap) : py.exn + world :=
  match __init__ filepath h with
  | (inr o, h') => inr {| self := o; mem := h' |}
  | (inl e, _) => inl e
  end.

(** [_SetScatterData]: the trace is made by plotly, which may reject its
    properties; [self.scatterdata] is set only when it does not. *)
Definition _SetScatterData (plotly : go.Plotly) (mode : string) (markersize : Z)
    (markercolour : string) (opacity : float) : M world unit :=
  let marker_dict :=
    {| go.size := markersize; go.color := markercolour; go.opacity := opacity |} in
  let* o := get_self in
  let* lat := on_heap (getitem (data o) "latitudeE7") in
  let* lon := on_heap (getitem (data o) "longitudeE7") in
  let* text := on_heap (getitem (data o) "timestamp_string") in
  let scatter_dict :=
    {| go.lat := lat; go.lon := lon; go.mode := mode; go.text := text;
       go.marker := marker_dict |} in
  let* trace := lift (go.new_Scattermapbox plotly scatter_dict) in
  set_self (set_scatterdata trace).

(** [_SetLayout]: the centre is read before plotly sees the layout. *)
Definition _SetLayout (plotly : go.Plotly) (height width : Z) (style : string)
    (mapbox_access_token : option string) : M world unit :=
  let* o := get_self in
  let* start_lats := on_heap (getitem (data o) "latitudeE7") in
  let* start_longs := on_heap (getitem (data o) "longitudeE7") in
  let* clat :=
    lift (pd.values_getitem start_lats
            (py.int_truediv (Z.of_nat (length start_lats)) 2)) in
  let* clon :=
    lift (pd.values_getitem start_longs
            (py.int_truediv (Z.of_nat (length start_longs)) 2)) in
  let center_dict := {| go.center_lat := clat; go.center_lon := clon |} in
  let mapbox_dict :=
    {| go.accesstoken := mapbox_access_token; go.bearing := 0;
       go.center := center_dict; go.pitch := 0; go.zoom := 7;
       go.style := style |} in
  let layout_dict :=
    {| go.autosize := true; go.height := height; go.width := width;
       go.hovermode := "closest"; go.mapbox := mapbox_dict |} in
  let* layout := lift (go.new_Layout plotly layout_dict) in
  set_self (set_layout layout).

(** [Filter]: the current view becomes a new frame, the selected rows of
    the old one. *)
Definition Filter (filter : pd.mask) : M world unit :=
  let* o := get_self in
  let* df := on_heap (deref (data o)) in
  let* view := lift (pd.loc filter df) in
  let* r := on_heap (alloc view) in
  set_self (set_data r).

(** [ClearFilter] *)
Definition ClearFilter : M world unit :=
  let* o := get_self in
  set_self (set_data (_originaldata o)).

(** [PlotMap]. The figure is shown before it is stored: when [show]
    raises, [self.fig] is what it was. *)
Definition PlotMap (plotly : go.Plotly) (mapbox_access_token : string)
    (mode : string) (markersize : Z) (markercolour : string) (opacity : float)
    (height width : Z) (style : string) (renderer : option string)
    (kwargs : go.keywords) : M world go.Figure :=
  _SetScatterData plotly mode markersize markercolour opacity ;;
  _SetLayout plotly height width style (Some mapbox_access_token) ;;
  let fig := go.new_Figure in
  let* t := get_attr "scatterdata" scatterdata in
  let fig := go.add_trace t fig in
  let* l := get_attr "layout" layout in
  let fig := go.update_layout l fig in
  lift (go.show plotly fig renderer kwargs) ;;
  set_self (set_fig fig) ;;
  ret fig.

(** The call with every keyword at its default; the opacity is the float64
    nearest 0.3. *)
Definition PlotMap_defaults (plotly : go.Plotly) (mapbox_access_token : string)
  : M world go.Figure :=
  PlotMap plotly mapbox_access_token "markers" 10 "rgb(255,0,0)"
    (PrimFloat.div (py.float_of_Z 3) (py.float_of_Z 10)) 800 1200 "outdoors"
    None [].

(** A run of [Filter] calls, one after the other; the first that raises
    ends the run. *)
Fixpoint Filters (filters : list pd.mask) : M world unit :=
  match filters with
  | [] => ret ()
  | m :: rest => Filter m ;; Filters rest
  end.

(** The frame an instance currently shows, and the one it was built with. *)
Definition view (w : world) : option pd.DataFrame := mem w !! data (self w).
Definition original (w : world) : option pd.DataFrame :=
  mem w !! _originaldata (self w).

(** The worlds a caller can get to: a construction that returned, followed
    by calls of the public methods, whether they return or raise, and
    whatever plotly does in the plots. *)
Inductive reachable : world → Prop :=
| reach_construct filepath h w :
    construct filepath h = inr w → reachable w
| reach_Filter filter w :
    reachable w → reachable (Filter filter w).2
| reach_ClearFilter w :
    reachable w → reachable (ClearFilter w).2
| reach_PlotMap plotly token mode markersize markercolour opacity height width style
    renderer kwargs w :
    reachable w →
    reachable (PlotMap plotly token mode markersize markercolour opacity height width
                 style renderer kwargs w).2.

(** * Vocabulary of the statements *)

(** The three fields the loader keeps, in the order it names them. *)
Definition raw_fields : list string :=
  ["latitudeE7"; "longitudeE7"; "timestampMs"]%string.

(** The arrays of the top-level object have one length. *)
Definition same_lengths (doc : gmap string (list (gmap string pd.jvalue))) : Prop :=
  ∀ k1 v1 k2 v2, doc !! k1 = Some v1 → doc !! k2 = Some v2 → length v1 = length v2.

(** The frame the loader returns for the records [recs]. *)
Definition loaded (recs : list (gmap string pd.jvalue)) : pd.DataFrame :=
  pd.filter_items raw_fields (pd.from_dict recs).

(** The frame [df] after [df[name] = v]. *)
Definition assigned (name : string) (v : list pd.cell) (df : pd.DataFrame)
  : pd.DataFrame :=
  {| pd.index := pd.index df;
     pd.columns := pd.assign_column name v (pd.columns df) |}.

(** Sequencing of results that may be an exception. *)
#[local] Instance exn_bind : MBind (sum py.exn) :=
  λ A B k r, match r with inl e => inl e | inr a => k a end.

(** The display string of a column of instants: the expression the code
    assigns to [timestamp_string], on the five calendar columns. *)
Definition display_strings (month day year hour min : list pd.cell)
  : py.exn + list pd.cell :=
  m ← pd.astype_str month;
  acc ← pd.series_add_str m "/";
  d ← pd.astype_str day;
  acc ← pd.series_add acc d;
  acc ← pd.series_add_str acc "/";
  y ← pd.astype_str year;
  y ← pd.astype_str y;
  acc ← pd.series_add acc y;
  acc ← pd.series_add_str acc " ";
  h ← pd.astype_str hour;
  acc ← pd.series_add acc h;
  acc ← pd.series_add_str acc ":";
  mi ← pd.astype_str min;
  pd.series_add acc mi.

(** The frame [df] once the calendar columns of [date_time] and the display
    strings [strs] are written into it. *)
Definition derived (date_time : list (option Z)) (strs : list pd.cell)
    (df : pd.DataFrame) : pd.DataFrame :=
  assigned "timestamp_string" strs
    (assigned "timestamp_fixed" (pd.to_pydatetime date_time)
    (assigned "sec" (pd.dt_field calendar.second date_time)
    (assigned "min" (pd.dt_field calendar.minute date_time)
    (assigned "hour" (pd.dt_field calendar.hour date_time)
    (assigned "day" (pd.dt_field calendar.day date_time)
    (assigned "month" (pd.dt_field calendar.month date_time)
    (assigned "year" (pd.dt_field calendar.year date_time) df))))))).

(** The raw column of a field: the cells the loader infers for it. *)
Definition raw_column (c : string) (recs : list (gmap string pd.jvalue))
  : list pd.cell :=
  pd.infer_column ((λ r, r !! c) <$> recs).

(** The frame a construction that returns leaves behind: the three fields,
    the coordinates replaced, then the derived columns in the order they
    are assigned. *)
Definition transformed (recs : list (gmap string pd.jvalue))
    (date_time : list (option Z)) (strs lat lon : list pd.cell) : pd.DataFrame :=
  {| pd.index := seq 0 (length recs);
     pd.columns :=
       [("latitudeE7", lat); ("longitudeE7", lon);
        ("timestampMs", raw_column "timestampMs" recs);
        ("year", pd.dt_field calendar.year date_time);
        ("month", pd.dt_field calendar.month date_time);
        ("day", pd.dt_field calendar.day date_time);
        ("hour", pd.dt_field calendar.hour date_time);
        ("min", pd.dt_field calendar.minute date_time);
        ("sec", pd.dt_field calendar.second date_time);
        ("timestamp_fixed", pd.to_pydatetime date_time);
        ("timestamp_string", strs)]%string |}.

(** The world after a [Filter] that returns: the view is a new object, the
    old ones are where they were. *)
Definition filtered (v : pd.DataFrame) (w : world) : world :=
  {| self := set_data (length (mem w)) (self w); mem := mem w ++ [v] |}.

(** The three columns a plot reads are there, as long as the index. *)
Definition plot_ready (df : pd.DataFrame) : Prop :=
  ∃ lats lons texts,
    pd.lookup_column "latitudeE7" (pd.columns df) = Some lats ∧
    pd.lookup_column "longitudeE7" (pd.columns df) = Some lons ∧
    pd.lookup_column "timestamp_string" (pd.columns df) = Some texts ∧
    length lats = length (pd.index df) ∧
    length lons = length (pd.index df) ∧
    length texts = length (pd.index df).

(** The trace and the layout the two setters build. *)
Definition scatter_of (mode : string) (markersize : Z) (markercolour : string)
    (opacity : float) (lats lons texts : list pd.cell) : go.Scattermapbox :=
  {| go.lat := lats; go.lon := lons; go.mode := mode; go.text := texts;
     go.marker := {| go.size := markersize; go.color := markercolour;
                     go.opacity := opacity |} |}.

Definition layout_of (height width : Z) (style : string)
    (token : option string) (clat clon : pd.cell) : go.Layout :=
  {| go.autosize := true; go.height := height; go.width := width;
     go.hovermode := "closest";
     go.mapbox :=
       {| go.accesstoken := token; go.bearing := 0;
          go.center := {| go.center_lat := clat; go.center_lon := clon |};
          go.pitch := 0; go.zoom := 7; go.style := style |} |}.

Definition with_self (f : MapMeClass → MapMeClass) (w : world) : world :=
  {| self := f (self w); mem := mem w |}.

(** The figure of a plot that returns. *)
Definition figure_of (t : go.Scattermapbox) (l : go.Layout) : go.Figure :=
  go.update_layout l (go.add_trace t go.new_Figure).

(** Plotly accepts the arguments of a plot: the mode and the marker,
    whatever the points; the size, the style and the token, whatever the
    centre; and it shows a figure with the renderer and the keywords. *)
Definition accepted (plotly : go.Plotly) (token mode : string) (markersize : Z)
    (markercolour : string) (opacity : float) (height width : Z) (style : string)
    (renderer : option string) (kwargs : go.keywords) : Prop :=
  (∀ lats lons texts,
     go.accepts_trace plotly
       (scatter_of mode markersize markercolour opacity lats lons texts) = true) ∧
  (∀ clat clon,
     go.accepts_layout plotly
       (layout_of height width style (Some token) clat clon) = true) ∧
  (∀ figure, go.show plotly figure renderer kwargs = inr ()).

(** The worlds in which both references lead to frames that can be plotted. *)
Definition sound (w : world) : Prop :=
  (∃ df, view w = Some df ∧ plot_ready df) ∧
  (∃ df, original w = Some df ∧ plot_ready df).

(** The records of a file, when it is an object with a ["locations"] array. *)
Definition records_of (filepath : pd.file) : option (list (gmap string pd.jvalue)) :=
  match filepath with
  | pd.Parsed doc => doc !! "locations"%string
  | _ => None
  end.

(** The cell of a value that is there. *)
Definition cell_of (v : pd.jvalue) : pd.cell :=
  match v with
  | pd.JInt z => pd.CInt z
  | pd.JStr s => pd.CStr s
  end.

(** A raw float64 coordinate in degrees: one division by 10000000. *)
Definition degrees (raw : float) : float :=
  PrimFloat.div raw (py.float_of_Z 10000000).

(** The float64 a coordinate field holds before the fix: the integer, or
    NaN when the record has no such field. *)
Definition coordinate (v : option pd.jvalue) : option float :=
  match v with
  | Some (pd.JInt z) => Some (py.float_of_Z z)
  | Some (pd.JStr _) => None
  | None => Some PrimFloat.nan
  end.

(** The instant a value stands for under [unit='ms'], when it stands for
    one: an integer other than the NaT marker, or an integer numeral. *)
Definition timestamp_value (v : pd.jvalue) : option Z :=
  match v with
  | pd.JInt z => if z =? pd.iNaT then None else Some z
  | pd.JStr s =>
      if String.eqb s "" || bool_decide (s ∈ pd.nat_strings) then None
      else pd.int_literal s
  end.

Definition timestamp_of (r : gmap string pd.jvalue) : option Z :=
  r !! "timestampMs"%string ≫= timestamp_value.

(** The display string of an instant: month, day, year, hour and minute as
    plain decimal numerals between the separators. *)
Definition display (ms : Z) : string :=
  py.str_int (calendar.month ms) +:+ "/" +:+ py.str_int (calendar.day ms) +:+ "/"
  +:+ py.str_int (calendar.year ms) +:+ " " +:+ py.str_int (calendar.hour ms) +:+ ":"
  +:+ py.str_int (calendar.minute ms).

(** The cell of column [c] in row position [i]. *)
Definition cell_at (df : pd.DataFrame) (c : string) (i : nat) : option pd.cell :=
  pd.lookup_column c (pd.columns df) ≫= (.!! i).

(** A string that stands for no instant, not even a missing one, because
    [float()] rejects it. *)
Definition unreadable (s : string) : Prop :=
  (s =? "")%string = false ∧ (s ∉ pd.nat_strings) ∧ pd.float_rejects s = true.

(** ** Frames, rows and runs of calls *)

(** The eleven columns of the frame of an instance, in their order. *)
Definition schema : list string :=
  ["latitudeE7"; "longitudeE7"; "timestampMs"; "year"; "month"; "day"; "hour";
   "min"; "sec"; "timestamp_fixed"; "timestamp_string"]%string.

(** Every column has one cell per row. *)
Definition rectangular (df : pd.DataFrame) : Prop :=
  Forall (λ cv, length cv.2 = length (pd.index df)) (pd.columns df).

(** The rows of [df] at which [bs] holds: the frame [df.loc[bs, :]] is made
    of. *)
Definition rows (bs : list bool) (df : pd.DataFrame) : pd.DataFrame :=
  {| pd.index := pd.select bs (pd.index df);
     pd.columns := (λ cv, (cv.1, pd.select bs cv.2)) <$> pd.columns df |}.

(** The mask over a list that selects what [bs'] selects among the rows
    [bs] keeps. *)
Fixpoint narrowed (bs bs' : list bool) : list bool :=
  match bs with
  | [] => []
  | false :: rest => false :: narrowed rest bs'
  | true :: rest =>
      match bs' with
      | [] => false :: narrowed rest []
      | b' :: rest' => b' :: narrowed rest rest'
      end
  end.

(** The worlds in which the view is a selection of rows of the original,
    and the original is a frame of the eleven columns over the labels
    0 .. n-1, n > 0. *)
Definition consistent (w : world) : Prop :=
  ∃ df0 bs,
    original w = Some df0 ∧ view w = Some (rows bs df0) ∧
    length bs = length (pd.index df0) ∧
    pd.column_names df0 = schema ∧ rectangular df0 ∧
    pd.index df0 = seq 0 (length (pd.index df0)) ∧ pd.index df0 ≠ [].

(** A run of calls of the public methods from one world to another,
    whether the calls return or raise, and whatever plotly does. *)
Inductive calls : world → world → Prop :=
| calls_none w : calls w w
| calls_Filter filter w w' : calls w w' → calls w (Filter filter w').2
| calls_ClearFilter w w' : calls w w' → calls w (ClearFilter w').2
| calls_PlotMap plotly token mode markersize markercolour opacity height width style
    renderer kwargs w w' :
    calls w w' →
    calls w (PlotMap plotly token mode markersize markercolour opacity height width
               style renderer kwargs w').2.

(** The column the coordinate fix leaves for the field [c] of the records
    [recs]. *)
Definition fixed_column (c : string) (recs : list (gmap string pd.jvalue))
  : list pd.cell :=
  (λ r, pd.CFloat (degrees (default PrimFloat.nan (coordinate (r !! c))))) <$> recs.

(** The display strings of records with numeric timestamps. *)
Definition display_column (recs : list (gmap string pd.jvalue)) : list pd.cell :=
  (λ r, pd.CStr (display (default 0 (timestamp_of r)))) <$> recs.

(** The frame of an instance built from records with numeric timestamps
    and numeric coordinates. *)
Definition constructed (recs : list (gmap string pd.jvalue)) : pd.DataFrame :=
  transformed recs (timestamp_of <$> recs) (display_column recs)
    (fixed_column "latitudeE7" recs) (fixed_column "longitudeE7" recs).

(** A record whose timestamp is a number within the bounds of a
    nanosecond instant. *)
Definition timed (r : gmap string pd.jvalue) : Prop :=
  ∃ ms, timestamp_of r = Some ms ∧ calendar.in_bounds ms = true.

(** A document all of whose integers fit a signed 64-bit word. *)
Definition int64_document (doc : gmap string (list (gmap string pd.jvalue))) : Prop :=
  ∀ k l r c z, doc !! k = Some l → r ∈ l → r !! c = Some (pd.JInt z) →
    pd.fits_int64 z = true.

(** A record that can be made a row: timed, and no string for a
    coordinate. *)
Definition well_formed (r : gmap string pd.jvalue) : Prop :=
  timed r ∧ is_Some (coordinate (r !! "latitudeE7"%string)) ∧
  is_Some (coordinate (r !! "longitudeE7"%string)).

(** The frame [df] with the first coordinate column divided: what
    [_FixLatLong] leaves when it raises on the second. *)
Definition half_fixed (lat : list pd.cell) (df : pd.DataFrame) : pd.DataFrame :=
  assigned "latitudeE7" lat df.

(** The frame after the first two steps of a construction. *)
Definition timed_frame (recs : list (gmap string pd.jvalue)) : pd.DataFrame :=
  derived (timestamp_of <$> recs) (display_column recs) (loaded recs).

(** The columns [_DeriveTimeIntervals] writes, in the order it writes
    them. *)
Definition derived_names : list string :=
  ["year"; "month"; "day"; "hour"; "min"; "sec"; "timestamp_fixed";
   "timestamp_string"]%string.

(** * Sample data *)

(** A record of the export: the three fields the class reads, the
    timestamp a string of digits as the export writes it, and a field the
    class does not read. *)
Definition sample_record (lat lon : Z) (ts : string) : gmap string pd.jvalue :=
  <["latitudeE7"%string := pd.JInt lat]>
    (<["longitudeE7"%string := pd.JInt lon]>
       (<["timestampMs"%string := pd.JStr ts]>
          (<["accuracy"%string := pd.JInt 12]> ∅))).

(** Five records; the first is the instant 2021-01-01T00:00:00Z at
    37.7749, -122.4194, the last lies before the epoch. *)
Definition sample_records : list (gmap string pd.jvalue) :=
  [sample_record 377749000 (-1224194000) "1609459200000";
   sample_record 377750000 (-1224195000) "1609462861000";
   sample_record 407128000 (-740060000) "1617235199000";
   sample_record 515074000 (-1278000) "1709208000000";
   sample_record (-338688000) 1512093000 "-86400000"].

Definition sample_file : pd.file :=
  pd.Parsed (<["locations"%string := sample_records]> ∅).

(** The world of a construction that returned. *)
Definition no_world : world :=
  {| self := {| data := 0%nat; fig := None; _originaldata := 0%nat;
                scatterdata := None; layout := None |};
     mem := [] |}.

Definition world_of (r : py.exn + world) : world :=
  match r with inr w => w | inl _ => no_world end.

(** A plotly for the examples. As plotly does, it takes a marker whose size
    is not negative and whose opacity lies between 0 and 1, and a layout at
    least 10 high and 10 wide; it shows every figure. *)
Definition sample_plotly : go.Plotly :=
  {| go.accepts_trace := λ t,
       (0 <=? go.size (go.marker t))
       && PrimFloat.leb (py.float_of_Z 0) (go.opacity (go.marker t))
       && PrimFloat.leb (go.opacity (go.marker t)) (py.float_of_Z 1);
     go.accepts_layout := λ l, (10 <=? go.height l) && (10 <=? go.width l);
     go.show := λ _ _ _, inr () |}.

(** An opacity above 1: three halves. *)
Definition three_halves : float :=
  PrimFloat.div (py.float_of_Z 3) (py.float_of_Z 2).

(** The instance built from the sample file, in an empty store. *)
Definition sample_world : world :=
  Eval vm_compute in world_of (construct sample_file []).

(** Its frame, and the frames of the views below. *)
Definition sample_frame : pd.DataFrame :=
  Eval vm_compute in default {| pd.index := []; pd.columns := [] |} (view sample_world).

(** Two filters in a row, an array and a Series, and the world after
    them. *)
Definition sample_filters : list pd.mask :=
  [pd.MaskArray [true; false; true; true; false];
   pd.MaskSeries (<[0%nat := true]> (<[2%nat := false]> (<[3%nat := true]> ∅)))].

Definition sample_filtered : world :=
  Eval vm_compute in (Filters sample_filters sample_world).2.

(** The view of the sample world after its first filter, rows 0, 2 and 3. *)
Definition sample_narrowed : world :=
  Eval vm_compute in (Filter (pd.MaskArray [true; false; true; true; false]) sample_world).2.

Definition sample_narrowed_frame : pd.DataFrame :=
  Eval vm_compute in default {| pd.index := []; pd.columns := [] |} (view sample_narrowed).

(** A Series over the five rows of the original, used on the three rows of
    the narrowed view. *)
Definition long_series : gmap nat bool :=
  <[0%nat := true]> (<[1%nat := true]> (<[2%nat := false]>
    (<[3%nat := true]> (<[4%nat := true]> ∅)))).

(** The sample world with the third row filtered out: four rows. *)
Definition sample_four : world :=
  Eval vm_compute in
    (Filter (pd.MaskArray [true; true; false; true; true]) sample_world).2.

(** The sample world after a filter that keeps no row. *)
Definition sample_emptied : world :=
  Eval vm_compute in
    (Filter (pd.MaskArray [false; false; false; false; false]) sample_world).2.

Definition sample_emptied_frame : pd.DataFrame :=
  Eval vm_compute in default {| pd.index := []; pd.columns := [] |} (view sample_emptied).

(** A file whose records are under another key, and a file whose arrays
    differ in length. *)
Definition places_doc : gmap string (list (gmap string pd.jvalue)) :=
  <["places"%string := sample_records]> ∅.

Definition uneven_doc : gmap string (list (gmap string pd.jvalue)) :=
  <["locations"%string := sample_records]> (<["settings"%string := []]> ∅).

(** Records that lack fields: the second has no latitude, the third no
    timestamp. *)
Definition gap_records : list (gmap string pd.jvalue) :=
  [sample_record 377749000 (-1224194000) "1609459200000";
   <["longitudeE7"%string := pd.JInt (-1224195000)]>
     (<["timestampMs"%string := pd.JStr "1609462861000"]> ∅);
   <["latitudeE7"%string := pd.JInt 407128000]>
     (<["longitudeE7"%string := pd.JInt (-740060000)]> ∅)].

Definition gap_file : pd.file :=
  pd.Parsed (<["locations"%string := gap_records]> ∅).

(** The coordinate columns of the sample frame. *)
Definition sample_latitudes : list pd.cell :=
  Eval vm_compute in
    match pd.getitem "latitudeE7" sample_frame with inr v => v | inl _ => [] end.
Definition sample_longitudes : list pd.cell :=
  Eval vm_compute in
    match pd.getitem "longitudeE7" sample_frame with inr v => v | inl _ => [] end.

(** The instance built from the records with gaps, and its frame. *)
Definition gap_world : world :=
  Eval vm_compute in world_of (construct gap_file []).

Definition gap_frame : pd.DataFrame :=
  Eval vm_compute in default {| pd.index := []; pd.columns := [] |} (view gap_world).

(** Two records, the second with a timestamp that is a word. *)
Definition bad_records : list (gmap string pd.jvalue) :=
  [sample_record 377749000 (-1224194000) "1609459200000";
   sample_record 377750000 (-1224195000) "yesterday"].

(** Three records: a timestamp of digits, an empty one, and the word NaT. *)
Definition blank_records : list (gmap string pd.jvalue) :=
  [sample_record 377749000 (-1224194000) "1609459200000";
   sample_record 377750000 (-1224195000) "";
   sample_record 407128000 (-740060000) "NaT"].

Definition blank_file : pd.file :=
  pd.Parsed (<["locations"%string := blank_records]> ∅).

Definition blank_world : world :=
  Eval vm_compute in world_of (construct blank_file []).

Definition blank_frame : pd.DataFrame :=
  Eval vm_compute in default {| pd.index := []; pd.columns := [] |} (view blank_world).

(** Two records, the second with a timestamp beyond the range. *)
Definition far_records : list (gmap string pd.jvalue) :=
  [sample_record 377749000 (-1224194000) "1609459200000";
   sample_record 377750000 (-1224195000) "9223372036855"].

(** Two records with a timestamp and a latitude, and no longitude; and two
    records of which the second has its latitude as a string. *)
Definition no_longitude_records : list (gmap string pd.jvalue) :=
  [<["latitudeE7"%string := pd.JInt 377749000]>
     (<["timestampMs"%string := pd.JStr "1609459200000"]> ∅);
   <["latitudeE7"%string := pd.JInt 377750000]>
     (<["timestampMs"%string := pd.JStr "1609462861000"]> ∅)].

Definition string_latitude_records : list (gmap string pd.jvalue) :=
  [sample_record 377749000 (-1224194000) "1609459200000";
   <["latitudeE7"%string := pd.JStr "37.775"]>
     (<["longitudeE7"%string := pd.JInt (-1224195000)]>
        (<["timestampMs"%string := pd.JStr "1609462861000"]> ∅))].

(** A frame with a latitude column only. *)
Definition latitude_frame : pd.DataFrame :=
  {| pd.index := [0%nat; 1%nat];
     pd.columns := [("latitudeE7"%string, [pd.CInt 377749000; pd.CInt 377750000])] |}.

(** Two records of the same minute, 61 s and 75.5 s past 01:00. *)
Definition minute_records : list (gmap string pd.jvalue) :=
  [sample_record 377749000 (-1224194000) "1609462861000";
   sample_record 377750000 (-1224195000) "1609462875500"].

(** * Properties *)

(** ** The builtins and the calendar, on examples *)

Example float_roundtrip_2021 : py.Z_of_float (py.float_of_Z 2021) = Some 2021.
Proof. vm_compute. reflexivity. Qed.
Example str_float_2021 : py.str_float (py.float_of_Z 2021) = Some "2021.0"%string.
Proof. vm_compute. reflexivity. Qed.
Example str_float_neg : py.str_float (py.float_of_Z (-1224194000)) = Some "-1224194000.0"%string.
Proof. vm_compute. reflexivity. Qed.
Example str_float_half : py.str_float (PrimFloat.div (py.float_of_Z 1) (py.float_of_Z 2)) = None.
Proof. vm_compute. reflexivity. Qed.
Example str_float_nan : py.str_float PrimFloat.nan = Some "nan"%string.
Proof. vm_compute. reflexivity. Qed.

Example civil_epoch : calendar.civil_from_days 0 = (1970, 1, 1).
Proof. reflexivity. Qed.
Example civil_2021 : calendar.civil_from_days 18628 = (2021, 1, 1).
Proof. reflexivity. Qed.
Example civil_leap : calendar.civil_from_days 19782 = (2024, 2, 29).
Proof. reflexivity. Qed.
Example civil_before_epoch : calendar.civil_from_days (-1) = (1969, 12, 31).
Proof. reflexivity. Qed.
Example day_number_2024 : calendar.day_number 2024 2 29 = 19782.
Proof. reflexivity. Qed.

Example int_literal_ms : pd.int_literal "1609459200000" = Some 1609459200000.
Proof. reflexivity. Qed.
Example int_literal_neg : pd.int_literal "-42" = Some (-42).
Proof. reflexivity. Qed.
Example to_datetime_word : pd.to_datetime_cell (pd.CStr "yesterday") = inl py.ValueError.
Proof. vm_compute. reflexivity. Qed.
Example to_datetime_far : pd.to_datetime_cell (pd.CInt 9223372036855) = inl py.OutOfBoundsDatetime.
Proof. reflexivity. Qed.
Example to_datetime_float :
  pd.to_datetime_cell (pd.CFloat (py.float_of_Z 1609459200000)) = inr (Some 1609459200000).
Proof. vm_compute. reflexivity. Qed.

(** ** Running a computation *)

Section monad_facts.
Context {S A B : Type}.

Lemma bind_inr_inv (m : M S A) (k : A → M S B) s b s' :
  bind m k s = (inr b, s') →
  ∃ a s1, m s = (inr a, s1) ∧ k a s1 = (inr b, s').
Proof.
  unfold bind. destruct (m s) as [[e|a] s1]; [discriminate|]. eauto.
Qed.

Lemma bind_inl_inv (m : M S A) (k : A → M S B) s e s' :
  bind m k s = (inl e, s') →
  m s = (inl e, s') ∨ ∃ a s1, m s = (inr a, s1) ∧ k a s1 = (inl e, s').
Proof.
  unfold bind. destruct (m s) as [[e1|a] s1]; intros H.
  - injection H as -> ->. by left.
  - right. eauto.
Qed.

Lemma bind_run_inr (m : M S A) (k : A → M S B) s a s1 :
  m s = (inr a, s1) → bind m k s = k a s1.
Proof. unfold bind. by intros ->. Qed.

Lemma bind_run_inl (m : M S A) (k : A → M S B) s e s1 :
  m s = (inl e, s1) → bind m k s = (inl e, s1).
Proof. unfold bind. by intros ->. Qed.

Lemma lift_inr_inv (r : py.exn + A) (s s' : S) a :
  lift r s = (inr a, s') → r = inr a ∧ s' = s.
Proof. destruct r; unfold lift, ret, raise; intros [= ]; by subst. Qed.

Lemma lift_run (r : py.exn + A) (s : S) : lift r s = (r, s).
Proof. by destruct r. Qed.
End monad_facts.

(** ** Columns *)

Section column_facts.
Implicit Types (name : string) (v : list pd.cell)
  (cols : list (string * list pd.cell)).

Lemma lookup_assign_eq name v cols :
  pd.lookup_column name (pd.assign_column name v cols) = Some v.
Proof.
  induction cols as [|[c w] cols IH]; simpl.
  - by rewrite String.eqb_refl.
  - destruct (String.eqb c name) eqn:E; simpl; by rewrite E.
Qed.

Lemma lookup_assign_ne name name' v cols :
  name ≠ name' →
  pd.lookup_column name' (pd.assign_column name v cols) = pd.lookup_column name' cols.
Proof.
  intros Hne. induction cols as [|[c w] cols IH]; simpl.
  - destruct (String.eqb name name') eqn:E; [|done].
    by apply String.eqb_eq in E.
  - destruct (String.eqb c name) eqn:E; simpl.
    + apply String.eqb_eq in E as ->.
      destruct (String.eqb name name') eqn:E'; [|done].
      by apply String.eqb_eq in E'.
    + by rewrite IH.
Qed.

Lemma lookup_column_Some name v cols :
  pd.lookup_column name cols = Some v → (name, v) ∈ cols.
Proof.
  induction cols as [|[c w] cols IH]; simpl; [done|].
  destruct (String.eqb c name) eqn:E.
  - apply String.eqb_eq in E as ->. intros [= ->]. left.
  - intros H. right. auto.
Qed.

Lemma lookup_column_None name cols :
  pd.lookup_column name cols = None ↔ name ∉ cols.*1.
Proof.
  induction cols as [|[c w] cols IH]; csimpl.
  - split; [intros _; apply not_elem_of_nil|done].
  - destruct (String.eqb c name) eqn:E.
    + apply String.eqb_eq in E as ->. split; [done|].
      intros Hn. exfalso. apply Hn. left.
    + apply String.eqb_neq in E. rewrite IH, not_elem_of_cons. intuition congruence.
Qed.

(** The columns of a frame built from a list of names. *)
Lemma lookup_column_fmap name (g : string → list pd.cell) (names : list string) :
  pd.lookup_column name ((λ c, (c, g c)) <$> names)
  = if bool_decide (name ∈ names) then Some (g name) else None.
Proof.
  induction names as [|c names IH]; csimpl; [done|].
  destruct (String.eqb c name) eqn:E.
  - apply String.eqb_eq in E as ->.
    rewrite bool_decide_eq_true_2; [done|left].
  - apply String.eqb_neq in E. rewrite IH.
    destruct (bool_decide (name ∈ names)) eqn:D.
    + apply bool_decide_eq_true in D.
      rewrite bool_decide_eq_true_2; [done|by right].
    + apply bool_decide_eq_false in D.
      rewrite bool_decide_eq_false_2; [done|].
      rewrite not_elem_of_cons. intuition congruence.
Qed.

Lemma assign_column_names_mem name v cols :
  name ∈ cols.*1 → (pd.assign_column name v cols).*1 = cols.*1.
Proof.
  induction cols as [|[c w] cols IH]; csimpl.
  - intros H. by apply elem_of_nil in H.
  - destruct (String.eqb c name) eqn:E; simpl; [done|].
    apply String.eqb_neq in E. rewrite elem_of_cons.
    intros [->|H]; [done|]. f_equal. auto.
Qed.

Lemma assign_column_names_new name v cols :
  name ∉ cols.*1 → (pd.assign_column name v cols).*1 = cols.*1 ++ [name].
Proof.
  induction cols as [|[c w] cols IH]; csimpl; [done|].
  rewrite not_elem_of_cons. intros [Hne H].
  destruct (String.eqb c name) eqn:E; simpl.
  - apply String.eqb_eq in E. by subst.
  - f_equal. auto.
Qed.
End column_facts.

(** ** The store *)

Section heap_facts.
Implicit Types (h : heap) (r : ref) (df : pd.DataFrame).

Lemma deref_run r h df : h !! r = Some df → deref r h = (inr df, h).
Proof. unfold deref. by intros ->. Qed.

Lemma deref_inr_inv r h df h' :
  deref r h = (inr df, h') → h !! r = Some df ∧ h' = h.
Proof. unfold deref. destruct (h !! r); intros [= ]; by subst. Qed.

Lemma getitem_run r name h df :
  h !! r = Some df → getitem r name h = (pd.getitem name df, h).
Proof.
  intros Hr. unfold getitem. rewrite (bind_run_inr _ _ _ _ _ (deref_run _ _ _ Hr)).
  apply lift_run.
Qed.

Lemma getitem_inr_inv r name h v h' :
  getitem r name h = (inr v, h') →
  h' = h ∧ ∃ df, h !! r = Some df ∧ pd.lookup_column name (pd.columns df) = Some v.
Proof.
  unfold getitem. intros (df & h1 & Hd & Hl)%bind_inr_inv.
  apply deref_inr_inv in Hd as [Hd ->].
  apply lift_inr_inv in Hl as [Hl ->]. split; [done|].
  exists df. split; [done|]. unfold pd.getitem in Hl.
  destruct (pd.lookup_column name (pd.columns df)); by inversion Hl.
Qed.

Lemma setitem_run r name v h df :
  h !! r = Some df → length v = length (pd.index df) →
  setitem r name v h
  = (inr (), <[r := {| pd.index := pd.index df;
                       pd.columns := pd.assign_column name v (pd.columns df) |}]> h).
Proof.
  intros Hr Hlen. unfold setitem.
  rewrite (bind_run_inr _ _ _ _ _ (deref_run _ _ _ Hr)).
  unfold pd.setitem. rewrite decide_True by done. reflexivity.
Qed.

Lemma setitem_inr_inv r name v h h' u :
  setitem r name v h = (inr u, h') →
  ∃ df, h !! r = Some df ∧ length v = length (pd.index df) ∧
    h' = <[r := {| pd.index := pd.index df;
                   pd.columns := pd.assign_column name v (pd.columns df) |}]> h.
Proof.
  unfold setitem. intros (df & h1 & Hd & Hk)%bind_inr_inv.
  apply deref_inr_inv in Hd as [Hd ->].
  apply bind_inr_inv in Hk as (df' & h2 & Hl & Hk).
  apply lift_inr_inv in Hl as [Hl ->].
  unfold pd.setitem in Hl. case_decide; [|discriminate].
  injection Hl as <-. injection Hk as <-. eauto.
Qed.

Lemma lookup_alloc h df : (h ++ [df]) !! length h = Some df.
Proof. rewrite lookup_app_r by lia. by rewrite Nat.sub_diag. Qed.
End heap_facts.

(** ** The loader *)

Lemma read_json_Parsed doc :
  (same_lengths doc ∧ pd.read_json (pd.Parsed doc) = inr doc) ∨
  (¬ same_lengths doc ∧ pd.read_json (pd.Parsed doc) = inl py.ValueError).
Proof.
  unfold pd.read_json. destruct (map_to_list doc) as [|[k v] l] eqn:E.
  - left. split; [|done]. apply map_to_list_empty_iff in E as ->.
    intros k1 v1 k2 v2 H. by rewrite lookup_empty in H.
  - assert (doc !! k = Some v) as Hk.
    { apply elem_of_map_to_list. rewrite E. left. }
    case_decide as Hall.
    + left. split; [|done]. intros k1 v1 k2 v2 H1 H2.
      rewrite (Hall k1 v1 H1), (Hall k2 v2 H2). done.
    + right. split; [|done]. intros Hs. apply Hall.
      intros k1 v1 H1. by apply (Hs k1 v1 k v).
Qed.

Lemma elem_of_labels_of c (recs : list (gmap string pd.jvalue)) :
  c ∈ pd.labels_of recs ↔ ∃ r, r ∈ recs ∧ is_Some (r !! c).
Proof.
  unfold pd.labels_of. rewrite elem_of_union_list. split.
  - intros (X & HX & Hc). apply list_elem_of_fmap in HX as (r & -> & Hr).
    exists r. split; [done|]. by apply elem_of_dom.
  - intros (r & Hr & Hc). exists (dom r). split.
    + apply list_elem_of_fmap. eauto.
    + by apply elem_of_dom.
Qed.

Lemma loaded_index recs : pd.index (loaded recs) = seq 0 (length recs).
Proof. reflexivity. Qed.

Lemma from_dict_lookup c recs :
  pd.lookup_column c (pd.columns (pd.from_dict recs))
  = if bool_decide (c ∈ pd.labels_of recs)
    then Some (pd.infer_column ((λ r, r !! c) <$> recs)) else None.
Proof.
  unfold pd.from_dict; simpl.
  rewrite (lookup_column_fmap c (λ c, pd.infer_column ((λ r, r !! c) <$> recs))).
  destruct (bool_decide (c ∈ elements (pd.labels_of recs))) eqn:D.
  - apply bool_decide_eq_true in D. apply elem_of_elements in D.
    by rewrite bool_decide_eq_true_2.
  - apply bool_decide_eq_false in D. rewrite elem_of_elements in D.
    by rewrite bool_decide_eq_false_2.
Qed.

Lemma lookup_column_omap c (g : string → option (list pd.cell)) (items : list string) :
  pd.lookup_column c (omap (λ c, (λ v, (c, v)) <$> g c) items)
  = if bool_decide (c ∈ items) then g c else None.
Proof.
  induction items as [|d items IH]; [done|].
  cbn [omap list_omap]. destruct (decide (c = d)) as [->|Hne].
  - rewrite bool_decide_eq_true_2 by left.
    destruct (g d) as [v|] eqn:E; csimpl.
    + by rewrite String.eqb_refl.
    + rewrite IH. by destruct (bool_decide _).
  - assert (bool_decide (c ∈ d :: items) = bool_decide (c ∈ items)) as ->.
    { apply bool_decide_ext. rewrite elem_of_cons. intuition congruence. }
    destruct (g d) as [v|] eqn:E; csimpl.
    + destruct (String.eqb d c) eqn:E'; [by apply String.eqb_eq in E'|].
      apply IH.
    + apply IH.
Qed.

Lemma names_omap (g : string → option (list pd.cell)) (items : list string) :
  (omap (λ c, (λ v, (c, v)) <$> g c) items).*1
  = filter (λ c, is_Some (g c)) items.
Proof.
  induction items as [|d items IH]; [done|].
  cbn [omap list_omap]. fold (omap (λ c, (λ v, (c, v)) <$> g c) items).
  rewrite filter_cons. case_decide as Hd.
  - destruct Hd as [v E]. rewrite E. csimpl. f_equal. apply IH.
  - destruct (g d) as [v|] eqn:E; [destruct Hd; eauto|]. apply IH.
Qed.

Lemma loaded_lookup c recs :
  pd.lookup_column c (pd.columns (loaded recs))
  = if bool_decide (c ∈ raw_fields ∧ c ∈ pd.labels_of recs)
    then Some (pd.infer_column ((λ r, r !! c) <$> recs)) else None.
Proof.
  unfold loaded, pd.filter_items. cbn [pd.columns].
  rewrite (lookup_column_omap c
    (λ c, pd.lookup_column c (pd.columns (pd.from_dict recs)))).
  rewrite from_dict_lookup.
  repeat case_bool_decide; try done; tauto.
Qed.

Lemma loaded_names recs :
  pd.column_names (loaded recs)
  = filter (λ c, c ∈ pd.labels_of recs) raw_fields.
Proof.
  unfold pd.column_names, loaded, pd.filter_items. cbn [pd.columns].
  rewrite (names_omap (λ c, pd.lookup_column c (pd.columns (pd.from_dict recs)))).
  apply list_filter_iff. intros c. rewrite from_dict_lookup.
  case_bool_decide; [by eauto|]. split; [by intros [? ?]|done].
Qed.

(** What [_ReadJson] does, in every case. *)
Lemma ReadJson_run filepath h :
  _ReadJson filepath h =
  match filepath with
  | pd.Missing => (inl py.FileNotFoundError, h)
  | pd.Unparsable => (inl py.ValueError, h)
  | pd.Parsed doc =>
      match pd.read_json (pd.Parsed doc) with
      | inl e => (inl e, h)
      | inr _ =>
          match doc !! "locations"%string with
          | None => (inl (py.KeyError "locations"), h)
          | Some recs =>
              (inr (S (length h)), h ++ [pd.from_dict recs; loaded recs])
          end
      end
  | pd.OtherShape => (inl py.NotModelled, h)
  end.
Proof.
  unfold _ReadJson. destruct filepath as [| |doc|]; [done|done| |done].
  destruct (read_json_Parsed doc) as [[_ E]|[_ E]]; rewrite E.
  - unfold bind at 1. simpl. unfold pd.getitem_tolist.
    destruct (doc !! "locations"%string) as [recs|]; [|done].
    unfold bind at 1. simpl.
    unfold bind at 1. unfold alloc at 1.
    unfold bind at 1. unfold deref. rewrite lookup_alloc.
    unfold bind, alloc, ret. rewrite length_app. simpl.
    rewrite Nat.add_1_r, <- app_assoc. reflexivity.
  - reflexivity.
Qed.


(** ** The transformer, step by step *)

Lemma getitem_over r name h df v h' :
  getitem r name (<[r := df]> h) = (inr v, h') → (r < length h)%nat →
  h' = <[r := df]> h ∧ pd.lookup_column name (pd.columns df) = Some v.
Proof.
  intros (-> & df' & Hr & Hl)%getitem_inr_inv Hlt.
  rewrite list_lookup_insert_eq in Hr by done. by injection Hr as <-.
Qed.

Lemma setitem_over r name v h df h' u :
  setitem r name v (<[r := df]> h) = (inr u, h') → (r < length h)%nat →
  length v = length (pd.index df) ∧ h' = <[r := assigned name v df]> h.
Proof.
  intros (df' & Hr & Hlen & ->)%setitem_inr_inv Hlt.
  rewrite list_lookup_insert_eq in Hr by done. injection Hr as <-.
  split; [done|]. by rewrite list_insert_insert_eq.
Qed.

Lemma exn_bind_inr {A B} (k : A → py.exn + B) (r : py.exn + A) b :
  r ≫= k = inr b → ∃ a, r = inr a ∧ k a = inr b.
Proof. destruct r as [e|a]; [discriminate|]. eauto. Qed.

Ltac inv_bind H :=
  let a := fresh "a" in let s := fresh "h" in let H1 := fresh "Hstep" in
  apply bind_inr_inv in H as (a & s & H1 & H).

Ltac inv_lift H :=
  let E := fresh "E" in apply lift_inr_inv in H as [E ->].

Lemma lookup_assigned_eq name v df :
  pd.lookup_column name (pd.columns (assigned name v df)) = Some v.
Proof. apply lookup_assign_eq. Qed.

Lemma lookup_assigned_ne name name' v df :
  name ≠ name' →
  pd.lookup_column name' (pd.columns (assigned name v df))
  = pd.lookup_column name' (pd.columns df).
Proof. apply lookup_assign_ne. Qed.

Lemma dt_field_length field date_time :
  length (pd.dt_field field date_time) = length date_time.
Proof. unfold pd.dt_field. destruct (forallb _ _); by rewrite length_fmap. Qed.

Lemma DeriveTimeIntervals_inr_inv r h r' h' :
  _DeriveTimeIntervals r h = (inr r', h') →
  ∃ df ts date_time strs,
    r' = r ∧ h !! r = Some df ∧
    pd.lookup_column "timestampMs" (pd.columns df) = Some ts ∧
    pd.to_datetime ts = inr date_time ∧
    length date_time = length (pd.index df) ∧
    display_strings (pd.dt_field calendar.month date_time)
      (pd.dt_field calendar.day date_time) (pd.dt_field calendar.year date_time)
      (pd.dt_field calendar.hour date_time) (pd.dt_field calendar.minute date_time)
    = inr strs ∧
    length strs = length (pd.index df) ∧
    h' = <[r := derived date_time strs df]> h.
Proof.
  unfold _DeriveTimeIntervals. intros H.
  inv_bind H. apply getitem_inr_inv in Hstep as (-> & df & Hr & Hts).
  assert (r < length h)%nat as Hlt by (by eapply lookup_lt_Some).
  rewrite <- (list_insert_id h r df Hr) in H.
  inv_bind H. inv_lift Hstep.
  do 7 (inv_bind H;
        match goal with
        | Hs : setitem _ _ _ _ = _ |- _ =>
            let Hl := fresh "Hlen" in
            destruct (setitem_over _ _ _ _ _ _ _ Hs Hlt) as (Hl & ->); clear Hs
        end).
  repeat (inv_bind H;
          match goal with
          | Hs : getitem _ ?n _ = _ |- _ =>
              let Hc := fresh "Hcol" in
              destruct (getitem_over _ _ _ _ _ _ Hs Hlt) as (-> & Hc); clear Hs
          | Hs : lift _ _ = _ |- _ => inv_lift Hs
          | Hs : setitem _ _ _ _ = _ |- _ =>
              let Hl := fresh "Hlen" in
              destruct (setitem_over _ _ _ _ _ _ _ Hs Hlt) as (Hl & ->); clear Hs
          end).
  injection H as <- <-.
  repeat match goal with
         | Hc : pd.lookup_column _ (pd.columns (assigned _ _ _)) = Some _ |- _ =>
             first [ rewrite lookup_assigned_eq in Hc; injection Hc as <-
                   | rewrite lookup_assigned_ne in Hc by discriminate ]
         end.
  exists df, a, a0, a26. split_and!; try done.
  - by rewrite dt_field_length in Hlen.
  - unfold display_strings.
    rewrite E0; cbn [mbind exn_bind]. rewrite E1; cbn [mbind exn_bind].
    rewrite E2; cbn [mbind exn_bind]. rewrite E3; cbn [mbind exn_bind].
    rewrite E4; cbn [mbind exn_bind]. rewrite E5; cbn [mbind exn_bind].
    rewrite E6; cbn [mbind exn_bind]. rewrite E7; cbn [mbind exn_bind].
    rewrite E8; cbn [mbind exn_bind]. rewrite E9; cbn [mbind exn_bind].
    rewrite E10; cbn [mbind exn_bind]. rewrite E11; cbn [mbind exn_bind].
    rewrite E12; cbn [mbind exn_bind]. done.
Qed.

Lemma FixLatLong_inr_inv r h r' h' :
  _FixLatLong r h = (inr r', h') →
  ∃ df lat lat' lon lon',
    r' = r ∧ h !! r = Some df ∧
    pd.lookup_column "latitudeE7" (pd.columns df) = Some lat ∧
    pd.series_truediv lat 10000000 = inr lat' ∧
    pd.lookup_column "longitudeE7" (pd.columns df) = Some lon ∧
    pd.series_truediv lon 10000000 = inr lon' ∧
    h' = <[r := assigned "longitudeE7" lon' (assigned "latitudeE7" lat' df)]> h.
Proof.
  unfold _FixLatLong. intros H.
  inv_bind H. apply getitem_inr_inv in Hstep as (-> & df & Hr & Hlat).
  assert (r < length h)%nat as Hlt by (by eapply lookup_lt_Some).
  rewrite <- (list_insert_id h r df Hr) in H.
  repeat (inv_bind H;
          match goal with
          | Hs : getitem _ ?n _ = _ |- _ =>
              let Hc := fresh "Hcol" in
              destruct (getitem_over _ _ _ _ _ _ Hs Hlt) as (-> & Hc); clear Hs
          | Hs : lift _ _ = _ |- _ => inv_lift Hs
          | Hs : setitem _ _ _ _ = _ |- _ =>
              let Hl := fresh "Hlen" in
              destruct (setitem_over _ _ _ _ _ _ _ Hs Hlt) as (Hl & ->); clear Hs
          end).
  injection H as <- <-.
  rewrite lookup_assigned_ne in Hcol by discriminate.
  eauto 12.
Qed.

(** ** The constructor *)

Lemma loaded_columns_full recs :
  "latitudeE7"%string ∈ pd.labels_of recs →
  "longitudeE7"%string ∈ pd.labels_of recs →
  "timestampMs"%string ∈ pd.labels_of recs →
  pd.columns (loaded recs)
  = [("latitudeE7", raw_column "latitudeE7" recs);
     ("longitudeE7", raw_column "longitudeE7" recs);
     ("timestampMs", raw_column "timestampMs" recs)]%string.
Proof.
  intros H1 H2 H3.
  unfold loaded, pd.filter_items, raw_fields. cbn [pd.columns omap list_omap].
  rewrite !from_dict_lookup.
  rewrite !bool_decide_eq_true_2 by done. reflexivity.
Qed.

Lemma loaded_lookup_Some c recs v :
  pd.lookup_column c (pd.columns (loaded recs)) = Some v →
  c ∈ pd.labels_of recs ∧ v = raw_column c recs.
Proof.
  rewrite loaded_lookup. case_bool_decide as H; [|discriminate].
  intros [= <-]. tauto.
Qed.

Lemma insert_second (h : heap) (a b x : pd.DataFrame) :
  <[S (length h) := x]> (h ++ [a; b]) = h ++ [a; x].
Proof.
  rewrite insert_app_r_alt by lia.
  replace (S (length h) - length h)%nat with 1%nat by lia. reflexivity.
Qed.

Lemma lookup_second (h : heap) (a b : pd.DataFrame) :
  (h ++ [a; b]) !! S (length h) = Some b.
Proof.
  rewrite lookup_app_r by lia.
  replace (S (length h) - length h)%nat with 1%nat by lia. reflexivity.
Qed.

(** A construction that returns, read backwards. *)
Lemma init_inr_inv filepath h o h' :
  __init__ filepath h = (inr o, h') →
  ∃ doc recs date_time strs lat lon,
    filepath = pd.Parsed doc ∧ same_lengths doc ∧
    doc !! "locations"%string = Some recs ∧
    "latitudeE7"%string ∈ pd.labels_of recs ∧
    "longitudeE7"%string ∈ pd.labels_of recs ∧
    "timestampMs"%string ∈ pd.labels_of recs ∧
    pd.to_datetime (raw_column "timestampMs" recs) = inr date_time ∧
    length date_time = length recs ∧
    display_strings (pd.dt_field calendar.month date_time)
      (pd.dt_field calendar.day date_time) (pd.dt_field calendar.year date_time)
      (pd.dt_field calendar.hour date_time) (pd.dt_field calendar.minute date_time)
    = inr strs ∧
    length strs = length recs ∧
    pd.series_truediv (raw_column "latitudeE7" recs) 10000000 = inr lat ∧
    pd.series_truediv (raw_column "longitudeE7" recs) 10000000 = inr lon ∧
    o = {| data := S (length h); fig := None; _originaldata := S (length h);
           scatterdata := None; layout := None |} ∧
    h' = h ++ [pd.from_dict recs; transformed recs date_time strs lat lon].
Proof.
  unfold __init__. intros H.
  inv_bind H. rewrite ReadJson_run in Hstep.
  destruct filepath as [| |doc|]; [discriminate|discriminate| |discriminate].
  destruct (read_json_Parsed doc) as [[Hsame E]|[_ E]]; rewrite E in Hstep;
    [|discriminate].
  destruct (doc !! "locations"%string) as [recs|] eqn:Hloc; [|discriminate].
  injection Hstep as <- <-.
  inv_bind H.
  apply DeriveTimeIntervals_inr_inv in Hstep
    as (df & ts & date_time & strs & -> & Hr & Hts & Hdt & Hlen & Hstr & Hlens & ->).
  rewrite lookup_second in Hr. injection Hr as <-.
  apply loaded_lookup_Some in Hts as [Hts ->].
  rewrite insert_second in H.
  inv_bind H.
  apply FixLatLong_inr_inv in Hstep
    as (df & lat & lat' & lon & lon' & -> & Hr & Hlat & Hlat' & Hlon & Hlon' & ->).
  rewrite lookup_second in Hr. injection Hr as <-.
  unfold derived in Hlat, Hlon.
  rewrite !lookup_assigned_ne in Hlat by discriminate.
  rewrite !lookup_assigned_ne in Hlon by discriminate.
  apply loaded_lookup_Some in Hlat as [Hlat ->].
  apply loaded_lookup_Some in Hlon as [Hlon ->].
  rewrite insert_second in H. injection H as <- <-.
  exists doc, recs, date_time, strs, lat', lon'.
  rewrite loaded_index, length_seq in Hlen, Hlens.
  split_and!; try done.
  do 3 f_equal.
  unfold derived, assigned, transformed. cbn [pd.index pd.columns].
  rewrite loaded_index. f_equal.
  rewrite (loaded_columns_full recs) by done. reflexivity.
Qed.


(** ** The methods, run on a world *)

Lemma world_eta w : {| self := self w; mem := mem w |} = w.
Proof. by destruct w. Qed.

Lemma on_heap_deref r w df :
  mem w !! r = Some df → on_heap (deref r) w = (inr df, w).
Proof.
  intros H. unfold on_heap. rewrite (deref_run _ _ _ H). by rewrite world_eta.
Qed.

Lemma on_heap_getitem r name w df :
  mem w !! r = Some df → on_heap (getitem r name) w = (pd.getitem name df, w).
Proof.
  intros H. unfold on_heap. rewrite (getitem_run _ _ _ _ H). by rewrite world_eta.
Qed.

Lemma Filter_run filter w df :
  view w = Some df →
  Filter filter w =
  match pd.loc filter df with
  | inl e => (inl e, w)
  | inr v => (inr (), filtered v w)
  end.
Proof.
  intros Hv. unfold Filter.
  unfold bind at 1. unfold get_self at 1.
  rewrite (bind_run_inr _ _ _ _ _ (on_heap_deref _ _ _ Hv)).
  destruct (pd.loc filter df) as [e|v]; [reflexivity|].
  reflexivity.
Qed.

Lemma Filter_dangling filter w :
  view w = None → Filter filter w = (inl py.NotModelled, w).
Proof.
  intros Hv. unfold Filter, bind, get_self, on_heap, deref.
  unfold view in Hv. rewrite Hv. by rewrite world_eta.
Qed.

Lemma ClearFilter_run w :
  ClearFilter w
  = (inr (), {| self := set_data (_originaldata (self w)) (self w); mem := mem w |}).
Proof. reflexivity. Qed.

(** A call that raises leaves the world as it found it. *)
Lemma Filter_inl filter w e w' : Filter filter w = (inl e, w') → w' = w.
Proof.
  destruct (view w) as [df|] eqn:Hv.
  - rewrite (Filter_run _ _ _ Hv). destruct (pd.loc filter df); congruence.
  - rewrite (Filter_dangling _ _ Hv). congruence.
Qed.

(** ** Frames that can be plotted *)

Section list_facts.
Context {A B : Type}.

Lemma mapM_inr (f : A → py.exn + B) l l' :
  pd.mapM f l = inr l' → Forall2 (λ a b, f a = inr b) l l'.
Proof.
  revert l'. induction l as [|a l IH]; intros l'; simpl.
  - intros [= <-]. constructor.
  - destruct (f a) as [e|b] eqn:E; [discriminate|].
    destruct (pd.mapM f l) as [e|bs]; [discriminate|].
    intros [= <-]. constructor; auto.
Qed.

Lemma mapM_inl (f : A → py.exn + B) l a e :
  a ∈ l → f a = inl e → ∃ e', pd.mapM f l = inl e'.
Proof.
  intros Hin Hf. induction l as [|a' l IH]; [by apply elem_of_nil in Hin|].
  simpl. apply elem_of_cons in Hin as [<-|Hin].
  - rewrite Hf. eauto.
  - destruct (f a'); [eauto|]. destruct (IH Hin) as [e' ->]. eauto.
Qed.

Lemma mapM_inl_inv (f : A → py.exn + B) l e :
  pd.mapM f l = inl e → ∃ a, a ∈ l ∧ f a = inl e.
Proof.
  induction l as [|a l IH]; [done|]. simpl.
  destruct (f a) as [e'|b] eqn:E.
  - intros [= ->]. exists a. split; [left|done].
  - destruct (pd.mapM f l) as [e'|bs]; [|done].
    intros [= ->]. destruct IH as (a' & Ha' & Hf); [done|].
    exists a'. split; [by right|done].
Qed.

(** A column with a cell that fails, when its cells fail in one way
    only. *)
Lemma mapM_fails (f : A → py.exn + B) l a e :
  a ∈ l → f a = inl e → (∀ a' e', a' ∈ l → f a' = inl e' → e' = e) →
  pd.mapM f l = inl e.
Proof.
  intros Ha Hf Honly. destruct (mapM_inl f l a e Ha Hf) as [e' He'].
  destruct (mapM_inl_inv f l e' He') as (a' & Ha' & Hf').
  by rewrite (Honly a' e' Ha' Hf') in He'.
Qed.

Lemma mapM_all_inr (f : A → py.exn + B) (g : A → B) l :
  (∀ a, a ∈ l → f a = inr (g a)) → pd.mapM f l = inr (g <$> l).
Proof.
  induction l as [|a l IH]; intros H; [done|]. simpl.
  rewrite H by left. rewrite IH; [done|]. intros a' Ha'. apply H. by right.
Qed.

Lemma mapM_length (f : A → py.exn + B) l l' :
  pd.mapM f l = inr l' → length l' = length l.
Proof. intros H%mapM_inr. symmetry. by eapply Forall2_length. Qed.

Lemma select_length_eq (bs : list bool) (l : list A) (l' : list B) :
  length l = length l' → length (pd.select bs l) = length (pd.select bs l').
Proof.
  revert l l'. induction bs as [|b bs IH]; intros [|a l] [|a' l']; simpl;
    try done. intros [= H]. destruct b; simpl; auto.
Qed.
End list_facts.

Lemma loc_inr_inv filter df v :
  pd.loc filter df = inr v →
  ∃ bs, pd.check_bool_indexer (pd.index df) filter = inr bs ∧
    v = {| pd.index := pd.select bs (pd.index df);
           pd.columns := (λ cv, (cv.1, pd.select bs cv.2)) <$> pd.columns df |}.
Proof.
  unfold pd.loc. destruct (pd.check_bool_indexer _ _) as [e|bs]; [discriminate|].
  intros [= <-]. eauto.
Qed.

Lemma lookup_select_columns bs name (cols : list (string * list pd.cell)) :
  pd.lookup_column name ((λ cv, (cv.1, pd.select bs cv.2)) <$> cols)
  = pd.select bs <$> pd.lookup_column name cols.
Proof.
  induction cols as [|[c w] cols IH]; [done|].
  csimpl. destruct (String.eqb c name); [done|]. apply IH.
Qed.

Lemma names_select_columns bs (cols : list (string * list pd.cell)) :
  ((λ cv, (cv.1, pd.select bs cv.2)) <$> cols).*1 = cols.*1.
Proof. rewrite <- list_fmap_compose. by apply list_fmap_ext. Qed.

Lemma getitem_select_columns bs c idx (cols : list (string * list pd.cell)) x :
  pd.getitem c {| pd.index := idx; pd.columns := cols |} = inr x →
  ∀ idx', pd.getitem c
    {| pd.index := idx'; pd.columns := (λ cv, (cv.1, pd.select bs cv.2)) <$> cols |}
  = inr (pd.select bs x).
Proof.
  unfold pd.getitem. cbn [pd.columns]. intros Hx idx'.
  rewrite lookup_select_columns.
  destruct (pd.lookup_column c cols) as [y|]; [|done]. by injection Hx as ->.
Qed.

Lemma loc_plot_ready filter df v :
  pd.loc filter df = inr v → plot_ready df → plot_ready v.
Proof.
  intros (bs & _ & ->)%loc_inr_inv (lats & lons & texts & H1 & H2 & H3 & L1 & L2 & L3).
  exists (pd.select bs lats), (pd.select bs lons), (pd.select bs texts).
  cbn [pd.index pd.columns]. rewrite !lookup_select_columns, H1, H2, H3.
  split_and!; try done; by apply select_length_eq.
Qed.

(** ** Plotting *)

Lemma values_getitem_mid (values : list pd.cell) :
  pd.values_getitem values (py.int_truediv (Z.of_nat (length values)) 2)
  = match values !! (length values / 2)%nat with
    | Some c => inr c
    | None => inl py.IndexError
    end.
Proof.
  unfold pd.values_getitem, py.int_truediv.
  assert (Z.of_nat (length values) ÷ 2 = Z.of_nat (length values / 2)) as ->.
  { rewrite Z.quot_div_nonneg by lia. by rewrite Nat2Z.inj_div. }
  rewrite (proj2 (Z.ltb_ge _ _)) by lia.
  rewrite Nat2Z.id.
  destruct (values !! (length values / 2)%nat) as [c|] eqn:E.
  - apply lookup_lt_Some in E.
    rewrite (proj2 (Z.leb_le _ _)) by lia.
    rewrite (proj2 (Z.ltb_lt _ _)) by lia. done.
  - by destruct (_ && _).
Qed.

Lemma mid_lookup_is_Some {A} (l : list A) :
  l ≠ [] → is_Some (l !! (length l / 2)%nat).
Proof.
  intros Hne. apply lookup_lt_is_Some.
  assert (length l ≠ 0%nat) by (by destruct l).
  apply Nat.div_lt; lia.
Qed.

Lemma SetScatterData_run plotly mode markersize markercolour opacity w df
    lats lons texts :
  view w = Some df →
  pd.lookup_column "latitudeE7" (pd.columns df) = Some lats →
  pd.lookup_column "longitudeE7" (pd.columns df) = Some lons →
  pd.lookup_column "timestamp_string" (pd.columns df) = Some texts →
  let t := scatter_of mode markersize markercolour opacity lats lons texts in
  _SetScatterData plotly mode markersize markercolour opacity w
  = if go.accepts_trace plotly t
    then (inr (), with_self (set_scatterdata t) w)
    else (inl py.ValueError, w).
Proof.
  intros Hv H1 H2 H3 t. unfold _SetScatterData.
  unfold bind at 1. unfold get_self at 1.
  rewrite (bind_run_inr _ _ _ lats w).
  2:{ rewrite (on_heap_getitem _ _ _ _ Hv). unfold pd.getitem. by rewrite H1. }
  rewrite (bind_run_inr _ _ _ lons w).
  2:{ rewrite (on_heap_getitem _ _ _ _ Hv). unfold pd.getitem. by rewrite H2. }
  rewrite (bind_run_inr _ _ _ texts w).
  2:{ rewrite (on_heap_getitem _ _ _ _ Hv). unfold pd.getitem. by rewrite H3. }
  subst t. unfold bind, lift, ret, raise, go.new_Scattermapbox, scatter_of.
  cbv beta iota zeta.
  destruct (go.accepts_trace plotly _); reflexivity.
Qed.

Lemma SetLayout_run plotly height width style token w df lats lons :
  view w = Some df →
  pd.lookup_column "latitudeE7" (pd.columns df) = Some lats →
  pd.lookup_column "longitudeE7" (pd.columns df) = Some lons →
  _SetLayout plotly height width style token w
  = match lats !! (length lats / 2)%nat, lons !! (length lons / 2)%nat with
    | Some clat, Some clon =>
        let l := layout_of height width style token clat clon in
        if go.accepts_layout plotly l
        then (inr (), with_self (set_layout l) w)
        else (inl py.ValueError, w)
    | _, _ => (inl py.IndexError, w)
    end.
Proof.
  intros Hv H1 H2. unfold _SetLayout.
  unfold bind at 1. unfold get_self at 1.
  rewrite (bind_run_inr _ _ _ lats w).
  2:{ rewrite (on_heap_getitem _ _ _ _ Hv). unfold pd.getitem. by rewrite H1. }
  rewrite (bind_run_inr _ _ _ lons w).
  2:{ rewrite (on_heap_getitem _ _ _ _ Hv). unfold pd.getitem. by rewrite H2. }
  rewrite !values_getitem_mid.
  destruct (lats !! _) as [clat|]; [|reflexivity].
  destruct (lons !! _) as [clon|]; [|reflexivity].
  unfold bind, lift, ret, raise, go.new_Layout, layout_of. cbv beta iota zeta.
  destruct (go.accepts_layout plotly _); reflexivity.
Qed.

Lemma PlotMap_run plotly token mode markersize markercolour opacity height width
    style renderer kwargs w df lats lons texts :
  view w = Some df →
  pd.lookup_column "latitudeE7" (pd.columns df) = Some lats →
  pd.lookup_column "longitudeE7" (pd.columns df) = Some lons →
  pd.lookup_column "timestamp_string" (pd.columns df) = Some texts →
  let t := scatter_of mode markersize markercolour opacity lats lons texts in
  PlotMap plotly token mode markersize markercolour opacity height width style
    renderer kwargs w
  = if go.accepts_trace plotly t then
      match lats !! (length lats / 2)%nat, lons !! (length lons / 2)%nat with
      | Some clat, Some clon =>
          let l := layout_of height width style (Some token) clat clon in
          if go.accepts_layout plotly l then
            match go.show plotly (figure_of t l) renderer kwargs with
            | inr _ =>
                (inr (figure_of t l),
                 with_self (set_fig (figure_of t l))
                   (with_self (set_layout l) (with_self (set_scatterdata t) w)))
            | inl e =>
                (inl e, with_self (set_layout l) (with_self (set_scatterdata t) w))
            end
          else (inl py.ValueError, with_self (set_scatterdata t) w)
      | _, _ => (inl py.IndexError, with_self (set_scatterdata t) w)
      end
    else (inl py.ValueError, w).
Proof.
  intros Hv H1 H2 H3 t. unfold PlotMap.
  unfold bind at 1.
  rewrite (SetScatterData_run plotly mode markersize markercolour opacity
             w df lats lons texts Hv H1 H2 H3).
  fold t. destruct (go.accepts_trace plotly t); [|reflexivity].
  assert (view (with_self (set_scatterdata t) w) = Some df) as Hv' by done.
  unfold bind at 1.
  rewrite (SetLayout_run plotly height width style (Some token) _ df lats lons
             Hv' H1 H2).
  destruct (lats !! _) as [clat|]; [|reflexivity].
  destruct (lons !! _) as [clon|]; [|reflexivity].
  cbv zeta. destruct (go.accepts_layout plotly _); [|reflexivity].
  set (l := layout_of height width style (Some token) clat clon).
  assert (∀ r : py.exn + unit,
            go.show plotly (figure_of t l) renderer kwargs = r →
            (let* t0 := get_attr "scatterdata" scatterdata in
             let* l0 := get_attr "layout" layout in
             lift (go.show plotly (go.update_layout l0 (go.add_trace t0 go.new_Figure))
                     renderer kwargs) ;;
             set_self (set_fig (go.update_layout l0 (go.add_trace t0 go.new_Figure))) ;;
             ret (go.update_layout l0 (go.add_trace t0 go.new_Figure)))
              (with_self (set_layout l) (with_self (set_scatterdata t) w))
            = match r with
              | inr _ =>
                  (inr (figure_of t l),
                   with_self (set_fig (figure_of t l))
                     (with_self (set_layout l) (with_self (set_scatterdata t) w)))
              | inl e =>
                  (inl e, with_self (set_layout l) (with_self (set_scatterdata t) w))
              end) as Hshow.
  { intros r Hr. unfold bind at 1. unfold get_attr at 1. unfold bind at 1.
    cbn [get_self with_self self scatterdata set_layout set_scatterdata ret].
    unfold bind at 1. unfold get_attr at 1. unfold bind at 1.
    cbn [get_self with_self self layout set_layout set_scatterdata ret].
    unfold bind at 1. fold (figure_of t l). rewrite Hr.
    destruct r as [e|[]]; reflexivity. }
  exact (Hshow _ eq_refl).
Qed.


(** ** What every reachable world satisfies *)

Lemma infer_column_length raw : length (pd.infer_column raw) = length raw.
Proof.
  unfold pd.infer_column.
  destruct (forallb _ _); [|destruct (existsb _ _)]; by rewrite length_fmap.
Qed.

Lemma raw_column_length c recs : length (raw_column c recs) = length recs.
Proof. unfold raw_column. by rewrite infer_column_length, length_fmap. Qed.

Lemma transformed_plot_ready recs date_time strs lat lon :
  length strs = length recs → length lat = length recs → length lon = length recs →
  plot_ready (transformed recs date_time strs lat lon).
Proof.
  intros H1 H2 H3. exists lat, lon, strs.
  cbn [transformed pd.index]. rewrite length_seq. by split_and!.
Qed.

Lemma construct_inr_inv filepath h w :
  construct filepath h = inr w →
  ∃ o h', __init__ filepath h = (inr o, h') ∧ w = {| self := o; mem := h' |}.
Proof.
  unfold construct. destruct (__init__ filepath h) as [[e|o] h']; [discriminate|].
  intros [= <-]. eauto.
Qed.

(** Right after construction the view is the original: one object under
    both names. *)
Lemma construct_view filepath h w :
  construct filepath h = inr w →
  data (self w) = _originaldata (self w) ∧
  ∃ df, view w = Some df ∧ original w = Some df ∧ plot_ready df.
Proof.
  intros (o & h' & Hinit & ->)%construct_inr_inv.
  apply init_inr_inv in Hinit
    as (doc & recs & date_time & strs & lat & lon & -> & _ & _ & _ & _ & _ & _ & _
        & _ & Hstrs & Hlat & Hlon & -> & ->).
  split; [done|]. exists (transformed recs date_time strs lat lon).
  unfold view, original. cbn [self mem data _originaldata].
  rewrite lookup_second. split_and!; try done.
  apply transformed_plot_ready; [done|..].
  - apply mapM_length in Hlat. by rewrite Hlat, raw_column_length.
  - apply mapM_length in Hlon. by rewrite Hlon, raw_column_length.
Qed.

Lemma Filter_sound filter w : sound w → sound (Filter filter w).2.
Proof.
  intros [(df & Hv & Hp) (df0 & Ho & Hp0)].
  rewrite (Filter_run _ _ _ Hv).
  destruct (pd.loc filter df) as [e|v] eqn:Hloc; cbn [snd].
  - split; eauto.
  - split.
    + exists v. split; [|by eapply loc_plot_ready].
      unfold view, filtered. cbn [self mem data set_data]. apply lookup_alloc.
    + exists df0. split; [|done].
      unfold original, filtered. cbn [self mem _originaldata set_data].
      by apply lookup_app_l_Some.
Qed.

Lemma ClearFilter_sound w : sound w → sound (ClearFilter w).2.
Proof.
  intros [_ (df0 & Ho & Hp0)]. rewrite ClearFilter_run. cbn [snd].
  split; exists df0; split; done.
Qed.

Lemma PlotMap_keeps plotly token mode markersize markercolour opacity height width
    style renderer kwargs w :
  sound w →
  let w' := (PlotMap plotly token mode markersize markercolour opacity height width
               style renderer kwargs w).2 in
  mem w' = mem w ∧ data (self w') = data (self w) ∧
  _originaldata (self w') = _originaldata (self w).
Proof.
  intros [(df & Hv & lats & lons & texts & H1 & H2 & H3 & _) _].
  rewrite (PlotMap_run _ _ _ _ _ _ _ _ _ _ _ _ _ _ _ _ Hv H1 H2 H3).
  cbv zeta. destruct (go.accepts_trace plotly _); [|done].
  destruct (lats !! _); [destruct (lons !! _)|]; try done.
  destruct (go.accepts_layout plotly _); [|done].
  by destruct (go.show plotly _ _ _).
Qed.

Lemma PlotMap_sound plotly token mode markersize markercolour opacity height width
    style renderer kwargs w :
  sound w →
  sound (PlotMap plotly token mode markersize markercolour opacity height width
           style renderer kwargs w).2.
Proof.
  intros Hs.
  destruct (PlotMap_keeps plotly token mode markersize markercolour opacity
              height width style renderer kwargs w Hs) as (Hm & Hd & Ho).
  destruct Hs as [(df & Hv & Hp) (df0 & Ho0 & Hp0)].
  split; [exists df|exists df0]; (split; [|done]).
  - unfold view. by rewrite Hm, Hd.
  - unfold original. by rewrite Hm, Ho.
Qed.

Lemma reachable_sound w : reachable w → sound w.
Proof.
  induction 1 as [filepath h w Hc| | |].
  - destruct (construct_view _ _ _ Hc) as (_ & df & Hv & Ho & Hp).
    split; eauto.
  - by apply Filter_sound.
  - by apply ClearFilter_sound.
  - by apply PlotMap_sound.
Qed.

(** ** Filtering never touches the original *)

Lemma Filter_original filter w df0 :
  original w = Some df0 →
  original (Filter filter w).2 = Some df0 ∧
  _originaldata (self (Filter filter w).2) = _originaldata (self w).
Proof.
  intros Ho. destruct (view w) as [df|] eqn:Hv.
  - rewrite (Filter_run _ _ _ Hv). destruct (pd.loc filter df); cbn [snd]; [done|].
    split; [|done]. unfold original, filtered. cbn [self mem _originaldata set_data].
    by apply lookup_app_l_Some.
  - by rewrite (Filter_dangling _ _ Hv).
Qed.

Lemma Filters_original filters w df0 :
  original w = Some df0 → original (Filters filters w).2 = Some df0.
Proof.
  revert w. induction filters as [|m filters IH]; intros w Ho; [done|].
  cbn [Filters]. unfold bind.
  destruct (Filter m w) as [[e|[]] w1] eqn:E.
  - pose proof (Filter_original m w df0 Ho) as [H _]. by rewrite E in H.
  - apply IH. pose proof (Filter_original m w df0 Ho) as [H _]. by rewrite E in H.
Qed.


Lemma sample_world_constructed : construct sample_file [] = inr sample_world.
Proof. vm_compute. reflexivity. Qed.

(** C9. [ClearFilter] is idempotent: two calls in a row leave the world one
    call leaves, and the view is then the original. *)
Theorem ClearFilter_idempotent (w : world) :
  (ClearFilter ;; ClearFilter) w = ClearFilter w ∧
  (ClearFilter w).1 = inr () ∧
  view (ClearFilter w).2 = original w.
Proof. split; [reflexivity|]. split; reflexivity. Qed.

(** C3. After a construction that returned and any run of [Filter] calls
    that returned, [ClearFilter] makes the view the frame the construction
    left: the same frame, hence the same rows in the same order with the
    same values. The original is there all along. *)
Theorem ClearFilter_restores filepath h w filters w1 :
  construct filepath h = inr w →
  Filters filters w = (inr (), w1) →
  ∃ df w2,
    view w = Some df ∧
    original w1 = Some df ∧
    ClearFilter w1 = (inr (), w2) ∧
    view w2 = Some df.
Proof.
  intros Hc Hf.
  destruct (construct_view _ _ _ Hc) as (_ & df & Hv & Ho & _).
  pose proof (Filters_original filters w df Ho) as Ho1.
  rewrite Hf in Ho1. cbn [snd] in Ho1.
  exists df. eexists. split; [done|]. split; [done|].
  split; [apply ClearFilter_run|]. exact Ho1.
Qed.

Lemma ClearFilter_restores_witness :
  construct sample_file [] = inr sample_world ∧
  Filters sample_filters sample_world = (inr (), sample_filtered) ∧
  ∃ df w2,
    view sample_world = Some df ∧
    original sample_filtered = Some df ∧
    ClearFilter sample_filtered = (inr (), w2) ∧
    view w2 = Some df.
Proof.
  assert (construct sample_file [] = inr sample_world) as Hc
    by (vm_compute; reflexivity).
  assert (Filters sample_filters sample_world = (inr (), sample_filtered)) as Hf
    by (vm_compute; reflexivity).
  split; [exact Hc|]. split; [exact Hf|].
  exact (ClearFilter_restores sample_file [] sample_world sample_filters
           sample_filtered Hc Hf).
Defined.

(** ** Filtering with a mask that does not fit *)

Lemma check_series_inr (s : gmap nat bool) (idx : list nat) :
  (∀ i, i ∈ idx → is_Some (s !! i)) →
  pd.check_bool_indexer idx (pd.MaskSeries s)
  = inr ((λ i, default false (s !! i)) <$> idx).
Proof.
  intros H. unfold pd.check_bool_indexer.
  apply (mapM_all_inr _ (λ i, default false (s !! i))).
  intros i Hi. destruct (H i Hi) as [b ->]. reflexivity.
Qed.

Lemma check_series_inl (s : gmap nat bool) (idx : list nat) i :
  i ∈ idx → s !! i = None →
  pd.check_bool_indexer idx (pd.MaskSeries s) = inl py.IndexingError.
Proof.
  intros Hi Hs. unfold pd.check_bool_indexer.
  induction idx as [|j idx IH]; [by apply elem_of_nil in Hi|].
  simpl. destruct (s !! j) as [b|] eqn:E; [|done].
  apply elem_of_cons in Hi as [->|Hi]; [congruence|].
  by rewrite (IH Hi).
Qed.

(** C4, as the code has it. A numpy array of booleans of another length
    than the view makes [Filter] raise IndexError, and so does a Python
    list of booleans of another length, the empty list apart: the empty
    list is no boolean mask but a list of no labels, with which [Filter]
    returns a view without rows. A boolean Series is matched to the rows by
    label, whatever its length: [Filter] raises (IndexingError) when the
    Series lacks the label of a row, and when it has them all returns the
    rows marked true, the cells of every column at the marked positions
    under the columns of the view. A call that raises leaves the world, and
    so the view, as it was. *)
Theorem Filter_mask_mismatch (w : world) (df : pd.DataFrame) :
  view w = Some df →
  (∀ bs, length bs ≠ length (pd.index df) →
     Filter (pd.MaskArray bs) w = (inl py.IndexError, w)) ∧
  (∀ bs, bs ≠ [] → length bs ≠ length (pd.index df) →
     Filter (pd.MaskList bs) w = (inl py.IndexError, w)) ∧
  (∃ v, Filter (pd.MaskList []) w = (inr (), filtered v w) ∧
     view (filtered v w) = Some v ∧
     pd.index v = [] ∧ pd.column_names v = pd.column_names df ∧
     ∀ c x, pd.getitem c df = inr x → pd.getitem c v = inr []) ∧
  (∀ s i, i ∈ pd.index df → s !! i = None →
     Filter (pd.MaskSeries s) w = (inl py.IndexingError, w)) ∧
  (∀ s, (∀ i, i ∈ pd.index df → is_Some (s !! i)) →
     ∃ v, Filter (pd.MaskSeries s) w = (inr (), filtered v w) ∧
       view (filtered v w) = Some v ∧
       pd.index v = filter (λ i, s !! i = Some true) (pd.index df) ∧
       pd.column_names v = pd.column_names df ∧
       ∀ c x, pd.getitem c df = inr x →
         pd.getitem c v
         = inr (pd.select ((λ i, default false (s !! i)) <$> pd.index df) x)) ∧
  (∀ filter e w', Filter filter w = (inl e, w') → w' = w ∧ view w' = Some df).
Proof.
  intros Hv. split_and!.
  - intros bs Hlen. rewrite (Filter_run _ _ _ Hv).
    unfold pd.loc, pd.check_bool_indexer. by rewrite decide_False.
  - intros bs Hne Hlen. rewrite (Filter_run _ _ _ Hv).
    unfold pd.loc, pd.check_bool_indexer. destruct bs as [|b bs]; [done|].
    by rewrite decide_False.
  - rewrite (Filter_run _ _ _ Hv). unfold pd.loc, pd.check_bool_indexer.
    eexists. split; [reflexivity|]. split.
    { unfold view, filtered. cbn [self mem data set_data]. apply lookup_alloc. }
    split; [done|]. split.
    { unfold pd.column_names. cbn [pd.columns]. apply names_select_columns. }
    intros c x Hx. destruct df as [idx cols].
    apply (getitem_select_columns [] c idx cols x Hx).
  - intros s i Hi Hs. rewrite (Filter_run _ _ _ Hv).
    unfold pd.loc. by rewrite (check_series_inl s _ i).
  - intros s Hall. rewrite (Filter_run _ _ _ Hv).
    unfold pd.loc. rewrite (check_series_inr s _ Hall).
    eexists. split; [reflexivity|]. split.
    { unfold view, filtered. cbn [self mem data set_data]. apply lookup_alloc. }
    split.
    { cbn [pd.index]. clear Hv Hall.
      induction (pd.index df) as [|i idx IH]; [done|].
      rewrite filter_cons. csimpl.
      destruct (s !! i) as [[]|] eqn:E; cbn [default];
        (case_decide; [|]); try congruence; by rewrite IH. }
    split.
    { unfold pd.column_names. cbn [pd.columns]. apply names_select_columns. }
    intros c x Hx. destruct df as [idx cols].
    apply (getitem_select_columns _ c idx cols x Hx).
  - intros filter e w' H. apply Filter_inl in H as ->. done.
Qed.

Lemma Filter_mask_mismatch_witness :
  view sample_narrowed = Some sample_narrowed_frame ∧
  Filter (pd.MaskArray [true; false]) sample_narrowed
  = (inl py.IndexError, sample_narrowed) ∧
  Filter (pd.MaskList [true; false]) sample_narrowed
  = (inl py.IndexError, sample_narrowed) ∧
  Filter (pd.MaskSeries (<[0%nat := true]> ∅)) sample_narrowed
  = (inl py.IndexingError, sample_narrowed) ∧
  ∃ v, Filter (pd.MaskList []) sample_narrowed = (inr (), filtered v sample_narrowed) ∧
    pd.index v = [].
Proof.
  assert (view sample_narrowed = Some sample_narrowed_frame) as Hv by reflexivity.
  destruct (Filter_mask_mismatch sample_narrowed sample_narrowed_frame Hv)
    as (Harray & Hlist & (v & Hempty & _ & Hidx & _) & Hseries & _ & _).
  split; [exact Hv|]. split; [|split; [|split]].
  - apply Harray. vm_compute. discriminate.
  - apply Hlist; [discriminate|]. vm_compute. discriminate.
  - apply (Hseries _ 2%nat); vm_compute; [|reflexivity].
    right. left.
  - exists v. split; [exact Hempty|exact Hidx].
Defined.

(** C4 as stated fails: a boolean Series of length five on a view of three
    rows is a mask of another length, and [Filter] returns. *)
Lemma Filter_longer_series_returns :
  reachable sample_narrowed ∧
  view sample_narrowed = Some sample_narrowed_frame ∧
  length (pd.index sample_narrowed_frame) = 3%nat ∧
  pd.mask_length (pd.MaskSeries long_series) = 5%nat ∧
  (Filter (pd.MaskSeries long_series) sample_narrowed).1 = inr () ∧
  (pd.index <$> view (Filter (pd.MaskSeries long_series) sample_narrowed).2)
  = Some [0%nat; 3%nat].
Proof.
  split.
  { change sample_narrowed
      with (Filter (pd.MaskArray [true; false; true; true; false]) sample_world).2.
    apply reach_Filter. apply (reach_construct sample_file []).
    vm_compute. reflexivity. }
  split; [reflexivity|]. split; [reflexivity|].
  split; [vm_compute; reflexivity|]. split; vm_compute; reflexivity.
Qed.

(** ** The centre of the map *)

Lemma sample_plotly_accepts_defaults :
  accepted sample_plotly "token" "markers" 10 "rgb(255,0,0)"
    (PrimFloat.div (py.float_of_Z 3) (py.float_of_Z 10)) 800 1200 "outdoors" None [].
Proof. split; [|split]; intros; vm_compute; reflexivity. Qed.

(** C7. On a reachable world with a view of n rows, n > 0, the layout is
    centred on the coordinates of the row at position n / 2 (rounded down)
    of the view: position 2 for five rows, and position 2 for four.
    [_SetLayout] stores this layout when plotly accepts it, and raises
    ValueError, the world as it was, when plotly rejects it; the layout of
    a figure [PlotMap] returns is centred there, and [PlotMap] returns one
    when plotly accepts the arguments. *)
Theorem PlotMap_centre_is_middle_row (w : world) (df : pd.DataFrame)
    (plotly : go.Plotly) (token mode : string) (markersize : Z)
    (markercolour : string) (opacity : float) (height width : Z) (style : string)
    (renderer : option string) (kwargs : go.keywords) :
  reachable w → view w = Some df → pd.index df ≠ [] →
  ∃ lats lons clat clon,
    pd.getitem "latitudeE7" df = inr lats ∧
    pd.getitem "longitudeE7" df = inr lons ∧
    length lats = length (pd.index df) ∧
    length lons = length (pd.index df) ∧
    lats !! (length (pd.index df) / 2)%nat = Some clat ∧
    lons !! (length (pd.index df) / 2)%nat = Some clon ∧
    (length (pd.index df) = 5%nat ∨ length (pd.index df) = 4%nat →
     lats !! 2%nat = Some clat ∧ lons !! 2%nat = Some clon) ∧
    (∀ tok l, l = layout_of height width style tok clat clon →
       go.center (go.mapbox l) = {| go.center_lat := clat; go.center_lon := clon |} ∧
       (go.accepts_layout plotly l = true →
        ∃ w', _SetLayout plotly height width style tok w = (inr (), w') ∧
          layout (self w') = Some l) ∧
       (go.accepts_layout plotly l = false →
        _SetLayout plotly height width style tok w = (inl py.ValueError, w))) ∧
    (∀ figure w',
       PlotMap plotly token mode markersize markercolour opacity height width style
         renderer kwargs w = (inr figure, w') →
       ∃ l, go.figure_layout figure = Some l ∧ layout (self w') = Some l ∧
         fig (self w') = Some figure ∧
         go.center (go.mapbox l)
         = {| go.center_lat := clat; go.center_lon := clon |}) ∧
    (accepted plotly token mode markersize markercolour opacity height width style
       renderer kwargs →
     ∃ figure w',
       PlotMap plotly token mode markersize markercolour opacity height width style
         renderer kwargs w = (inr figure, w')).
Proof.
  intros Hr Hv Hne.
  destruct (reachable_sound w Hr) as [(df' & Hv' & Hp) _].
  rewrite Hv in Hv'. injection Hv' as <-.
  destruct Hp as (lats & lons & texts & H1 & H2 & H3 & L1 & L2 & L3).
  assert (lats ≠ []) as Hlats by (intros ->; destruct (pd.index df); done).
  assert (lons ≠ []) as Hlons by (intros ->; destruct (pd.index df); done).
  destruct (mid_lookup_is_Some lats Hlats) as [clat Hclat].
  destruct (mid_lookup_is_Some lons Hlons) as [clon Hclon].
  exists lats, lons, clat, clon.
  rewrite (PlotMap_run plotly token mode markersize markercolour opacity height width
             style renderer kwargs w df lats lons texts Hv H1 H2 H3).
  cbv zeta. rewrite Hclat, Hclon.
  unfold pd.getitem. rewrite H1, H2.
  split; [done|]. split; [done|]. split; [done|]. split; [done|].
  split; [by rewrite <- L1|]. split; [by rewrite <- L2|]. split_and!.
  - intros [H5|H4].
    + rewrite L1, H5 in Hclat. rewrite L2, H5 in Hclon. done.
    + rewrite L1, H4 in Hclat. rewrite L2, H4 in Hclon. done.
  - intros tok l ->. split; [done|].
    rewrite (SetLayout_run plotly height width style tok w df lats lons Hv H1 H2).
    rewrite Hclat, Hclon. cbv zeta. split; intros ->; [|done].
    eexists. split; [reflexivity|done].
  - intros figure w' Hrun.
    destruct (go.accepts_trace plotly _); [|discriminate].
    destruct (go.accepts_layout plotly _); [|discriminate].
    destruct (go.show plotly _ renderer kwargs) as [e|[]]; [discriminate|].
    injection Hrun as <- <-. eexists. split; [reflexivity|]. done.
  - intros (Ht & Hl & Hs). rewrite Ht, Hl, Hs. eauto.
Qed.

Lemma reachable_sample_world : reachable sample_world.
Proof. apply (reach_construct sample_file []). vm_compute. reflexivity. Qed.

Lemma PlotMap_centre_is_middle_row_witness :
  reachable sample_world ∧ view sample_world = Some sample_frame ∧
  length (pd.index sample_frame) = 5%nat ∧
  ∃ figure w',
    PlotMap_defaults sample_plotly "token" sample_world = (inr figure, w') ∧
    (go.center <$> (go.mapbox <$> go.figure_layout figure))
    = Some {| go.center_lat := pd.CFloat (PrimFloat.div (py.float_of_Z 407128000)
                                            (py.float_of_Z 10000000));
              go.center_lon := pd.CFloat (PrimFloat.div (py.float_of_Z (-740060000))
                                            (py.float_of_Z 10000000)) |}.
Proof.
  assert (view sample_world = Some sample_frame) as Hv by reflexivity.
  assert (pd.index sample_frame ≠ []) as Hne by (vm_compute; discriminate).
  split; [exact reachable_sample_world|]. split; [exact Hv|].
  split; [reflexivity|].
  destruct (PlotMap_centre_is_middle_row sample_world sample_frame sample_plotly
              "token" "markers" 10 "rgb(255,0,0)"
              (PrimFloat.div (py.float_of_Z 3) (py.float_of_Z 10)) 800 1200
              "outdoors" None [] reachable_sample_world Hv Hne)
    as (lats & lons & clat & clon & H1 & H2 & _ & _ & _ & _ & Hmid & _ & Hfig & Hret).
  destruct (Hret sample_plotly_accepts_defaults) as (figure & w' & Hrun).
  destruct (Hfig figure w' Hrun) as (l & Hl & _ & _ & Hc).
  exists figure, w'. split; [exact Hrun|].
  rewrite Hl. cbn [fmap option_fmap option_map]. rewrite Hc.
  destruct Hmid as [Hlat Hlon]; [by left|].
  vm_compute in H1. injection H1 as <-.
  vm_compute in H2. injection H2 as <-.
  vm_compute in Hlat. injection Hlat as <-.
  vm_compute in Hlon. injection Hlon as <-.
  vm_compute. reflexivity.
Defined.

Example centre_of_four_rows :
  (pd.index <$> view sample_four) = Some [0%nat; 1%nat; 3%nat; 4%nat] ∧
  match (PlotMap_defaults sample_plotly "token" sample_four).1 with
  | inr figure => go.center <$> (go.mapbox <$> go.figure_layout figure)
  | inl _ => None
  end
  = Some {| go.center_lat := pd.CFloat (degrees (py.float_of_Z 515074000));
            go.center_lon := pd.CFloat (degrees (py.float_of_Z (-1278000))) |}.
Proof. split; vm_compute; reflexivity. Qed.

(** ** Plotting an empty view *)

(** C10, as the code has it. On a reachable world whose view has no row,
    [PlotMap] never makes a figure. [_SetLayout] raises IndexError, from the
    centre, whatever plotly accepts; but in [PlotMap] the trace comes first:
    when plotly accepts it, [PlotMap] raises IndexError, and when plotly
    rejects the mode or the marker, [PlotMap] raises ValueError before the
    centre is read. Either way the figure stored, the layout and the view
    stay as they are. *)
Theorem PlotMap_empty_view_raises (w : world) (df : pd.DataFrame)
    (plotly : go.Plotly) (token mode : string) (markersize : Z)
    (markercolour : string) (opacity : float) (height width : Z) (style : string)
    (renderer : option string) (kwargs : go.keywords) :
  reachable w → view w = Some df → pd.index df = [] →
  _SetLayout plotly height width style (Some token) w = (inl py.IndexError, w) ∧
  (go.accepts_trace plotly
     (scatter_of mode markersize markercolour opacity [] [] []) = true →
   ∃ w',
     PlotMap plotly token mode markersize markercolour opacity height width style
       renderer kwargs w = (inl py.IndexError, w') ∧
     fig (self w') = fig (self w) ∧
     layout (self w') = layout (self w) ∧
     view w' = Some df) ∧
  (go.accepts_trace plotly
     (scatter_of mode markersize markercolour opacity [] [] []) = false →
   PlotMap plotly token mode markersize markercolour opacity height width style
     renderer kwargs w = (inl py.ValueError, w)) ∧
  ∃ e w',
    PlotMap plotly token mode markersize markercolour opacity height width style
      renderer kwargs w = (inl e, w') ∧
    (e = py.IndexError ∨ e = py.ValueError) ∧
    fig (self w') = fig (self w) ∧ view w' = Some df.
Proof.
  intros Hr Hv Hempty.
  destruct (reachable_sound w Hr) as [(df' & Hv' & Hp) _].
  rewrite Hv in Hv'. injection Hv' as <-.
  destruct Hp as (lats & lons & texts & H1 & H2 & H3 & L1 & L2 & L3).
  rewrite Hempty in L1, L2, L3.
  destruct lats; [|done]. destruct lons; [|done]. destruct texts; [|done].
  rewrite (SetLayout_run _ _ _ _ _ _ _ _ _ Hv H1 H2).
  rewrite (PlotMap_run plotly token mode markersize markercolour opacity height width
             style renderer kwargs w df [] [] [] Hv H1 H2 H3).
  cbv zeta. cbn [length lookup list_lookup Nat.div]. split; [done|].
  destruct (go.accepts_trace plotly _).
  - split; [|split; [done|]].
    + intros _. eexists. split; [reflexivity|]. done.
    + do 2 eexists. split; [reflexivity|]. split; [by left|]. done.
  - split; [done|]. split; [done|].
    do 2 eexists. split; [reflexivity|]. split; [by right|]. done.
Qed.

Lemma reachable_sample_emptied : reachable sample_emptied.
Proof.
  change sample_emptied
    with (Filter (pd.MaskArray [false; false; false; false; false]) sample_world).2.
  apply reach_Filter, reachable_sample_world.
Qed.

Lemma PlotMap_empty_view_raises_witness :
  reachable sample_emptied ∧ view sample_emptied = Some sample_emptied_frame ∧
  pd.index sample_emptied_frame = [] ∧
  (PlotMap_defaults sample_plotly "token" sample_emptied).1 = inl py.IndexError.
Proof.
  assert (view sample_emptied = Some sample_emptied_frame) as Hv by reflexivity.
  assert (pd.index sample_emptied_frame = []) as He by reflexivity.
  split; [exact reachable_sample_emptied|]. split; [exact Hv|]. split; [exact He|].
  destruct (PlotMap_empty_view_raises sample_emptied sample_emptied_frame sample_plotly
              "token" "markers" 10 "rgb(255,0,0)"
              (PrimFloat.div (py.float_of_Z 3) (py.float_of_Z 10)) 800 1200
              "outdoors" None [] reachable_sample_emptied Hv He) as (_ & H & _).
  destruct H as (w' & Hrun & _); [vm_compute; reflexivity|].
  unfold PlotMap_defaults. rewrite Hrun. reflexivity.
Defined.

(** C10 as stated fails: with an opacity of 1.5, which plotly rejects,
    [PlotMap] on a view without rows raises ValueError, from the trace, and
    the centre is never read. *)
Lemma PlotMap_empty_view_rejected_marker :
  reachable sample_emptied ∧ view sample_emptied = Some sample_emptied_frame ∧
  pd.index sample_emptied_frame = [] ∧
  go.accepts_trace sample_plotly
    (scatter_of "markers" 10 "rgb(255,0,0)" three_halves [] [] []) = false ∧
  PlotMap sample_plotly "token" "markers" 10 "rgb(255,0,0)" three_halves 800 1200
    "outdoors" None [] sample_emptied
  = (inl py.ValueError, sample_emptied).
Proof.
  split; [exact reachable_sample_emptied|].
  split; [reflexivity|]. split; [reflexivity|].
  split; vm_compute; reflexivity.
Qed.


(** ** What the loader keeps, and when it raises *)

(** C8. From a file that parses to an object of arrays of one length with a
    ["locations"] array, the loader returns a new frame with one row per
    record, in the order of the file. Its columns are those of the three raw
    fields that occur in the records, in the order latitudeE7, longitudeE7,
    timestampMs: every other field of the records is dropped. When every
    record carries the three fields, the columns are exactly the three. *)
Theorem ReadJson_keeps_raw_fields doc recs (h : heap) :
  same_lengths doc → doc !! "locations"%string = Some recs →
  ∃ r df h',
    _ReadJson (pd.Parsed doc) h = (inr r, h') ∧
    h' !! r = Some df ∧
    pd.index df = seq 0 (length recs) ∧
    pd.column_names df = filter (λ c, c ∈ pd.labels_of recs) raw_fields ∧
    (∀ c, c ∈ pd.column_names df → c ∈ raw_fields) ∧
    (∀ c, c ∉ raw_fields → pd.getitem c df = inl (py.KeyError c)) ∧
    (∀ c, c ∈ raw_fields → c ∈ pd.labels_of recs →
       pd.getitem c df = inr (raw_column c recs) ∧
       length (raw_column c recs) = length recs) ∧
    (recs ≠ [] → (∀ r c, r ∈ recs → c ∈ raw_fields → is_Some (r !! c)) →
       pd.column_names df = raw_fields).
Proof.
  intros Hsame Hloc.
  exists (S (length h)), (loaded recs), (h ++ [pd.from_dict recs; loaded recs]).
  split.
  { rewrite ReadJson_run.
    destruct (read_json_Parsed doc) as [[_ E]|[Hn _]]; [|done].
    by rewrite E, Hloc. }
  split; [apply lookup_second|]. split; [apply loaded_index|].
  split; [apply loaded_names|]. split_and!.
  - intros c. rewrite loaded_names. intros Hc.
    by apply list_elem_of_filter in Hc as [_ Hc].
  - intros c Hc. unfold pd.getitem. rewrite loaded_lookup.
    rewrite bool_decide_eq_false_2 by tauto. done.
  - intros c Hc Hl. split; [|apply raw_column_length].
    unfold pd.getitem. rewrite loaded_lookup.
    rewrite bool_decide_eq_true_2 by tauto. done.
  - intros Hne Hall. rewrite loaded_names.
    destruct recs as [|r0 recs']; [done|].
    assert (∀ c, c ∈ raw_fields → c ∈ pd.labels_of (r0 :: recs')) as Hin.
    { intros c Hc. apply elem_of_labels_of. exists r0. split; [left|].
      apply Hall; [left|done]. }
    unfold raw_fields in *. rewrite !filter_cons, filter_nil.
    rewrite !decide_True; [done|apply Hin..];
      repeat first [by left | right].
Qed.

Lemma singleton_same_lengths key (recs : list (gmap string pd.jvalue)) :
  same_lengths (<[key := recs]> ∅).
Proof.
  intros k1 v1 k2 v2 H1 H2.
  apply lookup_insert_Some in H1 as [[_ <-]|[_ H1]];
    [|by rewrite lookup_empty in H1].
  apply lookup_insert_Some in H2 as [[_ <-]|[_ H2]];
    [|by rewrite lookup_empty in H2].
  done.
Qed.

Lemma sample_same_lengths :
  same_lengths (<["locations"%string := sample_records]> ∅).
Proof. apply singleton_same_lengths. Qed.

Lemma ReadJson_keeps_raw_fields_witness :
  same_lengths (<["locations"%string := sample_records]> ∅) ∧
  (<["locations"%string := sample_records]> ∅ : gmap string _) !! "locations"%string
  = Some sample_records ∧
  ∃ r df h',
    _ReadJson sample_file [] = (inr r, h') ∧ h' !! r = Some df ∧
    pd.column_names df = raw_fields.
Proof.
  assert ((<["locations"%string := sample_records]> ∅ : gmap string _)
            !! "locations"%string = Some sample_records) as Hloc
    by reflexivity.
  split; [exact sample_same_lengths|]. split; [exact Hloc|].
  destruct (ReadJson_keeps_raw_fields _ sample_records [] sample_same_lengths Hloc)
    as (r & df & h' & Hrun & Hr & _ & Hnames & _).
  exists r, df, h'. split; [exact Hrun|]. split; [exact Hr|].
  rewrite Hnames. vm_compute. reflexivity.
Defined.

(** C5, as the code has it. Without a file the loader raises
    FileNotFoundError, and with a file that is no JSON document ValueError.
    With a document of the shape of the export, an object whose members are
    arrays of records, it raises in two cases only: the arrays differ in
    length (ValueError), or the object has no ["locations"] member
    (KeyError). Whatever fields the records have or lack, a document of
    that shape with arrays of one length and a ["locations"] array is
    loaded. When the loader raises, the store is as it was. *)
Theorem ReadJson_raises_iff (filepath : pd.file) (h : heap) :
  (filepath = pd.Missing → _ReadJson filepath h = (inl py.FileNotFoundError, h)) ∧
  (filepath = pd.Unparsable → _ReadJson filepath h = (inl py.ValueError, h)) ∧
  (∀ doc, filepath = pd.Parsed doc →
     ((∃ e, (_ReadJson filepath h).1 = inl e) ↔
      (¬ same_lengths doc ∨ doc !! "locations"%string = None)) ∧
     (¬ same_lengths doc → _ReadJson filepath h = (inl py.ValueError, h)) ∧
     (same_lengths doc → doc !! "locations"%string = None →
      _ReadJson filepath h = (inl (py.KeyError "locations"), h)) ∧
     (∀ recs, same_lengths doc → doc !! "locations"%string = Some recs →
      _ReadJson filepath h
      = (inr (S (length h)), h ++ [pd.from_dict recs; loaded recs]))).
Proof.
  rewrite ReadJson_run. destruct filepath as [| |doc|]; try by split_and!.
  split; [done|]. split; [done|]. intros doc' [= <-].
  destruct (read_json_Parsed doc) as [[Hs E]|[Hn E]]; rewrite E.
  - destruct (doc !! "locations"%string) as [recs|] eqn:Hloc.
    + split_and!; try done.
      * split; [intros [e He]; done|]. intros [Hn|Hl]; [done|congruence].
      * intros recs' _ [= <-]. done.
    + split_and!; try done. split; [|eauto]. intros _. by right.
  - split_and!; try done. split; [|eauto]. intros _. by left.
Qed.

Lemma ReadJson_raises_iff_witness :
  _ReadJson pd.Missing [] = (inl py.FileNotFoundError, []) ∧
  _ReadJson pd.Unparsable [] = (inl py.ValueError, []) ∧
  same_lengths places_doc ∧ places_doc !! "locations"%string = None ∧
  _ReadJson (pd.Parsed places_doc) [] = (inl (py.KeyError "locations"), []) ∧
  ¬ same_lengths uneven_doc ∧
  _ReadJson (pd.Parsed uneven_doc) [] = (inl py.ValueError, []).
Proof.
  assert (same_lengths places_doc) as Hs by apply singleton_same_lengths.
  assert (places_doc !! "locations"%string = None) as Hn by reflexivity.
  assert (¬ same_lengths uneven_doc) as Hu.
  { intros H.
    specialize (H "locations"%string sample_records "settings"%string []
                  eq_refl eq_refl). discriminate H. }
  split; [exact (proj1 (ReadJson_raises_iff pd.Missing []) eq_refl)|].
  split; [exact (proj1 (proj2 (ReadJson_raises_iff pd.Unparsable [])) eq_refl)|].
  split; [exact Hs|]. split; [exact Hn|].
  split.
  { exact (proj1 (proj2 (proj2 (proj2 (proj2 (ReadJson_raises_iff
             (pd.Parsed places_doc) [])) places_doc eq_refl))) Hs Hn). }
  split; [exact Hu|].
  exact (proj1 (proj2 (proj2 (proj2 (ReadJson_raises_iff (pd.Parsed uneven_doc) []))
           uneven_doc eq_refl)) Hu).
Defined.

(** C5 as stated fails: records without one of the three fields are loaded,
    and the construction built on the loader returns as well. *)
Lemma ReadJson_accepts_missing_fields :
  (gap_records !! 1%nat ≫= (.!! "latitudeE7"%string)) = None ∧
  (gap_records !! 2%nat ≫= (.!! "timestampMs"%string)) = None ∧
  (_ReadJson gap_file []).1 = inr 1%nat ∧
  (pd.column_names <$> (_ReadJson gap_file []).2 !! 1%nat) = Some raw_fields ∧
  (pd.getitem "latitudeE7" <$> (_ReadJson gap_file []).2 !! 1%nat)
  = Some (inr [pd.CFloat (py.float_of_Z 377749000); pd.NaN;
               pd.CFloat (py.float_of_Z 407128000)]) ∧
  construct gap_file [] = inr gap_world ∧
  (pd.getitem "latitudeE7" <$> view gap_world)
  = Some (inr [pd.CFloat (degrees (py.float_of_Z 377749000));
               pd.CFloat (degrees PrimFloat.nan);
               pd.CFloat (degrees (py.float_of_Z 407128000))]).
Proof. split_and!; vm_compute; reflexivity. Qed.


Lemma year_of_era doe :
  0 ≤ doe < 146097 →
  let yoe := (doe - doe / 1460 + doe / 36524 - doe / 146096) / 365 in
  let doy := doe - (365 * yoe + yoe / 4 - yoe / 100) in
  0 ≤ yoe ≤ 399 ∧ 0 ≤ doy ≤ 365 ∧
  (doy = 365 → yoe mod 4 = 3 ∧ (yoe mod 100 ≠ 99 ∨ yoe = 399)).
Proof.
  intros H yoe doy. subst yoe doy.
  Z.to_euclidean_division_equations; lia.
Qed.

Lemma is_leap_true y :
  calendar.is_leap y = true ↔ y mod 4 = 0 ∧ (y mod 100 ≠ 0 ∨ y mod 400 = 0).
Proof.
  unfold calendar.is_leap.
  destruct (Z.eqb_spec (y mod 4) 0), (Z.eqb_spec (y mod 100) 0),
    (Z.eqb_spec (y mod 400) 0); simpl;
    (split; [intros ?|intros [? [?|?]]]); try done;
    try (split; [|tauto]); try (Z.to_euclidean_division_equations; lia).
Qed.

Lemma days_before_month_cases y m :
  1 ≤ m ≤ 12 →
  let leap := if calendar.is_leap y then 1 else 0 in
  calendar.days_before_month y m =
  if m =? 1 then 0 else if m =? 2 then 31 else
  leap + (if m =? 3 then 59 else if m =? 4 then 90 else if m =? 5 then 120
          else if m =? 6 then 151 else if m =? 7 then 181 else if m =? 8 then 212
          else if m =? 9 then 243 else if m =? 10 then 273 else if m =? 11 then 304
          else 334).
Proof.
  intros Hm leap. subst leap.
  assert (m = 1 ∨ m = 2 ∨ m = 3 ∨ m = 4 ∨ m = 5 ∨ m = 6 ∨ m = 7 ∨ m = 8 ∨ m = 9
          ∨ m = 10 ∨ m = 11 ∨ m = 12) as Hc by lia.
  unfold calendar.days_before_month.
  destruct Hc as [->|[->|[->|[->|[->|[->|[->|[->|[->|[->|[->| ->]]]]]]]]]]];
    match goal with
    | |- context [Z.to_nat ?k] =>
        let n := eval vm_compute in (Z.to_nat k) in change (Z.to_nat k) with n
    end;
    cbn [calendar.days_before_month_go]; unfold calendar.days_in_month;
    cbn [Z.of_nat Pos.of_succ_nat Pos.succ Z.eqb Pos.eqb orb];
    destruct (calendar.is_leap y); reflexivity.
Qed.

Ltac is_numeral x :=
  lazymatch x with Z0 => idtac | Zpos _ => idtac | Zneg _ => idtac end.

Ltac fold_numerals_step :=
  match goal with
  | |- context [Z.add ?x ?y] =>
      is_numeral x; is_numeral y;
      let v := eval vm_compute in (Z.add x y) in change (Z.add x y) with v
  | |- context [Z.sub ?x ?y] =>
      is_numeral x; is_numeral y;
      let v := eval vm_compute in (Z.sub x y) in change (Z.sub x y) with v
  | |- context [Z.mul ?x ?y] =>
      is_numeral x; is_numeral y;
      let v := eval vm_compute in (Z.mul x y) in change (Z.mul x y) with v
  | |- context [Z.div ?x ?y] =>
      is_numeral x; is_numeral y;
      let v := eval vm_compute in (Z.div x y) in change (Z.div x y) with v
  | |- context [Z.eqb ?x ?y] =>
      is_numeral x; is_numeral y;
      let v := eval vm_compute in (Z.eqb x y) in change (Z.eqb x y) with v
  | |- context [Z.leb ?x ?y] =>
      is_numeral x; is_numeral y;
      let v := eval vm_compute in (Z.leb x y) in change (Z.leb x y) with v
  | |- context [Z.ltb ?x ?y] =>
      is_numeral x; is_numeral y;
      let v := eval vm_compute in (Z.ltb x y) in change (Z.ltb x y) with v
  end.

Ltac fold_numerals :=
  repeat (first [fold_numerals_step | progress cbv beta iota delta [orb]]).

Lemma civil_from_days_correct z :
  let '(y, m, d) := calendar.civil_from_days z in
  calendar.valid_date y m d = true ∧ calendar.day_number y m d = z.
Proof.
  unfold calendar.civil_from_days.
  set (era := (z + 719468) / 146097).
  set (doe := z + 719468 - era * 146097).
  assert (0 ≤ doe < 146097) as Hdoe by (subst doe era; Z.to_euclidean_division_equations; lia).
  pose proof (year_of_era doe Hdoe) as Hy. cbv zeta in Hy.
  set (yoe := (doe - doe / 1460 + doe / 36524 - doe / 146096) / 365) in *.
  set (doy := doe - (365 * yoe + yoe / 4 - yoe / 100)) in *.
  destruct Hy as (Hyoe & Hdoy & Hleap).
  assert (z = era * 146097 + 365 * yoe + yoe / 4 - yoe / 100 + doy - 719468) as Hz
    by (subst doy doe; lia).
  clearbody doy yoe era. clear doe Hdoe.
  set (mp := (5 * doy + 2) / 153).
  assert (0 ≤ mp ≤ 11) as Hmp by (subst mp; Z.to_euclidean_division_equations; lia).
  assert (mp = 0 ∨ mp = 1 ∨ mp = 2 ∨ mp = 3 ∨ mp = 4 ∨ mp = 5 ∨ mp = 6 ∨ mp = 7
          ∨ mp = 8 ∨ mp = 9 ∨ mp = 10 ∨ mp = 11) as Hc by lia.
  assert (153 * mp ≤ 5 * doy + 2 < 153 * mp + 153) as Hmp2
    by (subst mp; Z.to_euclidean_division_equations; lia).
  clearbody mp.
  unfold calendar.valid_date, calendar.day_number.
  destruct Hc as [->|[->|[->|[->|[->|[->|[->|[->|[->|[->|[->| ->]]]]]]]]]]];
    fold_numerals;
    rewrite days_before_month_cases by lia; cbv zeta;
    unfold calendar.days_in_month, calendar.days_before_year;
    fold_numerals;
    match goal with
    | |- context [calendar.is_leap ?y] =>
        let E := fresh "E" in
        destruct (calendar.is_leap y) eqn:E;
        [apply is_leap_true in E
        |assert (¬ (y mod 4 = 0 ∧ (y mod 100 ≠ 0 ∨ y mod 400 = 0)))
           by (rewrite <- is_leap_true; congruence); clear E]
    | _ => idtac
    end.
  all: split; [repeat (apply andb_true_intro; split);
                 try reflexivity; apply Z.leb_le|].
  all: try (Z.to_euclidean_division_equations; lia).
Qed.

(** The fields of an instant are those of a date of the calendar and a time
    of day, and they give the instant back. *)
Lemma fields_of_instant ms :
  calendar.valid_date (calendar.year ms) (calendar.month ms) (calendar.day ms) = true ∧
  0 ≤ calendar.hour ms < 24 ∧
  0 ≤ calendar.minute ms < 60 ∧
  0 ≤ calendar.second ms < 60 ∧
  calendar.epoch_ms (calendar.year ms) (calendar.month ms) (calendar.day ms)
    (calendar.hour ms) (calendar.minute ms) (calendar.second ms) (ms mod 1000) = ms.
Proof.
  unfold calendar.year, calendar.month, calendar.day.
  pose proof (civil_from_days_correct (calendar.days_of_ms ms)) as H.
  destruct (calendar.civil_from_days (calendar.days_of_ms ms)) as [[y m] d].
  destruct H as [Hv Hn]. cbn [fst snd]. split; [done|].
  unfold calendar.epoch_ms. rewrite Hn.
  unfold calendar.hour, calendar.minute, calendar.second, calendar.ms_of_day,
    calendar.days_of_ms, calendar.ms_per_day.
  Z.to_euclidean_division_equations; lia.
Qed.


(** ** Raw columns, row by row *)

Lemma infer_column_lookup raw i v :
  raw !! i = Some v →
  ∃ c, pd.infer_column raw !! i = Some c ∧
    match v with
    | Some (pd.JInt z) => c = pd.CInt z ∨ c = pd.CFloat (py.float_of_Z z)
    | Some (pd.JStr s) => c = pd.CStr s
    | None => c = pd.NaN
    end.
Proof.
  intros Hi. unfold pd.infer_column.
  destruct (forallb pd.is_JInt raw) eqn:E1; [|destruct (existsb pd.is_JStr raw) eqn:E2];
    rewrite list_lookup_fmap, Hi; cbn [fmap option_fmap option_map];
    eexists; (split; [reflexivity|]).
  - rewrite forallb_forall in E1. specialize (E1 v).
    destruct v as [[z|s]|]; [by left|..];
      (cbn in E1; discriminate E1; apply list_elem_of_In;
       by eapply list_elem_of_lookup_2).
  - destruct v as [[z|s]|]; [by left|done|done].
  - destruct v as [[z|s]|]; [by right| |done].
    assert (existsb pd.is_JStr raw = true) as E; [|congruence].
    apply existsb_exists. exists (Some (pd.JStr s)). split; [|done].
    apply list_elem_of_In. by eapply list_elem_of_lookup_2.
Qed.

Lemma infer_column_present (vs : list pd.jvalue) :
  pd.infer_column (Some <$> vs) = cell_of <$> vs.
Proof.
  unfold pd.infer_column.
  destruct (forallb pd.is_JInt (Some <$> vs)) eqn:E1;
    [|destruct (existsb pd.is_JStr (Some <$> vs)) eqn:E2].
  - rewrite <- list_fmap_compose. apply list_fmap_ext.
    intros i v Hv. rewrite forallb_forall in E1.
    specialize (E1 (Some v)). destruct v as [z|s]; [done|].
    cbn in E1. discriminate E1. apply list_elem_of_In, list_elem_of_fmap.
    exists (pd.JStr s). split; [done|]. by eapply list_elem_of_lookup_2.
  - rewrite <- list_fmap_compose. apply list_fmap_ext.
    intros i [z|s] _; done.
  - exfalso. clear -E1 E2. induction vs as [|[z|s] vs IH]; [done| |done].
    cbn in E1, E2. auto.
Qed.

Lemma raw_column_lookup c recs i r :
  recs !! i = Some r →
  ∃ x, raw_column c recs !! i = Some x ∧
    match r !! c with
    | Some (pd.JInt z) => x = pd.CInt z ∨ x = pd.CFloat (py.float_of_Z z)
    | Some (pd.JStr s) => x = pd.CStr s
    | None => x = pd.NaN
    end.
Proof.
  intros Hi. apply infer_column_lookup.
  by rewrite list_lookup_fmap, Hi.
Qed.

(** ** The coordinate fix *)

Lemma truediv_rows c recs fixed i r :
  pd.series_truediv (raw_column c recs) 10000000 = inr fixed →
  recs !! i = Some r →
  ∃ raw, coordinate (r !! c) = Some raw ∧
    fixed !! i = Some (pd.CFloat (degrees raw)).
Proof.
  intros Hdiv Hi. apply mapM_inr in Hdiv.
  destruct (raw_column_lookup c recs i r Hi) as (x & Hx & Hcase).
  destruct (Forall2_lookup_l _ _ _ _ _ Hdiv Hx) as (y & Hy & Hxy).
  rewrite Hy. destruct (r !! c) as [[z|s]|]; cbn [coordinate].
  - exists (py.float_of_Z z). split; [done|].
    destruct Hcase as [->| ->]; cbn in Hxy; by injection Hxy as <-.
  - subst x. discriminate Hxy.
  - exists PrimFloat.nan. split; [done|]. subst x.
    cbn in Hxy. by injection Hxy as <-.
Qed.

Section coordinate_fix.
Import PrimFloat.
#[local] Set Warnings "-inexact-float".

(** C1. In every instance a construction returns, each coordinate cell is
  the raw value of its record divided by 10000000, once: the float64 of
  the integer over the float64 of 10000000 (NaN where the record has no
  such field; a record never holds a string there). So 377749000 becomes
  37.7749 and -1224194000 becomes -122.4194, and a second division would
  give another number. *)
Theorem FixLatLong_divides_once :
(∀ filepath (h : heap) w recs,
   construct filepath h = inr w → records_of filepath = Some recs →
   ∃ df lats lons,
     view w = Some df ∧
     pd.getitem "latitudeE7" df = inr lats ∧
     pd.getitem "longitudeE7" df = inr lons ∧
     ∀ i r, recs !! i = Some r →
       ∃ lat lon,
         coordinate (r !! "latitudeE7"%string) = Some lat ∧
         coordinate (r !! "longitudeE7"%string) = Some lon ∧
         lats !! i = Some (pd.CFloat (degrees lat)) ∧
         lons !! i = Some (pd.CFloat (degrees lon))) ∧
degrees (py.float_of_Z 377749000) = 37.7749%float ∧
degrees (py.float_of_Z (-1224194000)) = (-122.4194)%float ∧
PrimFloat.ltb (degrees (degrees (py.float_of_Z 377749000)))
  (degrees (py.float_of_Z 377749000)) = true.
Proof.
split; [|split; [|split]; vm_compute; reflexivity].
intros filepath h w recs (o & h' & Hinit & ->)%construct_inr_inv Hrecs.
apply init_inr_inv in Hinit
  as (doc & recs' & date_time & strs & lat & lon & -> & _ & Hloc & _ & _ & _ & _
      & _ & _ & _ & Hlat & Hlon & -> & ->).
cbn [records_of] in Hrecs. rewrite Hloc in Hrecs. injection Hrecs as ->.
exists (transformed recs date_time strs lat lon), lat, lon.
split; [apply lookup_second|]. split; [done|]. split; [done|].
intros i r Hi.
destruct (truediv_rows _ _ _ i r Hlat Hi) as (x & Hx & Hxi).
destruct (truediv_rows _ _ _ i r Hlon Hi) as (y & Hy & Hyi).
eauto 10.
Qed.

End coordinate_fix.

Lemma FixLatLong_divides_once_witness :
  construct sample_file [] = inr sample_world ∧
  records_of sample_file = Some sample_records ∧
  pd.getitem "latitudeE7" sample_frame = inr sample_latitudes ∧
  pd.getitem "longitudeE7" sample_frame = inr sample_longitudes ∧
  sample_latitudes !! 0%nat = Some (pd.CFloat (degrees (py.float_of_Z 377749000))) ∧
  sample_longitudes !! 0%nat
  = Some (pd.CFloat (degrees (py.float_of_Z (-1224194000)))).
Proof.
  assert (construct sample_file [] = inr sample_world) as Hc
    by (vm_compute; reflexivity).
  assert (records_of sample_file = Some sample_records) as Hr
    by reflexivity.
  split; [exact Hc|]. split; [exact Hr|].
  destruct (proj1 FixLatLong_divides_once sample_file [] sample_world
              sample_records Hc Hr)
    as (df & lats & lons & Hv & Hlats & Hlons & Hrows).
  assert (df = sample_frame) as ->
    by (apply (inj Some); rewrite <- Hv; reflexivity).
  split; [reflexivity|]. split; [reflexivity|].
  assert (lats = sample_latitudes) as ->.
  { change (pd.getitem "latitudeE7" sample_frame) with
      (inr sample_latitudes : py.exn + list pd.cell) in Hlats. congruence. }
  assert (lons = sample_longitudes) as ->.
  { change (pd.getitem "longitudeE7" sample_frame) with
      (inr sample_longitudes : py.exn + list pd.cell) in Hlons. congruence. }
  destruct (Hrows 0%nat _ eq_refl) as (lat & lon & Hlat & Hlon & H1 & H2).
  vm_compute in Hlat. injection Hlat as <-.
  vm_compute in Hlon. injection Hlon as <-.
  split; [exact H1|exact H2].
Defined.


(** ** Timestamps *)

Lemma to_datetime_cell_numeric v ms t :
  timestamp_value v = Some ms →
  pd.to_datetime_cell (cell_of v) = inr t →
  t = Some ms ∧ calendar.in_bounds ms = true.
Proof.
  unfold pd.check_bounds.
  destruct v as [z|s]; cbn [timestamp_value cell_of pd.to_datetime_cell].
  - destruct (z =? pd.iNaT); [done|]. intros [= ->].
    destruct (pd.fits_int64 ms); [|done]. unfold pd.check_bounds.
    destruct (calendar.in_bounds ms); [|done]. by intros [= <-].
  - destruct (_ || _); [done|]. intros ->. unfold pd.check_bounds.
    destruct (calendar.in_bounds ms); [|done]. by intros [= <-].
Qed.

(** When every record has a numeric timestamp, the instants of the column
    are those of the records, all within bounds. *)
Lemma to_datetime_numeric recs date_time :
  (∀ r, r ∈ recs → is_Some (timestamp_of r)) →
  pd.to_datetime (raw_column "timestampMs" recs) = inr date_time →
  date_time = timestamp_of <$> recs ∧
  ∀ r ms, r ∈ recs → timestamp_of r = Some ms → calendar.in_bounds ms = true.
Proof.
  intros Hall Hdt.
  assert (∃ vs, (λ r : gmap string pd.jvalue, r !! "timestampMs"%string) <$> recs
                = Some <$> vs ∧ Forall2 (λ r v, timestamp_of r = timestamp_value v) recs vs)
    as (vs & Hvs & Hrel).
  { clear Hdt. induction recs as [|r recs IH]; [by exists []|].
    destruct IH as (vs & Hvs & Hrel).
    { intros r' Hr'. apply Hall. by right. }
    destruct (Hall r) as [ms Hms]; [left|].
    unfold timestamp_of in Hms.
    destruct (r !! "timestampMs"%string) as [v|] eqn:Hv; [|done].
    exists (v :: vs). csimpl. rewrite Hv, Hvs. split; [done|].
    constructor; [|done]. unfold timestamp_of. by rewrite Hv. }
  unfold raw_column in Hdt. rewrite Hvs, infer_column_present in Hdt.
  apply mapM_inr in Hdt. clear Hvs.
  revert date_time Hdt. induction Hrel as [|r v recs vs Hrv Hrel IH];
    intros date_time Hdt.
  - apply Forall2_nil_inv_l in Hdt as ->. split; [done|].
    intros r ms Hr. by apply elem_of_nil in Hr.
  - csimpl in Hdt. apply Forall2_cons_inv_l in Hdt as (t & ts & Ht & Hts & ->).
    destruct (Hall r) as [ms Hms]; [left|].
    assert (timestamp_value v = Some ms) as Hv by congruence.
    destruct (to_datetime_cell_numeric v ms t Hv Ht) as [-> Hb].
    destruct (IH (λ r' Hr', Hall r' (list_elem_of_further _ _ _ Hr')) ts Hts)
      as [-> Hbs].
    split; [csimpl; by rewrite Hms|].
    intros r' ms' [->|Hr']%elem_of_cons Hms'; [congruence|eauto].
Qed.

(** ** The display string *)

Section elementwise.
Context {A : Type}.
Implicit Types (l : list A).

Lemma mapM_fmap {B C} (f : B → py.exn + C) (g : A → B) (k : A → C) l :
  (∀ a, f (g a) = inr (k a)) → pd.mapM f (g <$> l) = inr (k <$> l).
Proof.
  intros H. induction l as [|a l IH]; [done|].
  csimpl. by rewrite H, IH.
Qed.

Lemma series_add_fmap (g g' k : A → pd.cell) l :
  (∀ a, pd.add_cells (g a, g' a) = inr (k a)) →
  pd.series_add (g <$> l) (g' <$> l) = inr (k <$> l).
Proof.
  intros H. unfold pd.series_add. induction l as [|a l IH]; [done|].
  cbn [fmap list_fmap zip_with pd.mapM] in *. by rewrite H, IH.
Qed.
End elementwise.

Lemma dt_field_present field (zs : list Z) :
  pd.dt_field field (Some <$> zs) = (λ z, pd.CInt (field z)) <$> zs.
Proof.
  unfold pd.dt_field.
  assert (forallb (λ t : option Z, bool_decide (is_Some t)) (Some <$> zs) = true) as ->.
  { induction zs as [|z zs IH]; [done|]. csimpl. by rewrite IH. }
  by rewrite <- list_fmap_compose.
Qed.

Lemma append_assoc (s t u : string) : (s +:+ t) +:+ u = s +:+ t +:+ u.
Proof.
  induction s as [|c s IH]; [done|].
  change (String c ((s +:+ t) +:+ u) = String c (s +:+ t +:+ u)). by f_equal.
Qed.

Lemma display_strings_present (zs : list Z) :
  display_strings
    (pd.dt_field calendar.month (Some <$> zs)) (pd.dt_field calendar.day (Some <$> zs))
    (pd.dt_field calendar.year (Some <$> zs)) (pd.dt_field calendar.hour (Some <$> zs))
    (pd.dt_field calendar.minute (Some <$> zs))
  = inr ((λ z, pd.CStr (display z)) <$> zs).
Proof.
  rewrite !dt_field_present.
  unfold display_strings, pd.astype_str, pd.series_add_str.
  repeat (first [ erewrite mapM_fmap by (intros; reflexivity)
                | erewrite series_add_fmap by (intros; reflexivity) ];
          cbn [mbind exn_bind]).
  f_equal. apply list_fmap_ext. intros _ z _.
  f_equal. unfold display. by rewrite !append_assoc.
Qed.

(** ** Numerals without padding *)

Lemma pretty_N_go_head (x : N) (s : string) :
  (0 < x)%N → ∃ c rest, pretty_N_go x s = String c rest ∧ c ≠ "0"%char.
Proof.
  revert s. induction (N.lt_wf_0 x) as [x _ IH]; intros s Hx.
  rewrite pretty_N_go_step by done.
  destruct (decide (x < 10)%N) as [Hlt|Hge].
  - rewrite N.div_small by done. rewrite pretty_N_go_0.
    rewrite N.mod_small by done.
    exists (pretty_N_char x), s. split; [done|].
    assert (x = 1 ∨ x = 2 ∨ x = 3 ∨ x = 4 ∨ x = 5 ∨ x = 6 ∨ x = 7 ∨ x = 8 ∨ x = 9)%N
      as Hc by lia.
    destruct Hc as [->|[->|[->|[->|[->|[->|[->|[->| ->]]]]]]]]; done.
  - apply IH.
    + apply N.div_lt; lia.
    + apply N.div_str_pos. lia.
Qed.

(** A positive integer prints with no zero in front, and a numeral below
    ten is one character. *)
Lemma str_int_no_padding (n : Z) :
  (0 < n → ∃ c rest, py.str_int n = String c rest ∧ c ≠ "0"%char) ∧
  (0 ≤ n < 10 → String.length (py.str_int n) = 1%nat).
Proof.
  split.
  - intros Hn. destruct n as [|p|p]; [lia| |lia].
    unfold py.str_int, pretty, pretty_Z, pretty, pretty_positive, pretty, pretty_N.
    rewrite decide_False by done. by apply pretty_N_go_head.
  - intros Hn.
    assert (n = 0 ∨ n = 1 ∨ n = 2 ∨ n = 3 ∨ n = 4 ∨ n = 5 ∨ n = 6 ∨ n = 7
            ∨ n = 8 ∨ n = 9) as Hc by lia.
    destruct Hc as [->|[->|[->|[->|[->|[->|[->|[->|[->| ->]]]]]]]]]; reflexivity.
Qed.


(** ** The time derivation *)


Lemma sample_timestamps_numeric r :
  r ∈ sample_records → is_Some (timestamp_of r).
Proof.
  unfold sample_records. rewrite !elem_of_cons.
  intros [->|[->|[->|[->|[->|Hr]]]]]; [..|by apply elem_of_nil in Hr];
    vm_compute; eauto.
Qed.



(** ** Timestamps that cannot be read, and timestamps that are not there *)

(** A given string is unreadable, by running the three tests. *)
Ltac unreadable_string :=
  split_and!;
  [reflexivity
  |refine (proj1 (bool_decide_eq_false _) _); vm_compute; reflexivity
  |vm_compute; reflexivity].

(** A digit is no blank, no sign and no stranger to a numeral. *)
Lemma digit_of_Some c d :
  pd.digit_of c = Some d →
  pd.is_digit c = true ∧ pd.is_blank c = false ∧ pd.foreign_char c = false ∧
  (pd.ascii_code c <? 128) = true.
Proof.
  destruct c as [[] [] [] [] [] [] [] []]; vm_compute; intros; try discriminate;
    repeat split; reflexivity.
Qed.

Lemma digits_value_numeral acc s z :
  pd.digits_value acc s = Some z →
  pd.has_foreign_char s = false ∧ pd.all_ascii s = true ∧
  pd.numeral_from pd.InInteger s = true ∧ pd.rstrip s = s.
Proof.
  revert acc. induction s as [|c s IH]; intros acc; [done|].
  cbn [pd.digits_value]. destruct (pd.digit_of c) as [d|] eqn:Hd; [|done].
  intros (Hf & Ha & Hn & Hr)%IH.
  destruct (digit_of_Some c d Hd) as (D1 & D2 & D3 & D4).
  cbn [pd.has_foreign_char pd.all_ascii pd.numeral_from pd.rstrip].
  unfold pd.numeral_step. rewrite D1, D3, D4, Hf, Ha, Hn, Hr.
  split_and!; try done. destruct s; [by rewrite D2|done].
Qed.

Lemma digits_value_start acc c s z :
  pd.digits_value acc (String c s) = Some z →
  pd.numeral_from pd.AtStart (String c s) = true ∧ pd.is_blank c = false.
Proof.
  cbn [pd.digits_value]. destruct (pd.digit_of c) as [d|] eqn:Hd; [|done].
  intros (_ & _ & Hn & _)%digits_value_numeral.
  destruct (digit_of_Some c d Hd) as (D1 & D2 & _).
  cbn [pd.numeral_from]. unfold pd.numeral_step. by rewrite D1, Hn.
Qed.

(** A decimal integer numeral is in the syntax [float()] reads. *)
Lemma signed_digits_float_syntax c s z :
  Ascii.eqb c "+" || Ascii.eqb c "-" = true →
  pd.digits_value 0 s = Some z → s ≠ EmptyString →
  pd.float_rejects (String c s) = false.
Proof.
  intros Hc Hz Hs.
  destruct (digits_value_numeral _ _ _ Hz) as (Hf & Ha & _ & Hr).
  assert (pd.foreign_char c = false ∧ (pd.ascii_code c <? 128) = true
          ∧ pd.is_blank c = false) as (K1 & K2 & K3).
  { apply orb_true_iff in Hc as [->%Ascii.eqb_eq| ->%Ascii.eqb_eq];
      split_and!; vm_compute; reflexivity. }
  unfold pd.float_rejects, pd.float_syntax.
  cbn [pd.has_foreign_char pd.all_ascii pd.lstrip]. rewrite K1, K2, K3, Hf, Ha.
  cbn [pd.rstrip]. rewrite Hr. destruct s as [|c' s']; [done|].
  destruct (digits_value_start _ _ _ _ Hz) as (Hn & Hb).
  cbn [pd.unsigned]. rewrite Hc, Hn. by rewrite orb_true_r.
Qed.

Lemma int_literal_float_syntax s z :
  pd.int_literal s = Some z → pd.float_rejects s = false.
Proof.
  destruct s as [|c s]; [done|]. unfold pd.int_literal.
  destruct (Ascii.eqb c "-") eqn:Em; [|destruct (Ascii.eqb c "+") eqn:Ep].
  - destruct (String.eqb s "") eqn:Es; [done|]. apply String.eqb_neq in Es.
    destruct (pd.digits_value 0 s) as [z'|] eqn:Hz; [|done]. intros _.
    apply (signed_digits_float_syntax c s z'); [|done..].
    by rewrite Em, orb_true_r.
  - destruct (String.eqb s "") eqn:Es; [done|]. apply String.eqb_neq in Es.
    intros Hz. apply (signed_digits_float_syntax c s z); [|done..].
    by rewrite Ep.
  - intros Hz. remember (String c s) as s' eqn:Hs'.
    destruct (digits_value_numeral _ _ _ Hz) as (Hf & Ha & _ & Hr).
    unfold pd.float_rejects, pd.float_syntax. rewrite Hf, Ha.
    subst s'. destruct (digits_value_start _ _ _ _ Hz) as (Hn & Hb).
    cbn [pd.lstrip]. rewrite Hb, Hr. cbn [pd.unsigned]. rewrite Ep, Em.
    cbn [orb]. rewrite Hn. by rewrite orb_true_r.
Qed.

Lemma to_datetime_unreadable s :
  unreadable s → pd.to_datetime_cell (pd.CStr s) = inl py.ValueError.
Proof.
  intros (H1 & H2 & H3). cbn [pd.to_datetime_cell].
  rewrite H1, bool_decide_eq_false_2 by done. cbn [orb].
  destruct (pd.int_literal s) as [z|] eqn:Hz; [|by rewrite H3].
  by rewrite (int_literal_float_syntax s z Hz) in H3.
Qed.

Lemma in_bounds_fits_int64 ms :
  calendar.in_bounds ms = true → pd.fits_int64 ms = true ∧ (ms =? pd.iNaT) = false.
Proof.
  unfold calendar.in_bounds, calendar.max_ms, pd.fits_int64, pd.iNaT. lia.
Qed.

Lemma to_datetime_cell_in_bounds v ms :
  timestamp_value v = Some ms → calendar.in_bounds ms = true →
  pd.to_datetime_cell (cell_of v) = inr (Some ms).
Proof.
  intros Hv Hb. destruct (in_bounds_fits_int64 ms Hb) as [Hfit Hnat].
  destruct v as [z|s]; cbn [timestamp_value cell_of pd.to_datetime_cell] in *.
  - destruct (z =? pd.iNaT); [done|]. injection Hv as ->.
    unfold pd.check_bounds. by rewrite Hfit, Hb.
  - destruct (_ || _); [done|]. rewrite Hv. unfold pd.check_bounds. by rewrite Hb.
Qed.

(** The cells of a field every record has. *)
Lemma present_cells c recs :
  (∀ r, r ∈ recs → is_Some (r !! c)) →
  ∃ vs, raw_column c recs = cell_of <$> vs ∧ Forall2 (λ r v, r !! c = Some v) recs vs.
Proof.
  intros Hall.
  assert (∃ vs, (λ r : gmap string pd.jvalue, r !! c) <$> recs = Some <$> vs
                ∧ Forall2 (λ r v, r !! c = Some v) recs vs) as (vs & Hvs & Hrel).
  { induction recs as [|r recs IH]; [by exists []|].
    destruct IH as (vs & Hvs & Hrel).
    { intros r' Hr'. apply Hall. by right. }
    destruct (Hall r) as [v Hv]; [left|].
    exists (v :: vs). csimpl. rewrite Hv, Hvs. split; [done|]. by constructor. }
  exists vs. split; [|done].
  unfold raw_column. by rewrite Hvs, infer_column_present.
Qed.

(** A column of timestamps that are in bounds or cannot be read, one of
    them of the second kind. *)
Lemma to_datetime_unreadable_column recs r s :
  (∀ r', r' ∈ recs →
     timed r' ∨ ∃ s', r' !! "timestampMs"%string = Some (pd.JStr s') ∧ unreadable s') →
  r ∈ recs → r !! "timestampMs"%string = Some (pd.JStr s) → unreadable s →
  pd.to_datetime (raw_column "timestampMs" recs) = inl py.ValueError.
Proof.
  intros Hall Hr Hs Hbad.
  destruct (present_cells "timestampMs" recs) as (vs & -> & Hrel).
  { intros r' Hr'. destruct (Hall r' Hr') as [(ms & Hms & _)|(s' & -> & _)]; [|by eexists].
    unfold timestamp_of in Hms. by destruct (r' !! "timestampMs"%string). }
  unfold pd.to_datetime.
  apply list_elem_of_lookup in Hr as [i Hi].
  destruct (Forall2_lookup_l _ _ _ _ _ Hrel Hi) as (v & Hv & Hrv).
  rewrite Hs in Hrv. injection Hrv as <-.
  apply (mapM_fails _ _ (pd.CStr s)).
  - apply list_elem_of_fmap. exists (pd.JStr s). split; [done|].
    by eapply list_elem_of_lookup_2.
  - by apply to_datetime_unreadable.
  - intros a e (v' & -> & Hv')%list_elem_of_fmap.
    apply list_elem_of_lookup in Hv' as [j Hj].
    destruct (Forall2_lookup_r _ _ _ _ _ Hrel Hj) as (r' & Hr' & Hrv').
    destruct (Hall r') as [(ms & Hms & Hb)|(s' & Hs' & Hbad')];
      [by eapply list_elem_of_lookup_2| |].
    + unfold timestamp_of in Hms. rewrite Hrv' in Hms. cbn in Hms.
      by rewrite (to_datetime_cell_in_bounds v' ms Hms Hb).
    + rewrite Hs' in Hrv'. injection Hrv' as <-. cbn [cell_of].
      rewrite (to_datetime_unreadable s' Hbad'). congruence.
Qed.

(** What a timestamp that does not convert raises. *)
Lemma to_datetime_cell_raises c e :
  pd.to_datetime_cell c = inl e → py.raised e →
  e = py.ValueError ∨ e = py.OutOfBoundsDatetime.
Proof.
  intros Hc He. unfold py.raised in He.
  destruct c as [z|f|s|t]; cbn [pd.to_datetime_cell] in Hc;
    unfold pd.check_bounds in Hc;
    repeat case_match; simplify_eq; auto; by destruct He.
Qed.

(** A construction over records one of which has an unreadable timestamp:
    it raises in the loader, on arrays of different lengths, or else what
    the conversion of the timestamps raises. *)
Lemma construct_unreadable doc (h : heap) recs r s :
  doc !! "locations"%string = Some recs → r ∈ recs →
  r !! "timestampMs"%string = Some (pd.JStr s) → unreadable s →
  ∃ e, construct (pd.Parsed doc) h = inl e ∧
    (e = py.ValueError ∨ pd.to_datetime (raw_column "timestampMs" recs) = inl e).
Proof.
  intros Hloc Hr Hs Hbad. unfold construct, __init__.
  destruct (read_json_Parsed doc) as [[_ E]|[_ E]].
  2:{ exists py.ValueError. split; [|by left].
      rewrite (bind_run_inl _ _ h py.ValueError h); [done|].
      rewrite ReadJson_run. by rewrite E. }
  rewrite (bind_run_inr _ _ h (S (length h))
             (h ++ [pd.from_dict recs; loaded recs])).
  2:{ rewrite ReadJson_run. by rewrite E, Hloc. }
  unfold _DeriveTimeIntervals at 1.
  unfold bind at 1. unfold bind at 1.
  rewrite (getitem_run _ _ _ _ (lookup_second h _ _)).
  unfold pd.getitem. rewrite loaded_lookup.
  rewrite bool_decide_eq_true_2.
  2:{ split; [unfold raw_fields; set_solver|]. apply elem_of_labels_of.
      exists r. split; [done|]. by rewrite Hs. }
  unfold bind at 1. fold (raw_column "timestampMs" recs).
  assert (∃ e, pd.to_datetime (raw_column "timestampMs" recs) = inl e) as [e He].
  { apply list_elem_of_lookup in Hr as [i Hi].
    destruct (raw_column_lookup "timestampMs" recs i r Hi) as (x & Hx & Hcase).
    rewrite Hs in Hcase. subst x.
    apply (mapM_inl _ _ (pd.CStr s) py.ValueError).
    - by eapply list_elem_of_lookup_2.
    - by apply to_datetime_unreadable. }
  exists e. rewrite He. split; [done|by right].
Qed.

Lemma gap_world_constructed : construct gap_file [] = inr gap_world.
Proof. vm_compute. reflexivity. Qed.




(** * The frames of an instance *)

(** ** Selecting rows *)

Section select_facts.
Context {A : Type}.
Implicit Types (l : list A) (bs : list bool).

Lemma select_select bs bs' l :
  pd.select bs' (pd.select bs l) = pd.select (narrowed bs bs') l.
Proof.
  revert bs' l. induction bs as [|[] bs IH]; intros bs' l.
  - by destruct bs'.
  - destruct l as [|a l]; cbn [pd.select narrowed].
    + destruct bs' as [|b' bs']; [done|by destruct b'].
    + destruct bs' as [|b' bs']; cbn [pd.select].
      * rewrite <- IH. by destruct (pd.select bs l).
      * rewrite <- IH. done.
  - destruct l as [|a l]; cbn [pd.select narrowed]; [by destruct bs'|].
    apply IH.
Qed.

Lemma narrowed_length bs bs' : length (narrowed bs bs') = length bs.
Proof.
  revert bs'. induction bs as [|[] bs IH]; intros bs'; [done|..].
  - destruct bs'; cbn [narrowed length]; by rewrite IH.
  - cbn [narrowed length]. by rewrite IH.
Qed.

Lemma select_all bs l :
  Forall (λ b, b = true) bs → length bs = length l → pd.select bs l = l.
Proof.
  intros Hall. revert l. induction Hall as [|b bs -> _ IH]; intros [|a l]; try done.
  cbn [length pd.select]. intros [= H]. by rewrite IH.
Qed.

Lemma select_none bs l : Forall (λ b, b = false) bs → pd.select bs l = [].
Proof.
  intros Hall. revert l. induction Hall as [|b bs -> _ IH]; intros [|a l]; try done.
  cbn [pd.select]. apply IH.
Qed.

Lemma select_length bs l :
  length bs = length l →
  length (pd.select bs l) = length (filter (λ b, b = true) bs).
Proof.
  revert l. induction bs as [|b bs IH]; intros [|a l]; try done.
  cbn [length pd.select]. intros [= H]. rewrite filter_cons.
  destruct b; [rewrite decide_True by done|rewrite decide_False by done];
    cbn [length]; by rewrite IH.
Qed.

Lemma select_sublist bs l : pd.select bs l `sublist_of` l.
Proof.
  revert l. induction bs as [|b bs IH]; intros [|a l]; cbn [pd.select];
    try apply sublist_nil_l.
  destruct b; [by apply sublist_skip|by apply sublist_cons].
Qed.

Lemma select_fmap_filter (p : A → bool) l :
  pd.select (p <$> l) l = filter (λ a, p a = true) l.
Proof.
  induction l as [|a l IH]; [done|].
  csimpl. rewrite filter_cons. destruct (p a) eqn:E.
  - rewrite decide_True by done. by rewrite IH.
  - rewrite decide_False by done. done.
Qed.

Lemma narrowed_fmap (p q : A → bool) l :
  narrowed (p <$> l) (q <$> pd.select (p <$> l) l) = (λ a, p a && q a) <$> l.
Proof.
  induction l as [|a l IH]; [done|].
  csimpl. destruct (p a); csimpl; by rewrite IH.
Qed.
End select_facts.

(** The labels a selection keeps, and the cell under each. *)
Lemma select_seq_lookup {A} (bs : list bool) (l : list A) s i label :
  pd.select bs (seq s (length l)) !! i = Some label →
  (s ≤ label)%nat ∧ pd.select bs l !! i = l !! (label - s)%nat.
Proof.
  revert l s i. induction bs as [|b bs IH]; intros [|a l] s i; try done.
  cbn [length seq pd.select]. destruct b.
  - destruct i as [|i]; cbn [lookup list_lookup].
    + intros [= <-]. split; [lia|]. by rewrite Nat.sub_diag.
    + intros H. apply IH in H as [Hle H]. split; [lia|].
      replace (label - s)%nat with (S (label - S s)) by lia. exact H.
  - intros H. apply IH in H as [Hle H]. split; [lia|].
    replace (label - s)%nat with (S (label - S s)) by lia. exact H.
Qed.

(** ** Frames of rows *)

Lemma rectangular_lookup df c v :
  rectangular df → pd.lookup_column c (pd.columns df) = Some v →
  length v = length (pd.index df).
Proof.
  intros Hr Hc%lookup_column_Some. unfold rectangular in Hr.
  rewrite Forall_forall in Hr. exact (Hr _ Hc).
Qed.

Lemma rows_rows bs bs' df : rows bs' (rows bs df) = rows (narrowed bs bs') df.
Proof.
  unfold rows. cbn [pd.index pd.columns]. f_equal; [apply select_select|].
  rewrite <- list_fmap_compose. apply list_fmap_ext.
  intros _ [c v] _. cbn. by rewrite select_select.
Qed.

Lemma rows_all bs df :
  rectangular df → Forall (λ b, b = true) bs → length bs = length (pd.index df) →
  rows bs df = df.
Proof.
  intros Hr Hall Hlen. destruct df as [idx cols]. unfold rows, rectangular in *.
  cbn [pd.index pd.columns] in *. f_equal; [by apply select_all|].
  induction Hr as [|[c v] cols Hv _ IH]; [done|].
  csimpl. rewrite IH. f_equal. f_equal. apply select_all; [done|].
  cbn in Hv. congruence.
Qed.

Lemma rows_names bs df : pd.column_names (rows bs df) = pd.column_names df.
Proof.
  unfold pd.column_names, rows. cbn [pd.columns].
  rewrite <- list_fmap_compose. by apply list_fmap_ext.
Qed.

Lemma rows_rectangular bs df : rectangular df → rectangular (rows bs df).
Proof.
  unfold rectangular, rows. cbn [pd.index pd.columns]. intros Hr.
  rewrite Forall_fmap. eapply Forall_impl; [exact Hr|].
  intros [c v] Hv. cbn in *. by apply select_length_eq.
Qed.

Lemma select_repeat_false {A} n (l : list A) : pd.select (repeat false n) l = [].
Proof. revert l. induction n as [|n IH]; intros [|a l]; simpl; auto. Qed.

(** The rows no mask keeps are the rows the empty list of labels names. *)
Lemma rows_nil_repeat n df : rows [] df = rows (repeat false n) df.
Proof.
  unfold rows. rewrite select_repeat_false. f_equal.
  apply list_fmap_ext. intros i [c v] _. cbn. by rewrite select_repeat_false.
Qed.

Lemma loc_rows filter df v :
  pd.loc filter df = inr v →
  ∃ bs, length bs = length (pd.index df) ∧ v = rows bs df.
Proof.
  intros (bs & Hbs & ->)%loc_inr_inv.
  destruct filter as [bs'|bs'|s]; cbn [pd.check_bool_indexer] in Hbs.
  - destruct bs' as [|b bs'].
    + injection Hbs as <-. exists (repeat false (length (pd.index df))).
      split; [by rewrite repeat_length|]. apply (rows_nil_repeat _ df).
    + case_decide; [|done]. injection Hbs as <-. by exists (b :: bs').
  - case_decide; [|done]. injection Hbs as <-. by exists bs'.
  - exists bs. split; [|done]. by apply mapM_length in Hbs.
Qed.

Lemma repeat_all_true n : Forall (λ b, b = true) (repeat true n).
Proof. induction n; by constructor. Qed.

(** ** What every reachable world satisfies, in full *)

Lemma transformed_rectangular recs date_time strs lat lon :
  length date_time = length recs → length strs = length recs →
  length lat = length recs → length lon = length recs →
  rectangular (transformed recs date_time strs lat lon).
Proof.
  intros H1 H2 H3 H4. unfold rectangular, transformed. cbn [pd.index pd.columns].
  rewrite length_seq.
  repeat (constructor; [cbn [snd]; first
    [ done | by rewrite dt_field_length | apply raw_column_length
    | unfold pd.to_pydatetime; by rewrite length_fmap ]|]).
  constructor.
Qed.

Lemma construct_consistent filepath h w :
  construct filepath h = inr w →
  data (self w) = _originaldata (self w) ∧ consistent w.
Proof.
  intros (o & h' & Hinit & ->)%construct_inr_inv.
  apply init_inr_inv in Hinit
    as (doc & recs & date_time & strs & lat & lon & -> & _ & _ & _ & _ & Hts & _
        & Hdt & _ & Hstrs & Hlat & Hlon & -> & ->).
  split; [done|].
  set (df0 := transformed recs date_time strs lat lon).
  assert (rectangular df0) as Hrect.
  { apply transformed_rectangular; try done.
    - apply mapM_length in Hlat. by rewrite Hlat, raw_column_length.
    - apply mapM_length in Hlon. by rewrite Hlon, raw_column_length. }
  exists df0, (repeat true (length (pd.index df0))).
  unfold view, original. cbn [self mem data _originaldata].
  rewrite lookup_second.
  rewrite (rows_all _ df0 Hrect (repeat_all_true _)) by apply repeat_length.
  split_and!; try done.
  - apply repeat_length.
  - cbn [df0 transformed pd.index]. by rewrite length_seq.
  - apply elem_of_labels_of in Hts as (r & Hr & _).
    cbn [df0 transformed pd.index]. destruct recs; [by apply elem_of_nil in Hr|done].
Qed.

Lemma Filter_consistent filter w : consistent w → consistent (Filter filter w).2.
Proof.
  intros (df0 & bs & Ho & Hv & Hlen & Hn & Hrect & Hidx & Hne).
  rewrite (Filter_run _ _ _ Hv).
  destruct (pd.loc filter (rows bs df0)) as [e|v] eqn:Hloc; cbn [snd].
  - exists df0, bs. done.
  - apply loc_rows in Hloc as (bs' & _ & ->).
    exists df0, (narrowed bs bs'). split_and!; try done.
    + unfold original, filtered. cbn [self mem _originaldata set_data].
      by apply lookup_app_l_Some.
    + unfold view, filtered. cbn [self mem data set_data].
      rewrite lookup_alloc. by rewrite rows_rows.
    + by rewrite narrowed_length.
Qed.

Lemma ClearFilter_consistent w : consistent w → consistent (ClearFilter w).2.
Proof.
  intros (df0 & bs & Ho & Hv & Hlen & Hn & Hrect & Hidx & Hne).
  rewrite ClearFilter_run. cbn [snd].
  exists df0, (repeat true (length (pd.index df0))).
  unfold view, original in *. cbn [self mem data _originaldata set_data].
  rewrite (rows_all _ df0 Hrect (repeat_all_true _)) by apply repeat_length.
  split_and!; try done. apply repeat_length.
Qed.

Lemma reachable_consistent w : reachable w → consistent w.
Proof.
  induction 1 as [filepath h w Hc|filter w Hr IH|w Hr IH
                  |plotly token mode markersize markercolour opacity height width style
                     renderer kwargs w Hr IH].
  - by destruct (construct_consistent _ _ _ Hc).
  - by apply Filter_consistent.
  - by apply ClearFilter_consistent.
  - destruct (PlotMap_keeps plotly token mode markersize markercolour opacity
                height width style renderer kwargs w (reachable_sound w Hr))
      as (Hm & Hd & Ho).
    destruct IH as (df0 & bs & Ho0 & Hv & Hlen & Hn & Hrect & Hidx & Hne).
    exists df0, bs. unfold view, original in *. rewrite Hm, Hd, Ho.
    split_and!; done.
Qed.

Lemma calls_reachable w w' : reachable w → calls w w' → reachable w'.
Proof.
  intros Hr.
  induction 1; [done|apply reach_Filter|apply reach_ClearFilter|apply reach_PlotMap];
    auto.
Qed.

(** ** The view of an instance *)

(** X1. The view of an instance always has the eleven columns, in the
    order in which the constructor made them, each with one cell per row;
    any other column name is a KeyError. No label occurs twice in its
    index. *)
Theorem view_has_the_eleven_columns (w : world) :
  reachable w →
  ∃ df, view w = Some df ∧
    pd.column_names df = schema ∧
    NoDup (pd.index df) ∧
    (∀ c, c ∈ schema →
       ∃ v, pd.getitem c df = inr v ∧ length v = length (pd.index df)) ∧
    (∀ c, c ∉ schema → pd.getitem c df = inl (py.KeyError c)).
Proof.
  intros (df0 & bs & Ho & Hv & Hlen & Hn & Hrect & Hidx & Hne)%reachable_consistent.
  exists (rows bs df0). split; [done|].
  assert (pd.column_names (rows bs df0) = schema) as Hnames
    by (by rewrite rows_names).
  split; [done|]. split_and!.
  - cbn [rows pd.index]. eapply sublist_NoDup; [|apply select_sublist].
    rewrite Hidx. apply NoDup_seq.
  - intros c Hc. unfold pd.getitem.
    destruct (pd.lookup_column c (pd.columns (rows bs df0))) as [v|] eqn:E.
    + exists v. split; [done|].
      eapply rectangular_lookup; [by apply rows_rectangular|done].
    + apply lookup_column_None in E. unfold pd.column_names in Hnames.
      by rewrite Hnames in E.
  - intros c Hc. unfold pd.getitem.
    destruct (pd.lookup_column c (pd.columns (rows bs df0))) as [v|] eqn:E; [|done].
    apply lookup_column_Some in E. destruct Hc.
    rewrite <- Hnames. apply list_elem_of_fmap. by exists (c, v).
Qed.

Lemma view_has_the_eleven_columns_witness :
  reachable sample_filtered ∧
  ∃ df, view sample_filtered = Some df ∧ pd.column_names df = schema ∧
    pd.index df = [0%nat; 3%nat].
Proof.
  assert (reachable sample_filtered) as Hr.
  { change sample_filtered with
      (Filter (pd.MaskSeries (<[0%nat := true]> (<[2%nat := false]> (<[3%nat := true]> ∅))))
         (Filter (pd.MaskArray [true; false; true; true; false]) sample_world).2).2.
    apply reach_Filter, reach_Filter, reachable_sample_world. }
  split; [exact Hr|].
  destruct (view_has_the_eleven_columns sample_filtered Hr) as (df & Hv & Hn & _).
  exists df. split; [exact Hv|]. split; [exact Hn|].
  vm_compute in Hv. injection Hv as <-. reflexivity.
Defined.

(** X2. The view is always a selection of rows of the original: the labels
    of its rows are labels of the original, in the same order, and the
    cell of every column in a row of the view is the cell of the original
    at the row's label. The original has the labels 0 .. n-1, its rows in
    the order of the file, and at least one row. *)
Theorem view_is_rows_of_original (w : world) :
  reachable w →
  ∃ df0 df,
    original w = Some df0 ∧ view w = Some df ∧
    pd.index df0 = seq 0 (length (pd.index df0)) ∧ pd.index df0 ≠ [] ∧
    pd.index df `sublist_of` pd.index df0 ∧
    ∀ i label, pd.index df !! i = Some label →
      (label < length (pd.index df0))%nat ∧
      ∀ c, cell_at df c i = cell_at df0 c label.
Proof.
  intros (df0 & bs & Ho & Hv & Hlen & Hn & Hrect & Hidx & Hne)%reachable_consistent.
  exists df0, (rows bs df0). split_and!; try done.
  - apply select_sublist.
  - intros i label Hi. cbn [rows pd.index] in Hi. split.
    + assert (label ∈ pd.index df0) as Hl.
      { eapply elem_of_sublist; [|apply select_sublist].
        by eapply list_elem_of_lookup_2. }
      rewrite Hidx in Hl. apply elem_of_seq in Hl. lia.
    + intros c. unfold cell_at. cbn [rows pd.columns].
      rewrite lookup_select_columns.
      destruct (pd.lookup_column c (pd.columns df0)) as [v|] eqn:E; [|done].
      cbn [fmap option_fmap option_map mbind option_bind].
      pose proof (rectangular_lookup _ _ _ Hrect E) as Hlv.
      rewrite Hidx, <- Hlv in Hi.
      apply select_seq_lookup in Hi as [_ ->]. by rewrite Nat.sub_0_r.
Qed.

Lemma view_is_rows_of_original_witness :
  reachable sample_narrowed ∧
  ∃ df0 df,
    original sample_narrowed = Some df0 ∧ view sample_narrowed = Some df ∧
    pd.index df = [0%nat; 2%nat; 3%nat] ∧
    cell_at df "latitudeE7" 1 = cell_at df0 "latitudeE7" 2.
Proof.
  assert (reachable sample_narrowed) as Hr.
  { change sample_narrowed
      with (Filter (pd.MaskArray [true; false; true; true; false]) sample_world).2.
    apply reach_Filter, reachable_sample_world. }
  split; [exact Hr|].
  destruct (view_is_rows_of_original sample_narrowed Hr)
    as (df0 & df & Ho & Hv & _ & _ & _ & Hcells).
  exists df0, df. split; [exact Ho|]. split; [exact Hv|].
  vm_compute in Hv. injection Hv as <-. split; [reflexivity|].
  exact (proj2 (Hcells 1%nat 2%nat eq_refl) "latitudeE7"%string).
Defined.

(** ** Runs of calls *)

(** X3. No run of calls of [Filter], [ClearFilter] and [PlotMap], returning
    or raising, rebinds or changes the original, and none changes or
    removes a frame of the store: the store only grows. So [ClearFilter]
    brings back the frame of the construction after any such run. *)
Theorem methods_keep_original (w w' : world) :
  reachable w → calls w w' →
  _originaldata (self w') = _originaldata (self w) ∧
  original w' = original w ∧
  mem w `prefix_of` mem w' ∧
  view (ClearFilter w').2 = original w.
Proof.
  intros Hr Hc.
  enough (_originaldata (self w') = _originaldata (self w) ∧
          original w' = original w ∧ mem w `prefix_of` mem w') as (H1 & H2 & H3).
  { split_and!; done. }
  induction Hc as [w|filter w w' Hc IH|w w' Hc IH
                   |plotly token mode markersize markercolour opacity height width style
                      renderer kwargs w w' Hc IH].
  - done.
  - destruct (IH Hr) as (H1 & H2 & H3).
    destruct (reachable_sound w' (calls_reachable _ _ Hr Hc)) as [(df & Hv & _) (df0 & Ho & _)].
    destruct (Filter_original filter w' df0 Ho) as [Ho' Hd'].
    split_and!; [congruence|congruence|].
    rewrite (Filter_run _ _ _ Hv). destruct (pd.loc filter df); cbn [snd]; [done|].
    unfold filtered. cbn [mem]. by apply prefix_app_r.
  - destruct (IH Hr) as (H1 & H2 & H3). rewrite ClearFilter_run. cbn [snd].
    unfold original in *. cbn [self mem _originaldata set_data]. done.
  - destruct (IH Hr) as (H1 & H2 & H3).
    destruct (PlotMap_keeps plotly token mode markersize markercolour opacity height
                width style renderer kwargs w'
                (reachable_sound w' (calls_reachable _ _ Hr Hc)))
      as (Hm & Hd & Ho).
    unfold original in *. rewrite Hm, Ho. done.
Qed.

Lemma methods_keep_original_witness :
  reachable sample_world ∧
  calls sample_world
    (PlotMap_defaults sample_plotly "token"
       (Filter (pd.MaskArray [false; false; false; false; false]) sample_world).2).2 ∧
  view (ClearFilter
          (PlotMap_defaults sample_plotly "token"
             (Filter (pd.MaskArray [false; false; false; false; false])
                sample_world).2).2).2
  = Some sample_frame.
Proof.
  assert (calls sample_world
            (PlotMap_defaults sample_plotly "token"
               (Filter (pd.MaskArray [false; false; false; false; false])
                  sample_world).2).2) as Hc.
  { apply calls_PlotMap, calls_Filter, calls_none. }
  split; [exact reachable_sample_world|]. split; [exact Hc|].
  destruct (methods_keep_original _ _ reachable_sample_world Hc) as (_ & _ & _ & H).
  rewrite H. reflexivity.
Defined.

(** ** Filtering *)

Lemma Filter_array_run (w : world) (df : pd.DataFrame) (bs : list bool) :
  view w = Some df →
  Filter (pd.MaskArray bs) w
  = if decide (length bs = length (pd.index df))
    then (inr (), filtered (rows bs df) w) else (inl py.IndexError, w).
Proof.
  intros Hv. rewrite (Filter_run _ _ _ Hv).
  unfold pd.loc, pd.check_bool_indexer. by case_decide.
Qed.

Lemma view_filtered v w : view (filtered v w) = Some v.
Proof. unfold view, filtered. cbn [self mem data set_data]. apply lookup_alloc. Qed.

(** A Python list as mask: the empty one selects no row, any other is
    matched like an array. *)
Lemma Filter_list_run (w : world) (df : pd.DataFrame) (bs : list bool) :
  view w = Some df →
  Filter (pd.MaskList bs) w
  = if decide (bs = []) then (inr (), filtered (rows [] df) w)
    else if decide (length bs = length (pd.index df))
         then (inr (), filtered (rows bs df) w) else (inl py.IndexError, w).
Proof.
  intros Hv. rewrite (Filter_run _ _ _ Hv).
  unfold pd.loc, pd.check_bool_indexer. destruct bs as [|b bs]; [done|].
  rewrite (decide_False (P := b :: bs = [])) by done. by case_decide.
Qed.

Lemma Filter_list_fits (w : world) (df : pd.DataFrame) (bs : list bool) :
  view w = Some df → length bs = length (pd.index df) →
  Filter (pd.MaskList bs) w = Filter (pd.MaskArray bs) w.
Proof.
  intros Hv Hlen. rewrite (Filter_list_run _ _ _ Hv), (Filter_array_run _ _ _ Hv).
  rewrite (decide_True (P := length bs = length (pd.index df))) by done.
  by case_decide; subst.
Qed.

(** X4. On an instance, [Filter] with a list or array of booleans as long
    as the view returns: the new view has the rows marked true, as many as
    there are marks, under the columns of the old one, each column still
    as long as the index. A mask of trues only gives a view equal to the
    old one, a mask of falses only a view without rows. *)
Theorem Filter_array_keeps_marked_rows (w : world) (df : pd.DataFrame)
    (bs : list bool) :
  reachable w → view w = Some df → length bs = length (pd.index df) →
  ∃ w' v,
    Filter (pd.MaskArray bs) w = (inr (), w') ∧ view w' = Some v ∧
    pd.index v = pd.select bs (pd.index df) ∧
    pd.column_names v = pd.column_names df ∧
    length (pd.index v) = length (filter (λ b, b = true) bs) ∧
    (∀ c x, pd.getitem c df = inr x →
       pd.getitem c v = inr (pd.select bs x) ∧
       length (pd.select bs x) = length (pd.index v)) ∧
    (Forall (λ b, b = true) bs → v = df) ∧
    (Forall (λ b, b = false) bs → pd.index v = []) ∧
    Filter (pd.MaskList bs) w = (inr (), w').
Proof.
  intros Hr Hv Hlen.
  destruct (reachable_consistent w Hr)
    as (df0 & bs0 & Ho & Hv' & Hlen0 & Hn & Hrect0 & Hidx & Hne).
  assert (rectangular df) as Hrect.
  { rewrite Hv in Hv'. injection Hv' as ->. by apply rows_rectangular. }
  exists (filtered (rows bs df) w), (rows bs df).
  assert (Filter (pd.MaskArray bs) w = (inr (), filtered (rows bs df) w)) as Hrun.
  { rewrite (Filter_run _ _ _ Hv). unfold pd.loc, pd.check_bool_indexer.
    by rewrite decide_True. }
  split; [exact Hrun|].
  split.
  { unfold view, filtered. cbn [self mem data set_data]. apply lookup_alloc. }
  split; [done|]. split; [apply rows_names|]. split_and!; [..|by rewrite
    (Filter_list_fits w df bs Hv Hlen)].
  - cbn [rows pd.index]. by apply select_length.
  - intros c x Hx. unfold pd.getitem in *. cbn [rows pd.columns pd.index].
    rewrite lookup_select_columns.
    destruct (pd.lookup_column c (pd.columns df)) as [y|] eqn:E; [|done].
    injection Hx as ->. split; [done|].
    apply select_length_eq. by eapply rectangular_lookup.
  - intros Hall. by apply rows_all.
  - intros Hall. cbn [rows pd.index]. by apply select_none.
Qed.

Lemma Filter_array_keeps_marked_rows_witness :
  reachable sample_world ∧ view sample_world = Some sample_frame ∧
  ∃ w' v,
    Filter (pd.MaskArray [true; false; true; true; false]) sample_world = (inr (), w') ∧
    view w' = Some v ∧ pd.index v = [0%nat; 2%nat; 3%nat] ∧
    length (pd.index v) = 3%nat.
Proof.
  assert (view sample_world = Some sample_frame) as Hv by reflexivity.
  split; [exact reachable_sample_world|]. split; [exact Hv|].
  destruct (Filter_array_keeps_marked_rows sample_world sample_frame
              [true; false; true; true; false] reachable_sample_world Hv eq_refl)
    as (w' & v & Hrun & Hv' & Hidx & _ & Hlen & _).
  exists w', v. split; [exact Hrun|]. split; [exact Hv'|].
  split; [exact Hidx|exact Hlen].
Defined.

Lemma filter_both (s1 s2 : gmap nat bool) (idx : list nat) :
  pd.select ((λ i, default false (s1 !! i) && default false (s2 !! i)) <$> idx) idx
  = filter (λ i, s1 !! i = Some true ∧ s2 !! i = Some true) idx.
Proof.
  rewrite (select_fmap_filter
             (λ i, default false (s1 !! i) && default false (s2 !! i))).
  apply list_filter_iff. intros i.
  destruct (s1 !! i) as [[]|], (s2 !! i) as [[]|]; cbn; intuition congruence.
Qed.

(** X5. Two [Filter] calls with boolean Series that have every label of
    the view both return, in either order, and give the same view: the
    rows both Series mark true, in the order of the view. *)
Theorem Filter_series_commute (w : world) (df : pd.DataFrame)
    (s1 s2 : gmap nat bool) :
  view w = Some df →
  (∀ i, i ∈ pd.index df → is_Some (s1 !! i)) →
  (∀ i, i ∈ pd.index df → is_Some (s2 !! i)) →
  ∃ w12 w21 v,
    (Filter (pd.MaskSeries s1) ;; Filter (pd.MaskSeries s2)) w = (inr (), w12) ∧
    (Filter (pd.MaskSeries s2) ;; Filter (pd.MaskSeries s1)) w = (inr (), w21) ∧
    view w12 = Some v ∧ view w21 = Some v ∧
    pd.index v = filter (λ i, s1 !! i = Some true ∧ s2 !! i = Some true) (pd.index df) ∧
    pd.column_names v = pd.column_names df.
Proof.
  intros Hv H1 H2.
  set (p1 := λ i : nat, default false (s1 !! i)).
  set (p2 := λ i : nat, default false (s2 !! i)).
  assert (∀ (s s' : gmap nat bool),
            (∀ i, i ∈ pd.index df → is_Some (s !! i)) →
            (∀ i, i ∈ pd.index df → is_Some (s' !! i)) →
            ∃ w2, (Filter (pd.MaskSeries s) ;; Filter (pd.MaskSeries s')) w = (inr (), w2) ∧
              view w2 = Some (rows ((λ i, default false (s !! i) && default false (s' !! i))
                                      <$> pd.index df) df)) as Hrun.
  { intros s s' Hs Hs'.
    set (v1 := rows ((λ i, default false (s !! i)) <$> pd.index df) df).
    assert (Filter (pd.MaskSeries s) w = (inr (), filtered v1 w)) as E1.
    { rewrite (Filter_run _ _ _ Hv). unfold pd.loc.
      by rewrite (check_series_inr s _ Hs). }
    assert (view (filtered v1 w) = Some v1) as Hv1.
    { unfold view, filtered. cbn [self mem data set_data]. apply lookup_alloc. }
    rewrite (bind_run_inr _ _ _ _ _ E1).
    rewrite (Filter_run _ _ _ Hv1). unfold pd.loc.
    rewrite (check_series_inr s').
    2:{ intros i Hi. apply Hs'. cbn [v1 rows pd.index] in Hi.
        eapply elem_of_sublist; [exact Hi|apply select_sublist]. }
    eexists. split; [reflexivity|].
    unfold view, filtered. cbn [self mem data set_data].
    rewrite length_app. cbn [length]. rewrite Nat.add_1_r.
    rewrite lookup_app_r by (rewrite length_app; cbn [length]; lia).
    rewrite length_app. cbn [length].
    replace (S (length (mem w)) - (length (mem w) + 1))%nat with 0%nat by lia.
    cbn [lookup list_lookup]. f_equal.
    change (rows ((λ i, default false (s' !! i)) <$> pd.index v1) v1
            = rows ((λ i, default false (s !! i) && default false (s' !! i))
                      <$> pd.index df) df).
    unfold v1 at 2. rewrite rows_rows. f_equal.
    cbn [v1 rows pd.index].
    apply (narrowed_fmap (λ i, default false (s !! i)) (λ i, default false (s' !! i))). }
  destruct (Hrun s1 s2 H1 H2) as (w12 & E12 & V12).
  destruct (Hrun s2 s1 H2 H1) as (w21 & E21 & V21).
  exists w12, w21. eexists. split; [exact E12|]. split; [exact E21|].
  split; [exact V12|]. split.
  - rewrite V21. do 2 f_equal. apply list_fmap_ext. intros _ i _. apply andb_comm.
  - split; [apply filter_both|apply rows_names].
Qed.

Lemma Filter_series_commute_witness :
  view sample_world = Some sample_frame ∧
  ∃ w12 w21 v,
    (Filter (pd.MaskSeries long_series) ;;
     Filter (pd.MaskSeries (<[4%nat := false]> long_series))) sample_world
    = (inr (), w12) ∧
    (Filter (pd.MaskSeries (<[4%nat := false]> long_series)) ;;
     Filter (pd.MaskSeries long_series)) sample_world
    = (inr (), w21) ∧
    view w12 = Some v ∧ view w21 = Some v ∧ pd.index v = [0%nat; 1%nat; 3%nat].
Proof.
  assert (view sample_world = Some sample_frame) as Hv by reflexivity.
  split; [exact Hv|].
  assert (∀ s : gmap nat bool,
            (s !! 0%nat, s !! 1%nat, s !! 2%nat, s !! 3%nat, s !! 4%nat)
            = (Some true, Some true, Some false, Some true, s !! 4%nat) →
            is_Some (s !! 4%nat) →
            ∀ i, i ∈ pd.index sample_frame → is_Some (s !! i)) as Hall.
  { intros s [= E0 E1 E2 E3] E4 i.
    change (pd.index sample_frame) with [0%nat; 1%nat; 2%nat; 3%nat; 4%nat].
    rewrite !elem_of_cons.
    intros [->|[->|[->|[->|[->|Hi]]]]]; [..|by apply elem_of_nil in Hi];
      by eauto. }
  destruct (Filter_series_commute sample_world sample_frame long_series
              (<[4%nat := false]> long_series) Hv)
    as (w12 & w21 & v & E12 & E21 & V12 & V21 & Hidx & _).
  { apply Hall; [reflexivity|by eexists]. }
  { apply Hall; [reflexivity|by eexists]. }
  exists w12, w21, v. split; [exact E12|]. split; [exact E21|].
  split; [exact V12|]. split; [exact V21|].
  rewrite Hidx. reflexivity.
Defined.

(** ** The trace and the figure *)

(** X6. On an instance, also on a view without rows, [_SetScatterData]
    makes a trace with one point per row of the view: the coordinates from
    the two coordinate columns and the display string as text, with the
    mode and the marker it was given. When plotly accepts this trace the
    call returns and stores it, setting nothing but [scatterdata]; when
    plotly rejects it the call raises ValueError and sets nothing. *)
Theorem SetScatterData_returns (plotly : go.Plotly) (w : world) (df : pd.DataFrame)
    (mode : string) (markersize : Z) (markercolour : string) (opacity : float) :
  reachable w → view w = Some df →
  ∃ lats lons texts t,
    pd.getitem "latitudeE7" df = inr lats ∧
    pd.getitem "longitudeE7" df = inr lons ∧
    pd.getitem "timestamp_string" df = inr texts ∧
    t = {| go.lat := lats; go.lon := lons; go.mode := mode; go.text := texts;
           go.marker := {| go.size := markersize; go.color := markercolour;
                           go.opacity := opacity |} |} ∧
    length lats = length (pd.index df) ∧
    length lons = length (pd.index df) ∧
    length texts = length (pd.index df) ∧
    (go.accepts_trace plotly t = true →
     ∃ w',
       _SetScatterData plotly mode markersize markercolour opacity w = (inr (), w') ∧
       scatterdata (self w') = Some t ∧
       mem w' = mem w ∧ data (self w') = data (self w) ∧
       _originaldata (self w') = _originaldata (self w) ∧
       fig (self w') = fig (self w) ∧ layout (self w') = layout (self w)) ∧
    (go.accepts_trace plotly t = false →
     _SetScatterData plotly mode markersize markercolour opacity w
     = (inl py.ValueError, w)).
Proof.
  intros Hr Hv.
  destruct (reachable_sound w Hr) as [(df' & Hv' & Hp) _].
  rewrite Hv in Hv'. injection Hv' as <-.
  destruct Hp as (lats & lons & texts & H1 & H2 & H3 & L1 & L2 & L3).
  exists lats, lons, texts,
    (scatter_of mode markersize markercolour opacity lats lons texts).
  pose proof (SetScatterData_run plotly mode markersize markercolour opacity
                w df lats lons texts Hv H1 H2 H3) as Hrun.
  cbv zeta in Hrun.
  unfold pd.getitem. rewrite H1, H2, H3. split_and!; try done.
  - intros Ha. rewrite Ha in Hrun. eexists. split; [exact Hrun|]. by split_and!.
  - intros Ha. by rewrite Ha in Hrun.
Qed.

Lemma SetScatterData_returns_witness :
  reachable sample_emptied ∧ view sample_emptied = Some sample_emptied_frame ∧
  (∃ w',
     _SetScatterData sample_plotly "markers" 10 "rgb(255,0,0)" (py.float_of_Z 1)
       sample_emptied
     = (inr (), w') ∧
     (go.lat <$> scatterdata (self w')) = Some []) ∧
  _SetScatterData sample_plotly "markers" 10 "rgb(255,0,0)" three_halves
    sample_emptied
  = (inl py.ValueError, sample_emptied).
Proof.
  assert (reachable sample_emptied) as Hr.
  { change sample_emptied
      with (Filter (pd.MaskArray [false; false; false; false; false]) sample_world).2.
    apply reach_Filter, reachable_sample_world. }
  assert (view sample_emptied = Some sample_emptied_frame) as Hv by reflexivity.
  split; [exact Hr|]. split; [exact Hv|]. split.
  - destruct (SetScatterData_returns sample_plotly sample_emptied
                sample_emptied_frame "markers" 10 "rgb(255,0,0)" (py.float_of_Z 1)
                Hr Hv)
      as (lats & lons & texts & t & Hlat & Hlon & Htext & -> & _ & _ & _ & Hyes & _).
    vm_compute in Hlat, Hlon, Htext.
    injection Hlat as <-. injection Hlon as <-. injection Htext as <-.
    destruct Hyes as (w' & Hrun & Hs & _); [vm_compute; reflexivity|].
    exists w'. split; [exact Hrun|]. by rewrite Hs.
  - destruct (SetScatterData_returns sample_plotly sample_emptied
                sample_emptied_frame "markers" 10 "rgb(255,0,0)" three_halves
                Hr Hv)
      as (lats & lons & texts & t & Hlat & Hlon & Htext & -> & _ & _ & _ & _ & Hno).
    vm_compute in Hlat, Hlon, Htext.
    injection Hlat as <-. injection Hlon as <-. injection Htext as <-.
    apply Hno. vm_compute. reflexivity.
Defined.

(** X7. On an instance whose view has rows, [PlotMap] makes one trace, the
    one [_SetScatterData] stores: a point per row of the view, with the
    display strings as text; and one layout, with the size, the style and
    the token of the call, and always bearing 0, pitch 0, zoom 7, hover mode
    [closest] and autosize on. When plotly accepts the trace and the layout
    and shows the figure, the call returns the figure of exactly this trace
    and this layout and stores it; that is so whenever plotly accepts the
    arguments. When plotly rejects the trace the call raises ValueError and
    sets nothing; when it rejects the layout the call raises ValueError with
    the trace stored; when showing raises, the call raises the same
    exception and [fig] is not set. *)
Theorem PlotMap_figure (plotly : go.Plotly) (w : world) (df : pd.DataFrame)
    (token mode : string) (markersize : Z) (markercolour : string)
    (opacity : float) (height width : Z) (style : string)
    (renderer : option string) (kwargs : go.keywords) :
  reachable w → view w = Some df → pd.index df ≠ [] →
  ∃ lats lons texts t l,
    pd.getitem "latitudeE7" df = inr lats ∧
    pd.getitem "longitudeE7" df = inr lons ∧
    pd.getitem "timestamp_string" df = inr texts ∧
    t = {| go.lat := lats; go.lon := lons; go.mode := mode; go.text := texts;
           go.marker := {| go.size := markersize; go.color := markercolour;
                           go.opacity := opacity |} |} ∧
    length (go.lat t) = length (pd.index df) ∧
    length (go.lon t) = length (pd.index df) ∧
    length (go.text t) = length (pd.index df) ∧
    go.autosize l = true ∧ go.height l = height ∧ go.width l = width ∧
    go.hovermode l = "closest"%string ∧
    go.accesstoken (go.mapbox l) = Some token ∧ go.style (go.mapbox l) = style ∧
    go.bearing (go.mapbox l) = 0 ∧ go.pitch (go.mapbox l) = 0 ∧
    go.zoom (go.mapbox l) = 7 ∧
    (go.accepts_trace plotly t = true → go.accepts_layout plotly l = true →
     go.show plotly (figure_of t l) renderer kwargs = inr () →
     ∃ figure w',
       PlotMap plotly token mode markersize markercolour opacity height width style
         renderer kwargs w
       = (inr figure, w') ∧
       go.traces figure = [t] ∧ go.figure_layout figure = Some l ∧
       scatterdata (self w') = Some t ∧ layout (self w') = Some l ∧
       fig (self w') = Some figure) ∧
    (accepted plotly token mode markersize markercolour opacity height width style
       renderer kwargs →
     go.accepts_trace plotly t = true ∧ go.accepts_layout plotly l = true ∧
     go.show plotly (figure_of t l) renderer kwargs = inr ()) ∧
    (go.accepts_trace plotly t = false →
     PlotMap plotly token mode markersize markercolour opacity height width style
       renderer kwargs w
     = (inl py.ValueError, w)) ∧
    (go.accepts_trace plotly t = true → go.accepts_layout plotly l = false →
     PlotMap plotly token mode markersize markercolour opacity height width style
       renderer kwargs w
     = (inl py.ValueError, with_self (set_scatterdata t) w)) ∧
    (∀ e, go.accepts_trace plotly t = true → go.accepts_layout plotly l = true →
     go.show plotly (figure_of t l) renderer kwargs = inl e →
     ∃ w',
       PlotMap plotly token mode markersize markercolour opacity height width style
         renderer kwargs w
       = (inl e, w') ∧
       fig (self w') = fig (self w) ∧
       scatterdata (self w') = Some t ∧ layout (self w') = Some l).
Proof.
  intros Hr Hv Hne.
  destruct (reachable_sound w Hr) as [(df' & Hv' & Hp) _].
  rewrite Hv in Hv'. injection Hv' as <-.
  destruct Hp as (lats & lons & texts & H1 & H2 & H3 & L1 & L2 & L3).
  assert (lats ≠ []) as Hlats by (intros ->; destruct (pd.index df); done).
  assert (lons ≠ []) as Hlons by (intros ->; destruct (pd.index df); done).
  destruct (mid_lookup_is_Some lats Hlats) as [clat Hclat].
  destruct (mid_lookup_is_Some lons Hlons) as [clon Hclon].
  exists lats, lons, texts,
    (scatter_of mode markersize markercolour opacity lats lons texts),
    (layout_of height width style (Some token) clat clon).
  pose proof (PlotMap_run plotly token mode markersize markercolour opacity height
                width style renderer kwargs w df lats lons texts Hv H1 H2 H3) as Hrun.
  cbv zeta in Hrun. rewrite Hclat, Hclon in Hrun.
  unfold pd.getitem. rewrite H1, H2, H3. split_and!; try done.
  - intros Ht Hl Hs. rewrite Ht, Hl, Hs in Hrun. do 2 eexists.
    split; [exact Hrun|]. by split_and!.
  - intros (Ht & Hl & Hs). split_and!; [apply Ht|apply Hl|apply Hs].
  - intros Ht. by rewrite Ht in Hrun.
  - intros Ht Hl. by rewrite Ht, Hl in Hrun.
  - intros e Ht Hl Hs. rewrite Ht, Hl, Hs in Hrun. eexists.
    split; [exact Hrun|]. by split_and!.
Qed.

Lemma PlotMap_figure_witness :
  reachable sample_narrowed ∧ view sample_narrowed = Some sample_narrowed_frame ∧
  ∃ figure w' t,
    PlotMap_defaults sample_plotly "token" sample_narrowed = (inr figure, w') ∧
    go.traces figure = [t] ∧
    go.text t = [pd.CStr "1/1/2021 0:0"; pd.CStr "3/31/2021 23:59";
                 pd.CStr "2/29/2024 12:0"].
Proof.
  assert (reachable sample_narrowed) as Hr.
  { change sample_narrowed
      with (Filter (pd.MaskArray [true; false; true; true; false]) sample_world).2.
    apply reach_Filter, reachable_sample_world. }
  assert (view sample_narrowed = Some sample_narrowed_frame) as Hv by reflexivity.
  assert (pd.index sample_narrowed_frame ≠ []) as Hne by (vm_compute; discriminate).
  split; [exact Hr|]. split; [exact Hv|].
  destruct (PlotMap_figure sample_plotly sample_narrowed sample_narrowed_frame "token"
              "markers" 10 "rgb(255,0,0)"
              (PrimFloat.div (py.float_of_Z 3) (py.float_of_Z 10)) 800 1200
              "outdoors" None [] Hr Hv Hne)
    as (lats & lons & texts & t & l & _ & _ & Htexts & -> & _ & _ & _ & _ & _ & _ & _
        & _ & _ & _ & _ & _ & Hyes & Hacc & _).
  destruct (Hacc sample_plotly_accepts_defaults) as (Ht & Hl & Hs).
  destruct (Hyes Ht Hl Hs) as (figure & w' & Hrun & Htr & _).
  exists figure, w'. eexists. split; [exact Hrun|]. split; [exact Htr|].
  cbn [go.text]. vm_compute in Htexts. injection Htexts as <-. reflexivity.
Defined.

(** X8. Plotting reads and never writes the data: after [PlotMap], returned
    or raised, the store, the view and the original are what they were. A
    second call with the same arguments does what the first did over
    again: the same result and the same world, the figure made anew with
    its one trace. *)
Theorem PlotMap_again (plotly : go.Plotly) (w : world)
    (token mode : string) (markersize : Z) (markercolour : string)
    (opacity : float) (height width : Z) (style : string)
    (renderer : option string) (kwargs : go.keywords) :
  reachable w →
  PlotMap plotly token mode markersize markercolour opacity height width style
    renderer kwargs
    (PlotMap plotly token mode markersize markercolour opacity height width style
       renderer kwargs w).2
  = PlotMap plotly token mode markersize markercolour opacity height width style
      renderer kwargs w ∧
  mem (PlotMap plotly token mode markersize markercolour opacity height width style
         renderer kwargs w).2
  = mem w ∧
  view (PlotMap plotly token mode markersize markercolour opacity height width style
          renderer kwargs w).2
  = view w ∧
  original (PlotMap plotly token mode markersize markercolour opacity height width
              style renderer kwargs w).2
  = original w.
Proof.
  intros Hr.
  destruct (reachable_sound w Hr) as [(df & Hv & Hp) _].
  destruct Hp as (lats & lons & texts & H1 & H2 & H3 & _).
  rewrite (PlotMap_run plotly token mode markersize markercolour opacity height width
             style renderer kwargs w df lats lons texts Hv H1 H2 H3).
  cbv zeta.
  destruct (go.accepts_trace plotly _) eqn:Ht.
  2:{ cbn [snd]. split; [|done].
      rewrite (PlotMap_run plotly token mode markersize markercolour opacity height
                 width style renderer kwargs w df lats lons texts Hv H1 H2 H3).
      cbv zeta. by rewrite Ht. }
  destruct (lats !! (length lats / 2)%nat) as [clat|] eqn:Hclat;
    [destruct (lons !! (length lons / 2)%nat) as [clon|] eqn:Hclon|].
  - destruct (go.accepts_layout plotly _) eqn:Hl;
      [destruct (go.show plotly _ renderer kwargs) as [e|[]] eqn:Hs|];
      cbn [snd]; (split; [|done]);
      (erewrite (PlotMap_run plotly token mode markersize markercolour opacity height
                   width style renderer kwargs _ df lats lons texts); [|done..]);
      cbv zeta; rewrite Ht, Hclat, Hclon, Hl, ?Hs; reflexivity.
  - cbn [snd]. split; [|done].
    erewrite (PlotMap_run plotly token mode markersize markercolour opacity height
                width style renderer kwargs _ df lats lons texts); [|done..].
    cbv zeta. rewrite Ht, Hclat, Hclon. reflexivity.
  - cbn [snd]. split; [|done].
    erewrite (PlotMap_run plotly token mode markersize markercolour opacity height
                width style renderer kwargs _ df lats lons texts); [|done..].
    cbv zeta. rewrite Ht, Hclat. reflexivity.
Qed.

Lemma PlotMap_again_witness :
  reachable sample_world ∧
  PlotMap_defaults sample_plotly "token"
    (PlotMap_defaults sample_plotly "token" sample_world).2
  = PlotMap_defaults sample_plotly "token" sample_world ∧
  (length <$> (go.traces <$> fig (self (PlotMap_defaults sample_plotly "token"
     (PlotMap_defaults sample_plotly "token" sample_world).2).2))) = Some 1%nat.
Proof.
  split; [exact reachable_sample_world|].
  destruct (PlotMap_again sample_plotly sample_world "token" "markers" 10
              "rgb(255,0,0)"
              (PrimFloat.div (py.float_of_Z 3) (py.float_of_Z 10)) 800 1200
              "outdoors" None [] reachable_sample_world) as (Hagain & _).
  split; [exact Hagain|].
  unfold PlotMap_defaults. rewrite Hagain. vm_compute. reflexivity.
Defined.

(** X9. An instance can always be plotted after [ClearFilter], with
    arguments plotly accepts: the original has rows, so the call returns a
    figure, of the original, whatever the view was before. *)
Theorem ClearFilter_then_PlotMap_returns (plotly : go.Plotly) (w : world)
    (token mode : string) (markersize : Z) (markercolour : string)
    (opacity : float) (height width : Z) (style : string)
    (renderer : option string) (kwargs : go.keywords) :
  reachable w →
  accepted plotly token mode markersize markercolour opacity height width style
    renderer kwargs →
  ∃ df0 lats figure w',
    original w = Some df0 ∧
    (ClearFilter ;;
     PlotMap plotly token mode markersize markercolour opacity height width style
       renderer kwargs) w
    = (inr figure, w') ∧
    view w' = Some df0 ∧ fig (self w') = Some figure ∧
    pd.getitem "latitudeE7" df0 = inr lats ∧
    (go.lat <$> go.traces figure) = [lats] ∧
    length lats = length (pd.index df0) ∧ pd.index df0 ≠ [].
Proof.
  intros Hr (Ht & Hl & Hs).
  destruct (reachable_consistent w Hr) as (df0 & bs & Ho & _ & _ & _ & _ & _ & Hne).
  destruct (reachable_sound w Hr) as [_ (df0' & Ho' & Hp)].
  rewrite Ho in Ho'. injection Ho' as <-.
  destruct Hp as (lats & lons & texts & H1 & H2 & H3 & L1 & L2 & L3).
  assert (lats ≠ []) as Hlats by (intros ->; destruct (pd.index df0); done).
  assert (lons ≠ []) as Hlons by (intros ->; destruct (pd.index df0); done).
  destruct (mid_lookup_is_Some lats Hlats) as [clat Hclat].
  destruct (mid_lookup_is_Some lons Hlons) as [clon Hclon].
  exists df0, lats.
  rewrite (bind_run_inr _ _ _ _ _ (ClearFilter_run w)).
  erewrite (PlotMap_run plotly token mode markersize markercolour opacity height
              width style renderer kwargs _ df0 lats lons texts); [|done..].
  cbv zeta. rewrite Ht, Hclat, Hclon, Hl, Hs. do 2 eexists.
  split; [done|]. split; [reflexivity|].
  unfold pd.getitem. rewrite H1. by split_and!.
Qed.

Lemma ClearFilter_then_PlotMap_returns_witness :
  reachable sample_emptied ∧
  (PlotMap_defaults sample_plotly "token" sample_emptied).1 = inl py.IndexError ∧
  ∃ figure w',
    (ClearFilter ;; PlotMap_defaults sample_plotly "token") sample_emptied
    = (inr figure, w') ∧
    view w' = Some sample_frame.
Proof.
  assert (reachable sample_emptied) as Hr.
  { change sample_emptied
      with (Filter (pd.MaskArray [false; false; false; false; false]) sample_world).2.
    apply reach_Filter, reachable_sample_world. }
  split; [exact Hr|]. split; [vm_compute; reflexivity|].
  destruct (ClearFilter_then_PlotMap_returns sample_plotly sample_emptied "token"
              "markers" 10 "rgb(255,0,0)"
              (PrimFloat.div (py.float_of_Z 3) (py.float_of_Z 10))
              800 1200 "outdoors" None [] Hr sample_plotly_accepts_defaults)
    as (df0 & lats & figure & w' & Ho & Hrun & Hv & _).
  exists figure, w'. split; [exact Hrun|]. rewrite Hv, <- Ho. reflexivity.
Defined.

(** * The transformers, run forwards *)

(** ** Running the store operations *)

Lemma bind_lift_inr {S A B} (r : py.exn + A) (k : A → M S B) (s : S) a :
  r = inr a → bind (lift r) k s = k a s.
Proof. by intros ->. Qed.

Lemma bind_lift_inl {S A B} (r : py.exn + A) (k : A → M S B) (s : S) e :
  r = inl e → bind (lift r) k s = (inl e, s).
Proof. by intros ->. Qed.

Lemma getitem_over_run r name (h : heap) df v :
  (r < length h)%nat → pd.lookup_column name (pd.columns df) = Some v →
  getitem r name (<[r := df]> h) = (inr v, <[r := df]> h).
Proof.
  intros Hlt Hc. rewrite (getitem_run r name _ df) by (by apply list_lookup_insert_eq).
  unfold pd.getitem. by rewrite Hc.
Qed.

Lemma getitem_over_missing r name (h : heap) df :
  (r < length h)%nat → pd.lookup_column name (pd.columns df) = None →
  getitem r name (<[r := df]> h) = (inl (py.KeyError name), <[r := df]> h).
Proof.
  intros Hlt Hc. rewrite (getitem_run r name _ df) by (by apply list_lookup_insert_eq).
  unfold pd.getitem. by rewrite Hc.
Qed.

Lemma setitem_over_run r name v (h : heap) df :
  (r < length h)%nat → length v = length (pd.index df) →
  setitem r name v (<[r := df]> h) = (inr (), <[r := assigned name v df]> h).
Proof.
  intros Hlt Hlen.
  rewrite (setitem_run r name v _ df) by (done || by apply list_lookup_insert_eq).
  by rewrite list_insert_insert_eq.
Qed.

Ltac run_lift E := rewrite (bind_lift_inr _ _ _ _ E); cbv beta.

Ltac find_column :=
  first [ apply lookup_assigned_eq
        | rewrite lookup_assigned_ne by discriminate; find_column
        | eassumption ].

Ltac run_getitem Hlt :=
  erewrite bind_run_inr; [|apply getitem_over_run; [exact Hlt|find_column]]; cbv beta.

Ltac run_setitem Hlt tac :=
  erewrite bind_run_inr;
    [|apply setitem_over_run; [exact Hlt|cbn [assigned pd.index]; tac]]; cbv beta.

(** ** The coordinate fix, step by step *)

Lemma assigned_rectangular name v df :
  rectangular df → length v = length (pd.index df) →
  rectangular (assigned name v df).
Proof.
  unfold rectangular, assigned. cbn [pd.index pd.columns]. intros Hr Hv.
  induction Hr as [|[c x] cols Hx Hcols IH]; cbn [pd.assign_column].
  - constructor; [exact Hv|constructor].
  - destruct (String.eqb c name); (constructor; [cbn in *|]; assumption).
Qed.

Lemma truediv_length v d v' :
  pd.series_truediv v d = inr v' → length v' = length v.
Proof. apply mapM_length. Qed.

(** What [_FixLatLong] does to a frame of the store, in every case. *)
Lemma FixLatLong_run r (h : heap) df :
  h !! r = Some df → rectangular df →
  _FixLatLong r h =
  match pd.lookup_column "latitudeE7" (pd.columns df) with
  | None => (inl (py.KeyError "latitudeE7"), h)
  | Some lat =>
      match pd.series_truediv lat 10000000 with
      | inl e => (inl e, h)
      | inr lat' =>
          match pd.lookup_column "longitudeE7" (pd.columns df) with
          | None => (inl (py.KeyError "longitudeE7"), <[r := half_fixed lat' df]> h)
          | Some lon =>
              match pd.series_truediv lon 10000000 with
              | inl e => (inl e, <[r := half_fixed lat' df]> h)
              | inr lon' =>
                  (inr r, <[r := assigned "longitudeE7" lon' (half_fixed lat' df)]> h)
              end
          end
      end
  end.
Proof.
  intros Hr Hrect.
  assert (r < length h)%nat as Hlt by (by eapply lookup_lt_Some).
  rewrite <- (list_insert_id h r df Hr) at 1.
  unfold _FixLatLong.
  destruct (pd.lookup_column "latitudeE7" (pd.columns df)) as [lat|] eqn:Hlat.
  2:{ rewrite (bind_run_inl _ _ _ _ _ (getitem_over_missing _ _ _ _ Hlt Hlat)).
      by rewrite (list_insert_id h r df Hr). }
  run_getitem Hlt.
  destruct (pd.series_truediv lat 10000000) as [e|lat'] eqn:Elat.
  { rewrite (bind_lift_inl _ _ _ _ eq_refl). by rewrite (list_insert_id h r df Hr). }
  run_lift (eq_refl (inr lat' : py.exn + list pd.cell)).
  run_setitem Hlt ltac:(rewrite (truediv_length _ _ _ Elat);
                        by eapply rectangular_lookup).
  unfold half_fixed.
  destruct (pd.lookup_column "longitudeE7" (pd.columns df)) as [lon|] eqn:Hlon.
  2:{ rewrite (bind_run_inl _ _ _ (py.KeyError "longitudeE7")
                 (<[r := assigned "latitudeE7" lat' df]> h)); [done|].
      apply getitem_over_missing; [done|].
      by rewrite lookup_assigned_ne by discriminate. }
  run_getitem Hlt.
  destruct (pd.series_truediv lon 10000000) as [e|lon'] eqn:Elon.
  { by rewrite (bind_lift_inl _ _ _ _ eq_refl). }
  run_lift (eq_refl (inr lon' : py.exn + list pd.cell)).
  run_setitem Hlt ltac:(rewrite (truediv_length _ _ _ Elon);
                        by eapply rectangular_lookup).
  reflexivity.
Qed.

(** ** The time derivation, step by step *)

Lemma display_strings_length month day year hour min strs n :
  display_strings month day year hour min = inr strs →
  length month = n → length day = n → length year = n → length hour = n →
  length min = n → length strs = n.
Proof.
  unfold display_strings. intros H Lm Ld Ly Lh Lmi.
  repeat (apply exn_bind_inr in H as (? & ? & H)).
  unfold pd.astype_str, pd.series_add_str, pd.series_add in *.
  repeat match goal with
         | E : pd.mapM _ _ = inr _ |- _ => apply mapM_length in E
         end.
  rewrite ?length_zip_with in *. lia.
Qed.

Lemma DeriveTimeIntervals_run r (h : heap) df ts date_time strs :
  h !! r = Some df →
  pd.lookup_column "timestampMs" (pd.columns df) = Some ts →
  pd.to_datetime ts = inr date_time →
  length date_time = length (pd.index df) →
  display_strings (pd.dt_field calendar.month date_time)
    (pd.dt_field calendar.day date_time) (pd.dt_field calendar.year date_time)
    (pd.dt_field calendar.hour date_time) (pd.dt_field calendar.minute date_time)
  = inr strs →
  _DeriveTimeIntervals r h = (inr r, <[r := derived date_time strs df]> h).
Proof.
  intros Hr Hts Hdt Hlen Hdisp.
  assert (r < length h)%nat as Hlt by (by eapply lookup_lt_Some).
  assert (length strs = length (pd.index df)) as Hstrs.
  { eapply display_strings_length; [exact Hdisp|..]; by rewrite dt_field_length. }
  rewrite <- (list_insert_id h r df Hr) at 1.
  unfold display_strings in Hdisp.
  apply exn_bind_inr in Hdisp as (m & E0 & Hdisp).
  apply exn_bind_inr in Hdisp as (a1 & E1 & Hdisp).
  apply exn_bind_inr in Hdisp as (d & E2 & Hdisp).
  apply exn_bind_inr in Hdisp as (a2 & E3 & Hdisp).
  apply exn_bind_inr in Hdisp as (a3 & E4 & Hdisp).
  apply exn_bind_inr in Hdisp as (y & E5 & Hdisp).
  apply exn_bind_inr in Hdisp as (y' & E6 & Hdisp).
  apply exn_bind_inr in Hdisp as (a4 & E7 & Hdisp).
  apply exn_bind_inr in Hdisp as (a5 & E8 & Hdisp).
  apply exn_bind_inr in Hdisp as (hh & E9 & Hdisp).
  apply exn_bind_inr in Hdisp as (a6 & E10 & Hdisp).
  apply exn_bind_inr in Hdisp as (a7 & E11 & Hdisp).
  apply exn_bind_inr in Hdisp as (mi & E12 & Hdisp).
  unfold _DeriveTimeIntervals.
  run_getitem Hlt. run_lift Hdt.
  do 6 run_setitem Hlt ltac:(by rewrite dt_field_length).
  run_setitem Hlt ltac:(unfold pd.to_pydatetime; by rewrite length_fmap).
  run_getitem Hlt. run_lift E0. run_lift E1.
  run_getitem Hlt. run_lift E2. run_lift E3. run_lift E4.
  run_getitem Hlt. run_lift E5. run_lift E6. run_lift E7. run_lift E8.
  run_getitem Hlt. run_lift E9. run_lift E10. run_lift E11.
  run_getitem Hlt. run_lift E12. run_lift Hdisp.
  run_setitem Hlt ltac:(exact Hstrs).
  reflexivity.
Qed.

(** ** Columns that convert, and columns that do not *)

Lemma timestamp_cells recs :
  (∀ r, r ∈ recs → is_Some (timestamp_of r)) →
  ∃ vs, raw_column "timestampMs" recs = cell_of <$> vs ∧
    Forall2 (λ r v, timestamp_of r = timestamp_value v) recs vs.
Proof.
  intros Hall.
  assert (∃ vs, (λ r : gmap string pd.jvalue, r !! "timestampMs"%string) <$> recs
                = Some <$> vs ∧ Forall2 (λ r v, timestamp_of r = timestamp_value v) recs vs)
    as (vs & Hvs & Hrel).
  { induction recs as [|r recs IH]; [by exists []|].
    destruct IH as (vs & Hvs & Hrel).
    { intros r' Hr'. apply Hall. by right. }
    destruct (Hall r) as [ms Hms]; [left|].
    unfold timestamp_of in Hms.
    destruct (r !! "timestampMs"%string) as [v|] eqn:Hv; [|done].
    exists (v :: vs). csimpl. rewrite Hv, Hvs. split; [done|].
    constructor; [|done]. unfold timestamp_of. by rewrite Hv. }
  exists vs. split; [|done].
  unfold raw_column. by rewrite Hvs, infer_column_present.
Qed.

Lemma to_datetime_cell_value v ms :
  timestamp_value v = Some ms → (∀ z, v = pd.JInt z → pd.fits_int64 z = true) →
  pd.to_datetime_cell (cell_of v) = pd.check_bounds ms.
Proof.
  destruct v as [z|s]; cbn [timestamp_value cell_of pd.to_datetime_cell].
  - destruct (z =? pd.iNaT); [done|]. intros [= ->] Hfit. by rewrite (Hfit ms).
  - destruct (_ || _); [done|]. by intros ->.
Qed.

Lemma to_datetime_timed recs :
  (∀ r, r ∈ recs → timed r) →
  pd.to_datetime (raw_column "timestampMs" recs) = inr (timestamp_of <$> recs).
Proof.
  intros Hall.
  destruct (timestamp_cells recs) as (vs & -> & Hrel).
  { intros r Hr. destruct (Hall r Hr) as (ms & -> & _). by eexists. }
  unfold pd.to_datetime.
  induction Hrel as [|r v recs vs Hrv Hrel IH]; [done|].
  destruct (Hall r) as (ms & Hms & Hb); [left|].
  csimpl. rewrite (to_datetime_cell_in_bounds v ms) by congruence.
  rewrite Hms.
  rewrite IH; [done|]. intros r' Hr'. apply Hall. by right.
Qed.

Lemma to_datetime_out_of_bounds recs r ms :
  (∀ r, r ∈ recs → is_Some (timestamp_of r)) →
  (∀ r z, r ∈ recs → r !! "timestampMs"%string = Some (pd.JInt z) →
     pd.fits_int64 z = true) →
  r ∈ recs → timestamp_of r = Some ms → calendar.in_bounds ms = false →
  pd.to_datetime (raw_column "timestampMs" recs) = inl py.OutOfBoundsDatetime.
Proof.
  intros Hall Hfit Hr Hms Hb.
  destruct (present_cells "timestampMs" recs) as (vs & -> & Hrel).
  { intros r' Hr'. destruct (Hall r' Hr') as [ms' Hms'].
    unfold timestamp_of in Hms'. by destruct (r' !! "timestampMs"%string). }
  unfold pd.to_datetime.
  apply list_elem_of_lookup in Hr as [i Hi].
  destruct (Forall2_lookup_l _ _ _ _ _ Hrel Hi) as (v & Hv & Hrv).
  apply (mapM_fails _ _ (cell_of v)).
  - apply list_elem_of_fmap. exists v. split; [done|]. by eapply list_elem_of_lookup_2.
  - rewrite (to_datetime_cell_value v ms).
    + unfold pd.check_bounds. by rewrite Hb.
    + unfold timestamp_of in Hms. by rewrite Hrv in Hms.
    + intros z ->. eapply Hfit; [|exact Hrv]. by eapply list_elem_of_lookup_2.
  - intros a e (v' & -> & Hv')%list_elem_of_fmap.
    apply list_elem_of_lookup in Hv' as [j Hj].
    destruct (Forall2_lookup_r _ _ _ _ _ Hrel Hj) as (r' & Hr' & Hrv').
    assert (r' ∈ recs) as Hin by (by eapply list_elem_of_lookup_2).
    destruct (Hall r' Hin) as [ms' Hms'].
    rewrite (to_datetime_cell_value v' ms').
    + unfold pd.check_bounds. destruct (calendar.in_bounds ms'); congruence.
    + unfold timestamp_of in Hms'. by rewrite Hrv' in Hms'.
    + intros z ->. by eapply Hfit.
Qed.

(** The display strings of instants that are all there. *)
Lemma display_strings_timed recs :
  (∀ r, r ∈ recs → is_Some (timestamp_of r)) →
  display_strings
    (pd.dt_field calendar.month (timestamp_of <$> recs))
    (pd.dt_field calendar.day (timestamp_of <$> recs))
    (pd.dt_field calendar.year (timestamp_of <$> recs))
    (pd.dt_field calendar.hour (timestamp_of <$> recs))
    (pd.dt_field calendar.minute (timestamp_of <$> recs))
  = inr (display_column recs).
Proof.
  intros Hall.
  assert (timestamp_of <$> recs = Some <$> ((λ r, default 0 (timestamp_of r)) <$> recs))
    as ->.
  { rewrite <- list_fmap_compose. apply list_fmap_ext.
    intros i r Hr. destruct (Hall r) as [ms Hms]; [by eapply list_elem_of_lookup_2|].
    cbn. by rewrite Hms. }
  rewrite display_strings_present. unfold display_column.
  by rewrite <- list_fmap_compose.
Qed.

(** ** Coordinate columns that divide, and columns that do not *)

Lemma truediv_fixed c recs :
  (∀ r, r ∈ recs → is_Some (coordinate (r !! c))) →
  pd.series_truediv (raw_column c recs) 10000000 = inr (fixed_column c recs).
Proof.
  intros Hall. unfold raw_column, pd.infer_column, pd.series_truediv, fixed_column.
  destruct (forallb pd.is_JInt _) eqn:E1; [|destruct (existsb pd.is_JStr _) eqn:E2].
  - rewrite <- list_fmap_compose. apply mapM_fmap.
    intros r. cbn. by destruct (r !! c) as [[z|s]|].
  - exfalso. apply existsb_exists in E2 as (v & Hv & Hs).
    apply list_elem_of_In, list_elem_of_fmap in Hv as (r & -> & Hr).
    destruct (Hall r Hr) as [x Hx]. by destruct (r !! c) as [[z|s]|].
  - rewrite <- list_fmap_compose. apply mapM_fmap.
    intros r. cbn. by destruct (r !! c) as [[z|s]|].
Qed.

Lemma truediv_string c recs r s :
  r ∈ recs → r !! c = Some (pd.JStr s) →
  pd.series_truediv (raw_column c recs) 10000000 = inl py.TypeError.
Proof.
  intros Hr Hs. apply list_elem_of_lookup in Hr as [i Hi].
  destruct (raw_column_lookup c recs i r Hi) as (x & Hx & Hcase).
  rewrite Hs in Hcase. subst x.
  apply (mapM_fails _ _ (pd.CStr s)); [by eapply list_elem_of_lookup_2|done|].
  intros [z|f|s'|t] e _; cbn; congruence.
Qed.

(** ** The loaded frame and the derived frame *)

Lemma loaded_rectangular recs : rectangular (loaded recs).
Proof.
  unfold rectangular. apply Forall_forall. intros [c v] Hcv.
  assert (length v = length recs) as Hv; [|by rewrite loaded_index, length_seq].
  unfold loaded, pd.filter_items in Hcv. cbn [pd.columns] in Hcv.
  apply list_elem_of_omap in Hcv as (c' & _ & Hc').
  destruct (pd.lookup_column c' (pd.columns (pd.from_dict recs))) as [v'|] eqn:E;
    [|done].
  injection Hc' as -> ->. rewrite from_dict_lookup in E.
  case_bool_decide; [|done]. injection E as <-.
  by rewrite infer_column_length, length_fmap.
Qed.

Lemma derived_rectangular date_time strs df :
  rectangular df → length date_time = length (pd.index df) →
  length strs = length (pd.index df) →
  rectangular (derived date_time strs df).
Proof.
  intros Hr Hdt Hstrs. unfold derived.
  repeat (apply assigned_rectangular;
          [|cbn [assigned pd.index];
            first [ done | by rewrite dt_field_length
                  | unfold pd.to_pydatetime; by rewrite length_fmap ]]).
  done.
Qed.

Lemma timed_has_timestamp r : timed r → is_Some (r !! "timestampMs"%string).
Proof.
  intros (ms & Hms & _). unfold timestamp_of in Hms.
  by destruct (r !! "timestampMs"%string).
Qed.

Lemma timed_frame_rectangular recs : rectangular (timed_frame recs).
Proof.
  unfold timed_frame.
  apply (derived_rectangular (timestamp_of <$> recs) (display_column recs)
           (loaded recs)); [apply loaded_rectangular|..];
    rewrite loaded_index, length_seq;
    [|unfold display_column]; by rewrite length_fmap.
Qed.

Lemma timed_frame_lookup c recs :
  c ∈ raw_fields →
  pd.lookup_column c (pd.columns (timed_frame recs))
  = if bool_decide (c ∈ pd.labels_of recs) then Some (raw_column c recs) else None.
Proof.
  intros Hc. unfold timed_frame, derived.
  assert (∀ name, name ∉ raw_fields → name ≠ c) as Hne by (intros n Hn ->; done).
  rewrite !lookup_assigned_ne.
  2-9: apply Hne; unfold raw_fields; rewrite !not_elem_of_cons;
       split_and!; try discriminate; apply not_elem_of_nil.
  rewrite loaded_lookup. unfold raw_column.
  repeat case_bool_decide; try done; tauto.
Qed.

(** A construction from timed records, up to the coordinate fix. *)
Lemma init_timed doc recs (h : heap) :
  same_lengths doc → doc !! "locations"%string = Some recs → recs ≠ [] →
  (∀ r, r ∈ recs → timed r) →
  __init__ (pd.Parsed doc) h
  = (let* d := _FixLatLong (S (length h)) in
     ret {| data := d; fig := None; _originaldata := d;
            scatterdata := None; layout := None |})
      (h ++ [pd.from_dict recs; timed_frame recs]).
Proof.
  intros Hsame Hloc Hne Hall. unfold __init__.
  rewrite (bind_run_inr _ _ h (S (length h)) (h ++ [pd.from_dict recs; loaded recs])).
  2:{ rewrite ReadJson_run.
      destruct (read_json_Parsed doc) as [[_ E]|[Hn _]]; [|done].
      by rewrite E, Hloc. }
  rewrite (bind_run_inr _ _ _ (S (length h))
             (h ++ [pd.from_dict recs; timed_frame recs])); [done|].
  rewrite <- (insert_second h (pd.from_dict recs) (loaded recs) (timed_frame recs)).
  unfold timed_frame.
  apply (DeriveTimeIntervals_run (S (length h)) (h ++ [pd.from_dict recs; loaded recs])
           (loaded recs) (raw_column "timestampMs" recs) (timestamp_of <$> recs)
           (display_column recs)).
  - apply lookup_second.
  - rewrite loaded_lookup. rewrite bool_decide_eq_true_2; [done|].
    split; [unfold raw_fields; set_solver|].
    destruct recs as [|r recs]; [done|]. apply elem_of_labels_of.
    exists r. split; [left|]. apply timed_has_timestamp, Hall. left.
  - by apply to_datetime_timed.
  - by rewrite loaded_index, length_seq, length_fmap.
  - apply display_strings_timed. intros r Hr.
    destruct (Hall r Hr) as (ms & -> & _). by eexists.
Qed.

(** ** Constructions that return, and constructions that raise *)

Lemma construct_run filepath (h : heap) :
  construct filepath h
  = match __init__ filepath h with
    | (inr o, h') => inr {| self := o; mem := h' |}
    | (inl e, _) => inl e
    end.
Proof. reflexivity. Qed.

Lemma constructed_frame recs :
  "latitudeE7"%string ∈ pd.labels_of recs →
  "longitudeE7"%string ∈ pd.labels_of recs →
  "timestampMs"%string ∈ pd.labels_of recs →
  assigned "longitudeE7" (fixed_column "longitudeE7" recs)
    (half_fixed (fixed_column "latitudeE7" recs) (timed_frame recs))
  = constructed recs.
Proof.
  intros H1 H2 H3.
  unfold half_fixed, timed_frame, derived, assigned, constructed, transformed.
  cbn [pd.index pd.columns]. rewrite loaded_index. f_equal.
  rewrite (loaded_columns_full recs) by done. reflexivity.
Qed.

(** A construction from timed records stands and falls with the
    coordinate fix. *)
Lemma construct_timed doc recs (h : heap) :
  same_lengths doc → doc !! "locations"%string = Some recs → recs ≠ [] →
  (∀ r, r ∈ recs → timed r) →
  construct (pd.Parsed doc) h
  = match _FixLatLong (S (length h)) (h ++ [pd.from_dict recs; timed_frame recs]) with
    | (inr d, h') =>
        inr {| self := {| data := d; fig := None; _originaldata := d;
                          scatterdata := None; layout := None |};
               mem := h' |}
    | (inl e, _) => inl e
    end.
Proof.
  intros Hsame Hloc Hne Hall.
  rewrite construct_run, (init_timed doc recs h Hsame Hloc Hne Hall).
  unfold bind. by destruct (_FixLatLong _ _) as [[e|d] h'].
Qed.

(** X10. The constructor returns on every well-formed export: a file that
    parses to an object of arrays of one length whose ["locations"] records
    all have a numeric timestamp within bounds and no string for a
    coordinate, each coordinate field occurring in some record. The
    instance has the frame of these records under [data] and
    [_originaldata] alike, one new object after the frame of the loader;
    no figure, trace or layout yet. *)
Theorem construct_returns (doc : gmap string (list (gmap string pd.jvalue)))
    (recs : list (gmap string pd.jvalue)) (h : heap) :
  same_lengths doc → doc !! "locations"%string = Some recs →
  "latitudeE7"%string ∈ pd.labels_of recs →
  "longitudeE7"%string ∈ pd.labels_of recs →
  (∀ r, r ∈ recs → well_formed r) →
  construct (pd.Parsed doc) h
  = inr {| self := {| data := S (length h); fig := None;
                      _originaldata := S (length h);
                      scatterdata := None; layout := None |};
           mem := h ++ [pd.from_dict recs; constructed recs] |}.
Proof.
  intros Hsame Hloc Hlat Hlon Hall.
  assert (recs ≠ []) as Hne.
  { apply elem_of_labels_of in Hlat as (r & Hr & _).
    intros ->. by apply elem_of_nil in Hr. }
  assert ("timestampMs"%string ∈ pd.labels_of recs) as Hts.
  { destruct recs as [|r recs]; [done|]. apply elem_of_labels_of.
    exists r. split; [left|]. apply timed_has_timestamp, Hall. left. }
  rewrite (construct_timed doc recs h Hsame Hloc Hne)
    by (intros r Hr; apply Hall, Hr).
  rewrite (FixLatLong_run _ _ (timed_frame recs) (lookup_second h _ _)
             (timed_frame_rectangular recs)).
  rewrite !timed_frame_lookup by (unfold raw_fields; set_solver).
  rewrite !bool_decide_eq_true_2 by done.
  rewrite !truediv_fixed by (intros r Hr; apply Hall, Hr).
  rewrite insert_second, constructed_frame by done. reflexivity.
Qed.

Lemma sample_records_well_formed r : r ∈ sample_records → well_formed r.
Proof.
  unfold sample_records. rewrite !elem_of_cons.
  intros [->|[->|[->|[->|[->|Hr]]]]]; [..|by apply elem_of_nil in Hr];
    (split; [eexists; split; [vm_compute; reflexivity|vm_compute; reflexivity]
            |split; vm_compute; eauto]).
Qed.

Lemma construct_returns_witness :
  same_lengths (<["locations"%string := sample_records]> ∅) ∧
  (data <$> (self <$> Some (world_of (construct sample_file [])))) = Some 1%nat ∧
  construct sample_file []
  = inr {| self := {| data := 1; fig := None; _originaldata := 1;
                      scatterdata := None; layout := None |};
           mem := [pd.from_dict sample_records; constructed sample_records] |}.
Proof.
  split; [exact sample_same_lengths|].
  assert (∀ c, is_Some (sample_record 377749000 (-1224194000) "1609459200000" !! c) →
               c ∈ pd.labels_of sample_records) as Hlab.
  { intros c Hc. apply elem_of_labels_of. eexists. split; [left|exact Hc]. }
  pose proof (construct_returns (<["locations"%string := sample_records]> ∅)
                sample_records [] sample_same_lengths eq_refl
                (Hlab "latitudeE7"%string ltac:(by eexists))
                (Hlab "longitudeE7"%string ltac:(by eexists))
                sample_records_well_formed) as H.
  split; [|exact H]. unfold sample_file. rewrite H. reflexivity.
Defined.

(** X11. In a document whose integers all fit a signed 64-bit word: when
    every record has a numeric timestamp and one of them lies outside the
    range of a nanosecond instant (beyond 9223372036854 ms on either side of
    the epoch), the constructor raises OutOfBoundsDatetime. *)
Theorem construct_out_of_bounds (doc : gmap string (list (gmap string pd.jvalue)))
    (recs : list (gmap string pd.jvalue)) (h : heap)
    (r : gmap string pd.jvalue) (ms : Z) :
  same_lengths doc → int64_document doc →
  doc !! "locations"%string = Some recs →
  (∀ r, r ∈ recs → is_Some (timestamp_of r)) →
  r ∈ recs → timestamp_of r = Some ms → calendar.in_bounds ms = false →
  construct (pd.Parsed doc) h = inl py.OutOfBoundsDatetime.
Proof.
  intros Hsame Hint Hloc Hall Hr Hms Hb.
  assert (∀ r z, r ∈ recs → r !! "timestampMs"%string = Some (pd.JInt z) →
            pd.fits_int64 z = true) as Hfit.
  { intros r' z Hr' Hz. exact (Hint _ _ _ _ _ Hloc Hr' Hz). }
  rewrite construct_run. unfold __init__.
  rewrite (bind_run_inr _ _ h (S (length h)) (h ++ [pd.from_dict recs; loaded recs])).
  2:{ rewrite ReadJson_run.
      destruct (read_json_Parsed doc) as [[_ E]|[Hn _]]; [|done].
      by rewrite E, Hloc. }
  unfold _DeriveTimeIntervals at 1.
  unfold bind at 1. unfold bind at 1.
  rewrite (getitem_run _ _ _ _ (lookup_second h _ _)).
  unfold pd.getitem. rewrite loaded_lookup.
  rewrite bool_decide_eq_true_2.
  2:{ split; [unfold raw_fields; set_solver|]. apply elem_of_labels_of.
      exists r. split; [done|]. unfold timestamp_of in Hms.
      by destruct (r !! "timestampMs"%string). }
  unfold bind at 1.
  fold (raw_column "timestampMs" recs).
  by rewrite (to_datetime_out_of_bounds recs r ms Hall Hfit Hr Hms Hb).
Qed.

Lemma sample_record_integers lat lon ts c z :
  sample_record lat lon ts !! c = Some (pd.JInt z) → z = lat ∨ z = lon ∨ z = 12.
Proof.
  unfold sample_record. intros Hz.
  apply lookup_insert_Some in Hz as [[_ Hz]|[_ Hz]]; [injection Hz as <-; by left|].
  apply lookup_insert_Some in Hz as [[_ Hz]|[_ Hz]];
    [injection Hz as <-; by right; left|].
  apply lookup_insert_Some in Hz as [[_ Hz]|[_ Hz]]; [done|].
  apply lookup_insert_Some in Hz as [[_ Hz]|[_ Hz]];
    [injection Hz as <-; by right; right|].
  by rewrite lookup_empty in Hz.
Qed.

Lemma construct_out_of_bounds_witness :
  timestamp_of <$> far_records = [Some 1609459200000; Some 9223372036855] ∧
  calendar.in_bounds 9223372036855 = false ∧
  construct (pd.Parsed (<["locations"%string := far_records]> ∅)) []
  = inl py.OutOfBoundsDatetime.
Proof.
  split; [vm_compute; reflexivity|]. split; [vm_compute; reflexivity|].
  apply (construct_out_of_bounds _ far_records []
           (sample_record 377750000 (-1224195000) "9223372036855") 9223372036855).
  - apply singleton_same_lengths.
  - intros k l r c z Hk Hr Hz.
    destruct (decide (k = "locations"%string)) as [->|Hne].
    + rewrite lookup_insert_eq in Hk. injection Hk as <-.
      unfold far_records in Hr. rewrite !elem_of_cons in Hr.
      destruct Hr as [->|[->|Hr]]; [..|by apply elem_of_nil in Hr];
        apply sample_record_integers in Hz as [->|[->| ->]]; reflexivity.
    + rewrite lookup_insert_ne, lookup_empty in Hk by done. done.
  - reflexivity.
  - unfold far_records. intros r. rewrite !elem_of_cons.
    intros [->|[->|Hr]]; [..|by apply elem_of_nil in Hr]; vm_compute; eauto.
  - right. left.
  - vm_compute. reflexivity.
  - vm_compute. reflexivity.
Defined.

(** X12. With timestamps that all convert, the constructor raises on the
    coordinates in these cases: KeyError when no record has the latitude
    field, TypeError when a record has a string for it; and, the latitudes
    being numbers, KeyError when no record has the longitude field and
    TypeError when a record has a string for it. *)
Theorem construct_coordinate_errors
    (doc : gmap string (list (gmap string pd.jvalue)))
    (recs : list (gmap string pd.jvalue)) (h : heap) :
  same_lengths doc → doc !! "locations"%string = Some recs → recs ≠ [] →
  (∀ r, r ∈ recs → timed r) →
  ((∀ r, r ∈ recs → r !! "latitudeE7"%string = None) →
   construct (pd.Parsed doc) h = inl (py.KeyError "latitudeE7")) ∧
  (∀ r s, r ∈ recs → r !! "latitudeE7"%string = Some (pd.JStr s) →
   construct (pd.Parsed doc) h = inl py.TypeError) ∧
  ("latitudeE7"%string ∈ pd.labels_of recs →
   (∀ r, r ∈ recs → is_Some (coordinate (r !! "latitudeE7"%string))) →
   ((∀ r, r ∈ recs → r !! "longitudeE7"%string = None) →
    construct (pd.Parsed doc) h = inl (py.KeyError "longitudeE7")) ∧
   (∀ r s, r ∈ recs → r !! "longitudeE7"%string = Some (pd.JStr s) →
    construct (pd.Parsed doc) h = inl py.TypeError)).
Proof.
  intros Hsame Hloc Hne Hall.
  rewrite (construct_timed doc recs h Hsame Hloc Hne Hall).
  rewrite (FixLatLong_run _ _ (timed_frame recs) (lookup_second h _ _)
             (timed_frame_rectangular recs)).
  rewrite !timed_frame_lookup by (unfold raw_fields; set_solver).
  assert (∀ c, (∀ r, r ∈ recs → r !! c = None) → c ∉ pd.labels_of recs) as Hmissing.
  { intros c Hc (r & Hr & [v Hv])%elem_of_labels_of. by rewrite (Hc r Hr) in Hv. }
  assert (∀ c r s, r ∈ recs → r !! c = Some (pd.JStr s) → c ∈ pd.labels_of recs)
    as Hthere.
  { intros c r s Hr Hs. apply elem_of_labels_of. exists r. by rewrite Hs. }
  split_and!.
  - intros Hnone. by rewrite bool_decide_eq_false_2 by auto.
  - intros r s Hr Hs. rewrite bool_decide_eq_true_2 by eauto.
    by rewrite (truediv_string _ _ r s Hr Hs).
  - intros Hlab Hlat. rewrite (bool_decide_eq_true_2 _ Hlab).
    rewrite (truediv_fixed _ _ Hlat). split.
    + intros Hnone. by rewrite bool_decide_eq_false_2 by auto.
    + intros r s Hr Hs. rewrite bool_decide_eq_true_2 by eauto.
      by rewrite (truediv_string _ _ r s Hr Hs).
Qed.

Lemma construct_coordinate_errors_witness :
  construct (pd.Parsed (<["locations"%string := no_longitude_records]> ∅)) []
  = inl (py.KeyError "longitudeE7") ∧
  construct (pd.Parsed (<["locations"%string := string_latitude_records]> ∅)) []
  = inl py.TypeError.
Proof.
  split.
  - destruct (construct_coordinate_errors
                (<["locations"%string := no_longitude_records]> ∅)
                no_longitude_records []) as (_ & _ & H).
    + apply singleton_same_lengths.
    + reflexivity.
    + discriminate.
    + unfold no_longitude_records. intros r. rewrite !elem_of_cons.
      intros [->|[->|Hr]]; [..|by apply elem_of_nil in Hr];
        (eexists; split; [vm_compute; reflexivity|vm_compute; reflexivity]).
    + apply H.
      * apply elem_of_labels_of. eexists. split; [left|]. by eexists.
      * unfold no_longitude_records. intros r. rewrite !elem_of_cons.
        intros [->|[->|Hr]]; [..|by apply elem_of_nil in Hr]; vm_compute; eauto.
      * unfold no_longitude_records. intros r. rewrite !elem_of_cons.
        intros [->|[->|Hr]]; [..|by apply elem_of_nil in Hr]; reflexivity.
  - destruct (construct_coordinate_errors
                (<["locations"%string := string_latitude_records]> ∅)
                string_latitude_records []) as (_ & H & _).
    + apply singleton_same_lengths.
    + reflexivity.
    + discriminate.
    + unfold string_latitude_records. intros r. rewrite !elem_of_cons.
      intros [->|[->|Hr]]; [..|by apply elem_of_nil in Hr];
        (eexists; split; [vm_compute; reflexivity|vm_compute; reflexivity]).
    + eapply (H _ "37.775"%string); [right; left|reflexivity].
Defined.

(** ** The transformers on a frame of the store *)

(** X13. [_FixLatLong] works on the frame it is given, column by column, and
    is not atomic. When the latitude column is missing or does not divide,
    it raises and the store is as it was. Once the latitudes are divided
    they are in the frame: when the longitude column is missing (KeyError)
    or does not divide, the call raises and leaves the frame with its
    latitudes divided and all else as before. When both divide it returns
    the reference it was given, to the same frame with both columns
    replaced. *)
Theorem FixLatLong_not_atomic (r : ref) (h : heap) (df : pd.DataFrame) :
  h !! r = Some df → rectangular df →
  (pd.lookup_column "latitudeE7" (pd.columns df) = None →
   _FixLatLong r h = (inl (py.KeyError "latitudeE7"), h)) ∧
  (∀ lat e,
     pd.lookup_column "latitudeE7" (pd.columns df) = Some lat →
     pd.series_truediv lat 10000000 = inl e →
     _FixLatLong r h = (inl e, h)) ∧
  (∀ lat lat',
     pd.lookup_column "latitudeE7" (pd.columns df) = Some lat →
     pd.series_truediv lat 10000000 = inr lat' →
     (pd.lookup_column "longitudeE7" (pd.columns df) = None →
      _FixLatLong r h
      = (inl (py.KeyError "longitudeE7"), <[r := half_fixed lat' df]> h)) ∧
     (∀ lon e,
        pd.lookup_column "longitudeE7" (pd.columns df) = Some lon →
        pd.series_truediv lon 10000000 = inl e →
        _FixLatLong r h = (inl e, <[r := half_fixed lat' df]> h)) ∧
     (∀ lon lon',
        pd.lookup_column "longitudeE7" (pd.columns df) = Some lon →
        pd.series_truediv lon 10000000 = inr lon' →
        _FixLatLong r h
        = (inr r, <[r := assigned "longitudeE7" lon' (half_fixed lat' df)]> h)) ∧
     pd.getitem "latitudeE7" (half_fixed lat' df) = inr lat' ∧
     pd.index (half_fixed lat' df) = pd.index df ∧
     pd.column_names (half_fixed lat' df) = pd.column_names df ∧
     ∀ c, c ≠ "latitudeE7"%string →
       pd.lookup_column c (pd.columns (half_fixed lat' df))
       = pd.lookup_column c (pd.columns df)).
Proof.
  intros Hr Hrect. rewrite (FixLatLong_run r h df Hr Hrect). split_and!.
  - by intros ->.
  - intros lat e Hlat Hdiv. rewrite Hlat. cbv beta iota. by rewrite Hdiv.
  - intros lat lat' Hlat Hdiv. rewrite Hlat. cbv beta iota. rewrite Hdiv.
    split_and!.
    + by intros ->.
    + intros lon e Hlon Hdiv'. rewrite Hlon. cbv beta iota. by rewrite Hdiv'.
    + intros lon lon' Hlon Hdiv'. rewrite Hlon. cbv beta iota. by rewrite Hdiv'.
    + unfold pd.getitem, half_fixed. by rewrite lookup_assigned_eq.
    + done.
    + unfold pd.column_names, half_fixed, assigned. cbn [pd.columns].
      apply assign_column_names_mem.
      apply lookup_column_Some in Hlat.
      apply list_elem_of_fmap. by exists ("latitudeE7"%string, lat).
    + intros c Hc. unfold half_fixed. by apply lookup_assigned_ne.
Qed.

Lemma FixLatLong_not_atomic_witness :
  [latitude_frame] !! 0%nat = Some latitude_frame ∧
  _FixLatLong 0 [latitude_frame]
  = (inl (py.KeyError "longitudeE7"),
     [{| pd.index := [0%nat; 1%nat];
         pd.columns :=
           [("latitudeE7"%string,
             [pd.CFloat (degrees (py.float_of_Z 377749000));
              pd.CFloat (degrees (py.float_of_Z 377750000))])] |}]).
Proof.
  split; [reflexivity|].
  assert (rectangular latitude_frame) as Hrect by (repeat constructor).
  destruct (FixLatLong_not_atomic 0 [latitude_frame] latitude_frame eq_refl Hrect)
    as (_ & _ & H).
  destruct (H [pd.CInt 377749000; pd.CInt 377750000]
              [pd.CFloat (degrees (py.float_of_Z 377749000));
               pd.CFloat (degrees (py.float_of_Z 377750000))] eq_refl eq_refl)
    as (Hmissing & _).
  exact (Hmissing eq_refl).
Defined.

(** X14. [_DeriveTimeIntervals] writes nothing unless the whole timestamp
    column converts: without the column it raises KeyError, and when
    [to_datetime] raises on the column, ValueError or OutOfBoundsDatetime,
    it raises the same, the store as it was in both cases. When it returns, it returns the
    reference it was given, to the same frame with the eight derived
    columns, each as long as the index; the index and every other column
    are untouched. *)
Theorem DeriveTimeIntervals_in_place (r : ref) (h : heap) (df : pd.DataFrame) :
  h !! r = Some df →
  (pd.lookup_column "timestampMs" (pd.columns df) = None →
   _DeriveTimeIntervals r h = (inl (py.KeyError "timestampMs"), h)) ∧
  (∀ ts e,
     pd.lookup_column "timestampMs" (pd.columns df) = Some ts →
     pd.to_datetime ts = inl e → py.raised e →
     (e = py.ValueError ∨ e = py.OutOfBoundsDatetime) ∧
     _DeriveTimeIntervals r h = (inl e, h)) ∧
  (∀ r' h',
     _DeriveTimeIntervals r h = (inr r', h') →
     r' = r ∧
     ∃ df', h' = <[r := df']> h ∧ pd.index df' = pd.index df ∧
       (∀ c, c ∈ derived_names →
          ∃ v, pd.lookup_column c (pd.columns df') = Some v ∧
            length v = length (pd.index df)) ∧
       (∀ c, c ∉ derived_names →
          pd.lookup_column c (pd.columns df') = pd.lookup_column c (pd.columns df))).
Proof.
  intros Hr. split_and!.
  - intros Hts. unfold _DeriveTimeIntervals.
    apply bind_run_inl. rewrite (getitem_run _ _ _ _ Hr).
    unfold pd.getitem. by rewrite Hts.
  - intros ts e Hts Hdt He. split.
    { apply mapM_inl_inv in Hdt as (c & _ & Hc).
      by apply (to_datetime_cell_raises c). }
    unfold _DeriveTimeIntervals.
    rewrite (bind_run_inr _ _ _ ts h).
    2:{ rewrite (getitem_run _ _ _ _ Hr). unfold pd.getitem. by rewrite Hts. }
    by rewrite (bind_lift_inl _ _ _ _ Hdt).
  - intros r' h' Hrun.
    apply DeriveTimeIntervals_inr_inv in Hrun
      as (df' & ts & date_time & strs & -> & Hr' & Hts & Hdt & Hlen & Hstr & Hlens & ->).
    rewrite Hr in Hr'. injection Hr' as <-.
    split; [done|]. exists (derived date_time strs df).
    split; [done|]. split; [done|]. split.
    + intros c Hc. unfold derived_names in Hc. rewrite !elem_of_cons in Hc.
      unfold derived.
      destruct Hc as [->|[->|[->|[->|[->|[->|[->|[->|Hc]]]]]]]];
        [..|by apply elem_of_nil in Hc];
        (eexists; split; [find_column|]);
        first [ by rewrite dt_field_length | done
              | unfold pd.to_pydatetime; by rewrite length_fmap ].
    + intros c Hc. unfold derived_names in Hc. rewrite !not_elem_of_cons in Hc.
      unfold derived. rewrite !lookup_assigned_ne; [done|..]; intros <-; tauto.
Qed.

Lemma DeriveTimeIntervals_in_place_witness :
  [loaded bad_records] !! 0%nat = Some (loaded bad_records) ∧
  pd.to_datetime (raw_column "timestampMs" bad_records) = inl py.ValueError ∧
  _DeriveTimeIntervals 0 [loaded bad_records]
  = (inl py.ValueError, [loaded bad_records]).
Proof.
  assert (pd.to_datetime (raw_column "timestampMs" bad_records) = inl py.ValueError)
    as Hdt by (vm_compute; reflexivity).
  split; [reflexivity|]. split; [exact Hdt|].
  destruct (DeriveTimeIntervals_in_place 0 [loaded bad_records] (loaded bad_records)
              eq_refl) as (_ & H & _).
  apply (H (raw_column "timestampMs" bad_records)); [|exact Hdt|done].
  rewrite loaded_lookup. rewrite bool_decide_eq_true_2; [done|].
  split; [unfold raw_fields; right; right; left|].
  apply elem_of_labels_of. eexists. split; [left|]. by eexists.
Defined.

(** ** The rows of the loaded frame *)

Lemma forallb_false {A} (f : A → bool) (l : list A) :
  forallb f l = false → ∃ a, a ∈ l ∧ f a = false.
Proof.
  induction l as [|a l IH]; [done|]. cbn [forallb].
  destruct (f a) eqn:E; cbn [andb].
  - intros (a' & Ha' & Hf)%IH. exists a'. split; [by right|done].
  - intros _. exists a. split; [left|done].
Qed.

(** X15. The loader keeps the records in the order of the file, row i
    under the label i, and adds two frames to the store without touching
    the others. The cell of a raw field in row i is the value of record i:
    a string as it is, an integer as an integer or, in a column with gaps
    and no strings, as its float, and NaN where the record has no such
    field. When every record has an integer there, the column is of
    integers. *)
Theorem ReadJson_rows (doc : gmap string (list (gmap string pd.jvalue)))
    (recs : list (gmap string pd.jvalue)) (h : heap) :
  same_lengths doc → doc !! "locations"%string = Some recs →
  ∃ df,
    _ReadJson (pd.Parsed doc) h = (inr (S (length h)), h ++ [pd.from_dict recs; df]) ∧
    ∀ i r c, recs !! i = Some r → c ∈ raw_fields → c ∈ pd.labels_of recs →
      pd.index df !! i = Some i ∧
      ∃ x, cell_at df c i = Some x ∧
        match r !! c with
        | Some (pd.JInt z) =>
            x = pd.CInt z ∨
            (x = pd.CFloat (py.float_of_Z z) ∧ ∃ r', r' ∈ recs ∧ r' !! c = None)
        | Some (pd.JStr s) => x = pd.CStr s
        | None => x = pd.NaN
        end.
Proof.
  intros Hsame Hloc. exists (loaded recs). split.
  { rewrite ReadJson_run.
    destruct (read_json_Parsed doc) as [[_ E]|[Hn _]]; [|done].
    by rewrite E, Hloc. }
  intros i r c Hi Hc Hl. split.
  { rewrite loaded_index. apply lookup_seq. split; [done|]. by eapply lookup_lt_Some. }
  unfold cell_at. rewrite loaded_lookup.
  rewrite bool_decide_eq_true_2 by done. cbn [mbind option_bind].
  assert (((λ r : gmap string pd.jvalue, r !! c) <$> recs) !! i = Some (r !! c)) as Hraw
    by (by rewrite list_lookup_fmap, Hi).
  unfold pd.infer_column.
  destruct (forallb pd.is_JInt _) eqn:E1; [|destruct (existsb pd.is_JStr _) eqn:E2];
    rewrite list_lookup_fmap, Hraw; cbn [fmap option_fmap option_map];
    eexists; (split; [reflexivity|]).
  - rewrite forallb_forall in E1. specialize (E1 (r !! c)).
    destruct (r !! c) as [[z|s]|]; [by left|..];
      (cbn in E1; discriminate E1; apply list_elem_of_In;
       by eapply list_elem_of_lookup_2).
  - destruct (r !! c) as [[z|s]|]; [by left|done|done].
  - destruct (r !! c) as [[z|s]|] eqn:Hrc; [right; split; [done|]| |done].
    + apply forallb_false in E1 as (v & Hv & Hn).
      apply list_elem_of_fmap in Hv as (r' & -> & Hr').
      exists r'. split; [done|].
      destruct (r' !! c) as [[z'|s']|] eqn:E'; [done| |done].
      assert (existsb pd.is_JStr ((λ r : gmap string pd.jvalue, r !! c) <$> recs) = true)
        as E; [|congruence].
      apply existsb_exists. exists (Some (pd.JStr s')). split; [|done].
      apply list_elem_of_In, list_elem_of_fmap. exists r'. by rewrite E'.
    + assert (existsb pd.is_JStr ((λ r : gmap string pd.jvalue, r !! c) <$> recs) = true)
        as E; [|congruence].
      apply existsb_exists. exists (Some (pd.JStr s)). split; [|done].
      apply list_elem_of_In. by eapply list_elem_of_lookup_2.
Qed.

Lemma ReadJson_rows_witness :
  same_lengths (<["locations"%string := gap_records]> ∅) ∧
  ∃ df,
    _ReadJson gap_file []
    = (inr 1%nat, [pd.from_dict gap_records; df]) ∧
    pd.index df !! 1%nat = Some 1%nat ∧
    cell_at df "latitudeE7" 1 = Some pd.NaN ∧
    cell_at df "timestampMs" 0 = Some (pd.CStr "1609459200000").
Proof.
  assert (same_lengths (<["locations"%string := gap_records]> ∅)) as Hs
    by apply singleton_same_lengths.
  split; [exact Hs|].
  destruct (ReadJson_rows (<["locations"%string := gap_records]> ∅) gap_records []
              Hs eq_refl) as (df & Hrun & Hrows).
  exists df. split; [exact Hrun|].
  assert (∀ c, is_Some (sample_record 377749000 (-1224194000) "1609459200000" !! c) →
               c ∈ pd.labels_of gap_records) as Hlab.
  { intros c Hc. apply elem_of_labels_of. eexists. split; [left|exact Hc]. }
  destruct (Hrows 1%nat _ "latitudeE7"%string eq_refl) as (Hidx & x & Hx & Hcase);
    [left|apply Hlab; by eexists|].
  destruct (Hrows 0%nat _ "timestampMs"%string eq_refl) as (_ & y & Hy & Hcase');
    [right; right; left|apply Hlab; by eexists|].
  split; [exact Hidx|]. split.
  - rewrite Hx. f_equal. exact Hcase.
  - rewrite Hy. f_equal. exact Hcase'.
Defined.

(** ** Labels of the same minute *)

Lemma display_of_minute (a b : Z) :
  a / 60000 = b / 60000 → display a = display b.
Proof.
  intros H.
  assert (calendar.days_of_ms a = calendar.days_of_ms b) as Hd.
  { unfold calendar.days_of_ms, calendar.ms_per_day.
    Z.to_euclidean_division_equations; lia. }
  assert (calendar.ms_of_day a / 60000 = calendar.ms_of_day b / 60000) as Hm.
  { unfold calendar.ms_of_day, calendar.ms_per_day.
    Z.to_euclidean_division_equations; lia. }
  assert (calendar.hour a = calendar.hour b) as Hh.
  { unfold calendar.hour. revert Hm. generalize (calendar.ms_of_day a).
    generalize (calendar.ms_of_day b). intros x y Hxy.
    Z.to_euclidean_division_equations; lia. }
  unfold display, calendar.year, calendar.month, calendar.day, calendar.minute.
  by rewrite Hd, Hm, Hh.
Qed.

(** X16. The display string has the resolution of a minute: in an instance
    built from records with numeric timestamps, two rows whose instants
    lie in the same minute carry the same string, whatever their seconds
    and milliseconds, while the [sec] column tells them apart. *)
Theorem same_minute_same_label filepath (h : heap) (w : world)
    (recs : list (gmap string pd.jvalue)) :
  construct filepath h = inr w → records_of filepath = Some recs →
  (∀ r, r ∈ recs → is_Some (timestamp_of r)) →
  ∃ df, view w = Some df ∧
    ∀ i j ri rj a b,
      recs !! i = Some ri → recs !! j = Some rj →
      timestamp_of ri = Some a → timestamp_of rj = Some b →
      a / 60000 = b / 60000 →
      cell_at df "timestamp_string" i = Some (pd.CStr (display a)) ∧
      cell_at df "timestamp_string" j = Some (pd.CStr (display a)) ∧
      cell_at df "sec" i = Some (pd.CInt (a mod 60000 / 1000)) ∧
      cell_at df "sec" j = Some (pd.CInt (b mod 60000 / 1000)).
Proof.
  intros (o & h' & Hinit & ->)%construct_inr_inv Hrecs Hall.
  apply init_inr_inv in Hinit
    as (doc & recs' & date_time & strs & lat & lon & -> & _ & Hloc & _ & _ & _ & Hdt
        & _ & Hstrs & _ & _ & _ & -> & ->).
  cbn [records_of] in Hrecs. rewrite Hloc in Hrecs. injection Hrecs as ->.
  destruct (to_datetime_numeric recs date_time Hall Hdt) as [-> _].
  rewrite (display_strings_timed recs Hall) in Hstrs. injection Hstrs as <-.
  eexists. split; [apply lookup_second|].
  intros i j ri rj a b Hi Hj Ha Hb Hab.
  assert (∀ k r t, recs !! k = Some r → timestamp_of r = Some t →
            cell_at (transformed recs (timestamp_of <$> recs) (display_column recs)
                       lat lon) "timestamp_string" k = Some (pd.CStr (display t)) ∧
            cell_at (transformed recs (timestamp_of <$> recs) (display_column recs)
                       lat lon) "sec" k = Some (pd.CInt (t mod 60000 / 1000))) as Hrow.
  { intros k r t Hk Ht.
    unfold cell_at, transformed. cbn [pd.columns pd.lookup_column String.eqb Ascii.eqb
      Bool.eqb mbind option_bind].
    assert (timestamp_of <$> recs = Some <$> ((λ r, default 0 (timestamp_of r)) <$> recs))
      as ->.
    { rewrite <- list_fmap_compose. apply list_fmap_ext.
      intros n r' Hr'. destruct (Hall r') as [ms Hms]; [by eapply list_elem_of_lookup_2|].
      cbn. by rewrite Hms. }
    unfold display_column.
    rewrite dt_field_present, !list_lookup_fmap, Hk. cbn. rewrite Ht. cbn.
    split; [done|]. do 2 f_equal.
    unfold calendar.second, calendar.ms_of_day, calendar.ms_per_day.
    Z.to_euclidean_division_equations; lia. }
  destruct (Hrow i ri a Hi Ha) as [Hsi Hci].
  destruct (Hrow j rj b Hj Hb) as [Hsj Hcj].
  rewrite (display_of_minute a b Hab) at 2. done.
Qed.

Lemma same_minute_same_label_witness :
  timestamp_of <$> minute_records = [Some 1609462861000; Some 1609462875500] ∧
  ∃ w df,
    construct (pd.Parsed (<["locations"%string := minute_records]> ∅)) [] = inr w ∧
    view w = Some df ∧
    cell_at df "timestamp_string" 0 = Some (pd.CStr "1/1/2021 1:1") ∧
    cell_at df "timestamp_string" 1 = Some (pd.CStr "1/1/2021 1:1") ∧
    cell_at df "sec" 0 = Some (pd.CInt 1) ∧
    cell_at df "sec" 1 = Some (pd.CInt 15).
Proof.
  split; [vm_compute; reflexivity|].
  assert (∀ r, r ∈ minute_records → is_Some (timestamp_of r)) as Hall.
  { unfold minute_records. intros r. rewrite !elem_of_cons.
    intros [->|[->|Hr]]; [..|by apply elem_of_nil in Hr]; vm_compute; eauto. }
  destruct (construct (pd.Parsed (<["locations"%string := minute_records]> ∅)) [])
    as [e|w] eqn:Hc; [vm_compute in Hc; discriminate Hc|].
  destruct (same_minute_same_label _ [] w minute_records Hc eq_refl Hall)
    as (df & Hv & Hrows).
  exists w, df. split; [reflexivity|]. split; [exact Hv|].
  destruct (Hrows 0%nat 1%nat _ _ 1609462861000 1609462875500 eq_refl eq_refl)
    as (H1 & H2 & H3 & H4); [vm_compute; reflexivity..|].
  split; [exact H1|]. split; [exact H2|]. split; [exact H3|exact H4].
Defined.

(** ** Calls in a row *)

(** X17. A list or array mask is matched to the rows of the current view,
    not to those of the original. After a [Filter] with [bs1], a second
    mask must be as long as the rows the first one kept: then the view has
    the rows the second mask marks among those. Otherwise a second array,
    and a second list that is not empty, make the second call raise
    IndexError, and the view stays the one the first call made; an empty
    list as second mask is no mask but a list of no labels: the call returns
    and the view has no rows. So a mask of the length of the original no
    longer fits once a row has been dropped. *)
Theorem Filter_array_twice (w : world) (df : pd.DataFrame) (bs1 bs2 : list bool) :
  view w = Some df → length bs1 = length (pd.index df) →
  (length bs2 = length (filter (λ b, b = true) bs1) →
   ∃ w2 v,
     (Filter (pd.MaskArray bs1) ;; Filter (pd.MaskArray bs2)) w = (inr (), w2) ∧
     (Filter (pd.MaskList bs1) ;; Filter (pd.MaskList bs2)) w = (inr (), w2) ∧
     view w2 = Some v ∧
     pd.index v = pd.select bs2 (pd.select bs1 (pd.index df)) ∧
     v = rows (narrowed bs1 bs2) df) ∧
  (length bs2 ≠ length (filter (λ b, b = true) bs1) →
   ∃ w1,
     view w1 = Some (rows bs1 df) ∧
     (Filter (pd.MaskArray bs1) ;; Filter (pd.MaskArray bs2)) w
     = (inl py.IndexError, w1) ∧
     (bs2 ≠ [] →
      (Filter (pd.MaskList bs1) ;; Filter (pd.MaskList bs2)) w
      = (inl py.IndexError, w1))) ∧
  (∃ w2 v,
     (Filter (pd.MaskList bs1) ;; Filter (pd.MaskList [])) w = (inr (), w2) ∧
     view w2 = Some v ∧ pd.index v = [] ∧
     pd.column_names v = pd.column_names df) ∧
  (length bs2 = length bs1 → false ∈ bs1 →
   ((Filter (pd.MaskArray bs1) ;; Filter (pd.MaskArray bs2)) w).1
   = inl py.IndexError ∧
   ((Filter (pd.MaskList bs1) ;; Filter (pd.MaskList bs2)) w).1
   = inl py.IndexError).
Proof.
  intros Hv Hlen.
  assert (Filter (pd.MaskArray bs1) w = (inr (), filtered (rows bs1 df) w)) as E1.
  { rewrite (Filter_array_run _ _ _ Hv). by rewrite decide_True. }
  assert (Filter (pd.MaskList bs1) w = (inr (), filtered (rows bs1 df) w)) as E1'.
  { by rewrite (Filter_list_fits _ _ _ Hv Hlen). }
  assert (length (pd.index (rows bs1 df)) = length (filter (λ b, b = true) bs1)) as Hkept.
  { cbn [rows pd.index]. by apply select_length. }
  rewrite !(bind_run_inr _ _ _ _ _ E1), !(bind_run_inr _ _ _ _ _ E1').
  rewrite !(Filter_list_run _ _ _ (view_filtered _ _)).
  rewrite (Filter_array_run _ _ _ (view_filtered _ _)). rewrite Hkept.
  assert (length (filter (λ b, b = true) bs1) = length bs1 → false ∉ bs1) as Hall.
  { clear. intros Heq Hb.
    assert (length (filter (λ b, b = true) bs1) < length bs1)%nat; [|lia].
    clear Heq. induction bs1 as [|b bs1 IH]; [by apply elem_of_nil in Hb|].
    rewrite filter_cons. pose proof (length_filter (λ b, b = true) bs1).
    apply elem_of_cons in Hb as [<-|Hb].
    + rewrite decide_False by done. cbn [length]. lia.
    + specialize (IH Hb). case_decide; cbn [length]; lia. }
  split_and!.
  - intros H2. rewrite !(decide_True (P := length bs2 = _)) by done.
    exists (filtered (rows bs2 (rows bs1 df)) (filtered (rows bs1 df) w)),
      (rows bs2 (rows bs1 df)).
    split; [reflexivity|]. split.
    { case_decide as Hnil; [|reflexivity]. by subst bs2. }
    rewrite view_filtered.
    split; [reflexivity|]. split; [reflexivity|apply rows_rows].
  - intros H2. rewrite !(decide_False (P := length bs2 = _)) by done.
    exists (filtered (rows bs1 df) w). split; [apply view_filtered|].
    split; [reflexivity|]. intros Hne. by rewrite decide_False.
  - rewrite (decide_True (P := [] = [])) by done.
    do 2 eexists. split; [reflexivity|]. rewrite view_filtered.
    split; [reflexivity|]. split; [reflexivity|].
    by rewrite !rows_names.
  - intros H2 Hb.
    assert (length bs2 ≠ length (filter (λ b, b = true) bs1)) as Hne.
    { rewrite H2. intros Heq. by apply Hall. }
    rewrite !(decide_False (P := length bs2 = _)) by done.
    split; [done|]. rewrite decide_False; [done|].
    intros ->. destruct bs1; [by apply elem_of_nil in Hb|done].
Qed.

Lemma Filter_array_twice_witness :
  view sample_world = Some sample_frame ∧
  (∃ w2 v,
     (Filter (pd.MaskArray [true; false; true; true; false]) ;;
      Filter (pd.MaskArray [false; true; true])) sample_world = (inr (), w2) ∧
     view w2 = Some v ∧ pd.index v = [2%nat; 3%nat]) ∧
  ((Filter (pd.MaskArray [true; false; true; true; false]) ;;
    Filter (pd.MaskArray [true; false; true; true; false])) sample_world).1
  = inl py.IndexError ∧
  ((Filter (pd.MaskList [true; false; true; true; false]) ;;
    Filter (pd.MaskList [true; false; true; true; false])) sample_world).1
  = inl py.IndexError ∧
  ((Filter (pd.MaskList [true; false; true; true; false]) ;;
    Filter (pd.MaskList [])) sample_world).1
  = inr ().
Proof.
  assert (view sample_world = Some sample_frame) as Hv by reflexivity.
  split; [exact Hv|]. split; [|split; [|split]].
  - destruct (Filter_array_twice sample_world sample_frame
                [true; false; true; true; false] [false; true; true] Hv eq_refl)
      as (H & _ & _).
    destruct (H eq_refl) as (w2 & v & Hrun & _ & Hv2 & Hidx & _).
    exists w2, v. split; [exact Hrun|]. split; [exact Hv2|exact Hidx].
  - destruct (Filter_array_twice sample_world sample_frame
                [true; false; true; true; false] [true; false; true; true; false]
                Hv eq_refl) as (_ & _ & _ & H).
    apply H; [reflexivity|]. right; left.
  - destruct (Filter_array_twice sample_world sample_frame
                [true; false; true; true; false] [true; false; true; true; false]
                Hv eq_refl) as (_ & _ & _ & H).
    apply H; [reflexivity|]. right; left.
  - destruct (Filter_array_twice sample_world sample_frame
                [true; false; true; true; false] [] Hv eq_refl)
      as (_ & _ & (w2 & v & Hrun & _) & _).
    by rewrite Hrun.
Defined.

(** X18. [Filter] and then [PlotMap], with arguments plotly accepts: when
    the mask, a list or an array, keeps a row at least, the figure shows the
    rows the mask keeps and no other, its one trace made of the selected
    cells of the three columns, and the view is the filtered frame. *)
Theorem Filter_then_PlotMap (plotly : go.Plotly) (w : world) (df : pd.DataFrame)
    (bs : list bool)
    (token mode : string) (markersize : Z) (markercolour : string)
    (opacity : float) (height width : Z) (style : string)
    (renderer : option string) (kwargs : go.keywords) :
  reachable w → view w = Some df → length bs = length (pd.index df) →
  true ∈ bs →
  accepted plotly token mode markersize markercolour opacity height width style
    renderer kwargs →
  ∃ lats lons texts figure w',
    pd.getitem "latitudeE7" df = inr lats ∧
    pd.getitem "longitudeE7" df = inr lons ∧
    pd.getitem "timestamp_string" df = inr texts ∧
    (Filter (pd.MaskArray bs) ;;
     PlotMap plotly token mode markersize markercolour opacity height width style
       renderer kwargs) w
    = (inr figure, w') ∧
    (Filter (pd.MaskList bs) ;;
     PlotMap plotly token mode markersize markercolour opacity height width style
       renderer kwargs) w
    = (inr figure, w') ∧
    go.traces figure
    = [scatter_of mode markersize markercolour opacity
         (pd.select bs lats) (pd.select bs lons) (pd.select bs texts)] ∧
    length (pd.select bs lats) = length (filter (λ b, b = true) bs) ∧
    fig (self w') = Some figure ∧
    view w' = Some (rows bs df).
Proof.
  intros Hr Hv Hlen Hb (Ht & Hl & Hs).
  destruct (reachable_sound w Hr) as [(df' & Hv' & Hp) _].
  rewrite Hv in Hv'. injection Hv' as <-.
  destruct Hp as (lats & lons & texts & H1 & H2 & H3 & L1 & L2 & L3).
  exists lats, lons, texts.
  assert (Filter (pd.MaskArray bs) w = (inr (), filtered (rows bs df) w)) as E1.
  { rewrite (Filter_array_run _ _ _ Hv). by rewrite decide_True. }
  assert (Filter (pd.MaskList bs) w = (inr (), filtered (rows bs df) w)) as E1'.
  { by rewrite (Filter_list_fits _ _ _ Hv Hlen). }
  rewrite (bind_run_inr _ _ _ _ _ E1), (bind_run_inr _ _ _ _ _ E1').
  assert (length (filter (λ b, b = true) bs) ≠ 0%nat) as Hpos.
  { clear -Hb. induction bs as [|b bs IH]; [by apply elem_of_nil in Hb|].
    rewrite filter_cons. apply elem_of_cons in Hb as [<-|Hb].
    - by rewrite decide_True.
    - case_decide; cbn [length]; [lia|auto]. }
  assert (length (pd.select bs lats) = length (filter (λ b, b = true) bs)) as Ls1
    by (apply select_length; congruence).
  assert (length (pd.select bs lons) = length (filter (λ b, b = true) bs)) as Ls2
    by (apply select_length; congruence).
  assert (pd.select bs lats ≠ []) as Hn1 by (intros E; by rewrite E in Ls1).
  assert (pd.select bs lons ≠ []) as Hn2 by (intros E; by rewrite E in Ls2).
  destruct (mid_lookup_is_Some _ Hn1) as [clat Hclat].
  destruct (mid_lookup_is_Some _ Hn2) as [clon Hclon].
  erewrite (PlotMap_run plotly token mode markersize markercolour opacity height
              width style renderer kwargs _ (rows bs df) (pd.select bs lats)
              (pd.select bs lons) (pd.select bs texts));
    [|apply view_filtered
     |cbn [rows pd.columns]; rewrite lookup_select_columns;
      first [by rewrite H1|by rewrite H2|by rewrite H3]..].
  cbv zeta. rewrite Ht, Hclat, Hclon, Hl, Hs. do 2 eexists.
  unfold pd.getitem. rewrite H1, H2, H3.
  split_and!; try done.
  exact (view_filtered (rows bs df) w).
Qed.

Lemma Filter_then_PlotMap_witness :
  reachable sample_world ∧ view sample_world = Some sample_frame ∧
  ∃ figure w',
    (Filter (pd.MaskArray [false; false; false; true; true]) ;;
     PlotMap_defaults sample_plotly "token") sample_world = (inr figure, w') ∧
    (go.text <$> go.traces figure)
    = [[pd.CStr "2/29/2024 12:0"; pd.CStr "12/31/1969 0:0"]].
Proof.
  assert (view sample_world = Some sample_frame) as Hv by reflexivity.
  split; [exact reachable_sample_world|]. split; [exact Hv|].
  destruct (Filter_then_PlotMap sample_plotly sample_world sample_frame
              [false; false; false; true; true] "token" "markers" 10 "rgb(255,0,0)"
              (PrimFloat.div (py.float_of_Z 3) (py.float_of_Z 10)) 800 1200
              "outdoors" None [] reachable_sample_world Hv eq_refl)
    as (lats & lons & texts & figure & w' & _ & _ & Htexts & Hrun & _ & Ht & _).
  { do 3 right; left. }
  { exact sample_plotly_accepts_defaults. }
  exists figure, w'. split; [exact Hrun|]. rewrite Ht.
  vm_compute in Htexts. injection Htexts as <-. reflexivity.
Defined.

(** X19. A boolean Series over the labels of the original fits every view
    of the instance, whatever was filtered before: [Filter] returns, and
    the view then has the rows of the old view that the Series marks
    true. *)
Theorem Filter_series_of_original (w : world) (df0 : pd.DataFrame)
    (s : gmap nat bool) :
  reachable w → original w = Some df0 →
  (∀ i, (i < length (pd.index df0))%nat → is_Some (s !! i)) →
  ∃ df v w',
    view w = Some df ∧
    Filter (pd.MaskSeries s) w = (inr (), w') ∧
    view w' = Some v ∧
    pd.index v = filter (λ i, s !! i = Some true) (pd.index df) ∧
    pd.column_names v = pd.column_names df.
Proof.
  intros Hr Ho Hs.
  destruct (reachable_consistent w Hr)
    as (df0' & bs & Ho' & Hv & Hlen & Hn & Hrect & Hidx & Hne).
  rewrite Ho in Ho'. injection Ho' as <-.
  assert (∀ i, i ∈ pd.index (rows bs df0) → is_Some (s !! i)) as Hall.
  { intros i Hi. apply Hs. cbn [rows pd.index] in Hi.
    pose proof (elem_of_sublist _ _ _ Hi (select_sublist bs (pd.index df0))) as Hi0.
    rewrite Hidx in Hi0. apply elem_of_seq in Hi0. lia. }
  exists (rows bs df0). do 2 eexists. split; [done|].
  rewrite (Filter_run _ _ _ Hv). unfold pd.loc.
  rewrite (check_series_inr s _ Hall).
  split; [reflexivity|]. split; [apply view_filtered|].
  split; [|apply (rows_names _ (rows bs df0))].
  cbn [pd.index].
  rewrite (select_fmap_filter (λ i, default false (s !! i))).
  apply list_filter_iff. intros i.
  destruct (s !! i) as [[]|]; cbn; intuition congruence.
Qed.

Lemma Filter_series_of_original_witness :
  reachable sample_narrowed ∧ original sample_narrowed = Some sample_frame ∧
  ∃ v w',
    Filter (pd.MaskSeries long_series) sample_narrowed = (inr (), w') ∧
    view w' = Some v ∧ pd.index v = [0%nat; 3%nat].
Proof.
  assert (reachable sample_narrowed) as Hr.
  { change sample_narrowed
      with (Filter (pd.MaskArray [true; false; true; true; false]) sample_world).2.
    apply reach_Filter, reachable_sample_world. }
  assert (original sample_narrowed = Some sample_frame) as Ho by reflexivity.
  split; [exact Hr|]. split; [exact Ho|].
  destruct (Filter_series_of_original sample_narrowed sample_frame long_series Hr Ho)
    as (df & v & w' & Hv & Hrun & Hv' & Hidx & _).
  { change (length (pd.index sample_frame)) with 5%nat. intros i Hi.
    destruct i as [|[|[|[|[|i]]]]]; [by eexists..|lia]. }
  exists v, w'. split; [exact Hrun|]. split; [exact Hv'|].
  rewrite Hidx. vm_compute in Hv. injection Hv as <-. reflexivity.
Defined.
